(** * flashcardz: card store and review session

    A shallow embedding of [src/flashcardz/flashcardz.py]:
    the card store ([_open], [_save]), the [add] mutator and the review
    session [go], followed by the properties of the specification that
    were checked against them.

    Conventions of the embedding.
    - Text is a [string]; a character stands for a code point in
      U+0000..U+00FF, on which the Python built-ins used by the program
      ([str.isnumeric], [str.lower], [str.split], [int]) are written out.
    - A Python exception is a value of [exn]; code that can raise returns
      an [outcome].  [SystemExit] is a [BaseException] and therefore not
      caught by [except Exception].
    - The [csv] module, [datetime.strptime], [random.random] and the
      console are collaborators: the card file is the list of rows that
      [csv.reader] yields, the validity of a date under the configured
      format is the predicate [legit_date], the random draws are the
      function [rnd], and console input is the list of lines typed. *)

From Stdlib Require Import ZArith NArith String Ascii DecimalString DecimalZ Lia.
From stdpp Require Import base option list sorting strings.

Local Open Scope string_scope.
Local Open Scope Z_scope.
Local Open Scope list_scope.

(** ** Python built-ins on text *)

Module Py.

Definition ord (c : ascii) : N := N_of_ascii c.

(** [c.isspace()], which is also what [str.split()] splits on. *)
Definition isspace (c : ascii) : bool :=
  let n := ord c in
  ((9 <=? n) && (n <=? 13) || (28 <=? n) && (n <=? 32)
   || (n =? 133) || (n =? 160))%N.

(** [c.isdecimal()]: the digits 0-9. *)
Definition isdecimal (c : ascii) : bool :=
  let n := ord c in ((48 <=? n) && (n <=? 57))%N.

(** [c.isnumeric()]: the digits and the superscripts and fractions
    U+00B2, U+00B3, U+00B9, U+00BC, U+00BD, U+00BE. *)
Definition isnumeric_char (c : ascii) : bool :=
  let n := ord c in
  (isdecimal c || (n =? 178) || (n =? 179) || (n =? 185)
   || (n =? 188) || (n =? 189) || (n =? 190))%N.

Fixpoint all_chars (p : ascii -> bool) (s : string) : bool :=
  match s with
  | EmptyString => true
  | String c s' => p c && all_chars p s'
  end.

Definition nonempty (s : string) : bool :=
  match s with EmptyString => false | String _ _ => true end.

(** [s.isnumeric()]: at least one character, all of them numeric. *)
Definition isnumeric (s : string) : bool :=
  nonempty s && all_chars isnumeric_char s.

(** [c.lower()]: A-Z and U+00C0..U+00DE (but not the sign U+00D7) move
    up by 32. *)
Definition lower_char (c : ascii) : ascii :=
  let n := ord c in
  if ((65 <=? n) && (n <=? 90)
      || (192 <=? n) && (n <=? 222) && negb (n =? 215))%N
  then ascii_of_N (n + 32) else c.

Fixpoint lower (s : string) : string :=
  match s with
  | EmptyString => EmptyString
  | String c s' => String (lower_char c) (lower s')
  end.

(** [''.join(s.split())]: [s] without its white space. *)
Fixpoint join_split (s : string) : string :=
  match s with
  | EmptyString => EmptyString
  | String c s' =>
      if isspace c then join_split s' else String c (join_split s')
  end.

(** [s.replace(old, new)] for one-character [old] and [new]. *)
Fixpoint replace (old new : ascii) (s : string) : string :=
  match s with
  | EmptyString => EmptyString
  | String c s' =>
      String (if Ascii.eqb c old then new else c) (replace old new s')
  end.

(** [int(s)] on text without sign, blank or underscore, which is all
    the program passes to it (every call follows an [isnumeric] test):
    the decimal value when every character is one of 0-9, [ValueError]
    ([None]) otherwise.  The interpreter's bound on the number of digits
    ([sys.set_int_max_str_digits]) is taken to be off, here and in
    [str_of_int]. *)
Definition int_of_str (s : string) : option Z :=
  Z.of_uint <$> NilZero.uint_of_string s.

(** [str(n)] for an integer. *)
Definition str_of_int (n : Z) : string :=
  NilZero.string_of_int (Z.to_int n).

(** The two kinds of value a card holds in its viewed and tally
    fields: text as read from the file, an integer once the session
    has updated it. *)
Inductive value :=
  | Str (s : string)
  | Int (n : Z).

(** [int(v)] *)
Definition int (v : value) : option Z :=
  match v with
  | Str s => int_of_str s
  | Int n => Some n
  end.

(** [str(v)], as [csv.writer] applies it to every field. *)
Definition str (v : value) : string :=
  match v with
  | Str s => s
  | Int n => str_of_int n
  end.

(** [ans and ans[0].lower() == c] *)
Definition first_lower_is (c : ascii) (ans : string) : bool :=
  match ans with
  | EmptyString => false
  | String a _ => Ascii.eqb (lower_char a) c
  end.

End Py.

(** ** Exceptions and outcomes *)

Inductive exn :=
  | SystemExit
  | OSError
  | CsvError
  | IndexError
  | ValueError
  | EOFError
  | ZeroDivisionError.

(** [isinstance(e, Exception)] *)
Definition is_Exception (e : exn) : bool :=
  match e with SystemExit => false | _ => true end.

Inductive outcome (A : Type) :=
  | Ok (a : A)
  | Raise (e : exn).
Arguments Ok {A} a.
Arguments Raise {A} e.

#[global] Instance outcome_ret : MRet outcome := @Ok.

#[global] Instance outcome_bind : MBind outcome := fun A B k m =>
  match m with
  | Ok a => k a
  | Raise e => Raise e
  end.

(** [l[i]], raising [IndexError] out of range. *)
Definition item {A} (l : list A) (i : nat) : outcome A :=
  match l !! i with
  | Some a => Ok a
  | None => Raise IndexError
  end.

(** [int(v)], raising [ValueError]. *)
Definition to_int (v : Py.value) : outcome Z :=
  match Py.int v with
  | Some n => Ok n
  | None => Raise ValueError
  end.

(** ** Data model *)

(** A card is the Python list [[word, definition, date, viewed, tally]];
    a file row with more than five fields keeps the rest in [extra]. *)
Record card := Card {
  c_word : string;
  c_definition : string;
  c_date : string;
  c_viewed : Py.value;
  c_tally : Py.value;
  c_extra : list string
}.

(** The value of [_settings['abort']]: the settings file first holds the
    text ["False"], [_setabort] stores a Boolean. *)
Inductive abort_setting :=
  | AbortBool (b : bool)
  | AbortText (s : string).

Record settings := Settings {
  maxtally : Z;
  tallypenalty : Z;
  abort_default : abort_setting
}.

Definition delimiter : ascii := "|".
Definition substitute : ascii := ";".

(** What is at [_settings['pathname']]: nothing that can be opened, or
    the rows [csv.reader] yields followed, when [broken] holds an
    exception, by that exception instead of the end of the file. *)
Inductive file :=
  | Unreadable
  | Rows (rows : list (list string)) (broken : option exn).

(** ** Card store *)

Section CardStore.

(** [datetime.strptime(s, _settings['date_format'])] does not raise
    [ValueError]. *)
Variable legit_date : string -> bool.

Definition fields : list string :=
  ["word"; "definition"; "date"; "viewed"; "tally"].

(** [del _card[2:]] and the three [append]s of a short row. *)
Definition repair (today : string) (_card : list string) : list string :=
  take 2 _card ++ [today; "0"; "0"].

(** Lines 524-533: the checks of fields 2, 3 and 4; [_card[2]] raises
    [IndexError] on a row without fields. *)
Definition normalize (today : string) (_card : list string) : outcome card :=
  match _card with
  | w :: d :: dt :: v :: t :: more =>
      Ok {| c_word := w;
            c_definition := d;
            c_date := if legit_date dt then dt else today;
            c_viewed := Py.Str (if Py.isnumeric v then v else "0");
            c_tally := Py.Str (if Py.isnumeric t then t else "0");
            c_extra := more |}
  | _ => Raise IndexError
  end.

(** The body of [for _card in csvreader], up to the final [append]. *)
Definition read_row (today : string) (_card : list string) : outcome card :=
  let ln := length _card in
  if bool_decide (1 < ln < 5)%nat then normalize today (repair today _card)
  else if bool_decide (ln = 1%nat) then Raise SystemExit
  else normalize today _card.

(** The [for] loop: the cards collected, and the exception that ended
    the loop if one did. *)
Fixpoint read_rows (today : string) (rows : list (list string))
    (broken : option exn) (_cards : list card) : list card * option exn :=
  match rows with
  | [] => (_cards, broken)
  | r :: rows' =>
      match read_row today r with
      | Ok c =>
          read_rows today rows' broken
            (if String.eqb (c_word c) "word" then _cards else _cards ++ [c])
      | Raise e => (_cards, Some e)
      end
  end.

(** [_open()], with [_settings['pathname']] set.  The result is
    [_cards] and the exception its handler reported, if any. *)
Definition _open (today : string) (f : file)
    : outcome (list card * option exn) :=
  let '(_cards, raised) :=
    match f with
    | Unreadable => ([], Some OSError)
    | Rows rows broken => read_rows today rows broken []
    end in
  match raised with
  | None => Ok (_cards, None)
  | Some e => if is_Exception e then Ok (_cards, Some e) else Raise e
  end.

(** The row [csv.writer] writes for a card. *)
Definition to_row (c : card) : list string :=
  [c_word c; c_definition c; c_date c;
   Py.str (c_viewed c); Py.str (c_tally c)] ++ c_extra c.

(** [_save(_cards)]: the file after a write that succeeds. *)
Definition _save (_cards : list card) : file :=
  Rows (fields :: map to_row _cards) None.

End CardStore.

(** ** add *)

(** [''.join(w.split()).lower()] *)
Definition normalized (w : string) : string := Py.lower (Py.join_split w).

(** The [for i, x in enumerate(_cards)] loop of [add]: [Some] of the new
    list when a card matched (the [break]), [None] when the loop ran to
    its [else]. *)
Fixpoint replace_match (word definition : string) (i : nat)
    (rest _cards : list card) : option (list card) :=
  match rest with
  | [] => None
  | x :: rest' =>
      if String.eqb (normalized (c_word x)) (normalized word)
      then Some (delete i _cards
                 ++ [Card word definition (c_date x) (c_viewed x) (c_tally x) []])
      else replace_match word definition (S i) rest' _cards
  end.

(** Lines 376-388: the list handed to [_save]. *)
Definition upsert (today word definition : string) (_cards : list card)
    : list card :=
  let word := Py.replace delimiter substitute word in
  let definition := Py.replace delimiter substitute definition in
  match replace_match word definition 0 _cards _cards with
  | Some _cards' => _cards'
  | None => _cards ++ [Card word definition today (Py.Int 0) (Py.Int 0) []]
  end.

(** [add(word, definition)] for two [str] arguments: the card file
    afterwards. *)
Definition add (legit_date : string -> bool) (today word definition : string)
    (f : file) : outcome file :=
  if Py.nonempty word && Py.nonempty definition then
    '(_cards, _) ← _open legit_date today f;
    Ok (_save (upsert today word definition _cards))
  else Ok f.

(** ** go *)

(** [_settings['abort'] == True] *)
Definition abort_is_True (cfg : settings) : bool :=
  match abort_default cfg with
  | AbortBool b => b
  | AbortText _ => false
  end.

(** The truth value of [_settings['abort']]. *)
Definition abort_truthy (cfg : settings) : bool :=
  match abort_default cfg with
  | AbortBool b => b
  | AbortText s => Py.nonempty s
  end.

(** [ans and (ans[0].lower() == 'q' or ans[0].lower() == 'e')] *)
Definition is_quit (ans : string) : bool :=
  Py.first_lower_is "q" ans || Py.first_lower_is "e" ans.

(** [ans and ans[0] == '-' and ans[1:] and ans[1:].isnumeric()] *)
Definition is_unhide (ans : string) : bool :=
  match ans with
  | String a rest => Ascii.eqb a "-" && Py.isnumeric rest
  | EmptyString => false
  end.

(** The local variables of [go] that outlive one card.  [missed] holds
    the rows appended to it; [go] reads only their word, which the
    session never assigns.  ([hide_url] and [number] only steer what is
    printed.) *)
Record session := Session {
  s_cards : list card;
  s_abort : bool;
  s_unwanted : list nat;
  s_missed : list card;
  s_correcttext : string
}.

Definition set_tally (c : card) (t : Z) : card :=
  Card (c_word c) (c_definition c) (c_date c) (c_viewed c) (Py.Int t) (c_extra c).

Definition set_viewed (c : card) (v : Z) : card :=
  Card (c_word c) (c_definition c) (c_date c) (Py.Int v) (c_tally c) (c_extra c).

(** How one pass through the body of [while loop] ends. *)
Inductive reply :=
  | Again (s : session)
  | Next (s : session)
  | Return.

(** Lines 769-772, the answer "n". *)
Definition not_known (cfg : settings) (k : nat) (s : session) : outcome reply :=
  c ← item (s_cards s) k;
  let c := set_tally c (Z.max 0 (maxtally cfg - tallypenalty cfg)) in
  Ok (Next (Session (<[k := c]> (s_cards s)) (s_abort s) (s_unwanted s)
              (s_missed s ++ [c]) (s_correcttext s))).

(** Lines 774-778, the answer "y", and the same statements at lines
    780-784, the final [else]. *)
Definition known (cfg : settings) (k : nat) (s : session) : outcome reply :=
  c ← item (s_cards s) k;
  t ← to_int (c_tally c);
  let c := set_tally c (t + 1) in
  Ok (Next (Session (<[k := c]> (s_cards s)) (s_abort s)
              (if maxtally cfg <=? t + 1 then s_unwanted s ++ [k]
               else s_unwanted s)
              (s_missed s) (s_correcttext s))).

(** The [if]/[elif] chain on [ans], lines 742-784.  Opening the link is
    left to the browser; [int(ans)] is evaluated for it. *)
Definition respond (cfg : settings) (k : nat) (ans : string) (s : session)
    : outcome reply :=
  if Py.isnumeric ans then
    _ ← to_int (Py.Str ans);
    Ok (Again s)
  else if is_unhide ans then Ok (Again s)
  else if Py.first_lower_is "i" ans then Ok (Again s)
  else if is_quit ans then Ok Return
  else if Py.first_lower_is "a" ans && negb (s_abort s) then
    Ok (Again (Session (s_cards s) true (s_unwanted s) (s_missed s)
                 "Correctly answered? (Y/n/i/q) "))
  else if Py.first_lower_is "a" ans && s_abort s then
    Ok (Again (Session (s_cards s) false (s_unwanted s) (s_missed s)
                 "Correctly answered? (Y/n/i/a/q) "))
  else if Py.first_lower_is "n" ans then not_known cfg k s
  else if Py.first_lower_is "y" ans then known cfg k s
  else known cfg k s.

(** The [while loop] after its first pause: [None] is the [return] out
    of [go], otherwise the state and the lines not yet read. *)
Fixpoint ask (cfg : settings) (k : nat) (s : session) (inputs : list string)
    : outcome (option (session * list string)) :=
  match inputs with
  | [] => Raise EOFError
  | ans :: inputs' =>
      r ← respond cfg k ans s;
      match r with
      | Again s' => ask cfg k s' inputs'
      | Next s' => Ok (Some (s', inputs'))
      | Return => Ok None
      end
  end.

(** The body of [for k in index_list]. *)
Definition show (cfg : settings) (k : nat) (s : session) (inputs : list string)
    : outcome (option (session * list string)) :=
  c ← item (s_cards s) k;
  v ← to_int (c_viewed c);
  let s := Session (<[k := set_viewed c (v + 1)]> (s_cards s)) (s_abort s)
             (s_unwanted s) (s_missed s) (s_correcttext s) in
  match inputs with
  | [] => Raise EOFError
  | ans0 :: inputs' => if is_quit ans0 then Ok None else ask cfg k s inputs'
  end.

(** [for k in index_list] *)
Fixpoint pass (cfg : settings) (index_list : list nat) (s : session)
    (inputs : list string) : outcome (option (session * list string)) :=
  match index_list with
  | [] => Ok (Some (s, inputs))
  | k :: index_list' =>
      r ← show cfg k s inputs;
      match r with
      | None => Ok None
      | Some (s', inputs') => pass cfg index_list' s' inputs'
      end
  end.

(** [sorted(l, key=key)]: a stable sort, by insertion from the right. *)
Fixpoint insert_by {A} (key : A -> N) (x : A) (l : list A) : list A :=
  match l with
  | [] => [x]
  | y :: l' =>
      if (key x <=? key y)%N then x :: y :: l' else y :: insert_by key x l'
  end.

Definition sorted {A} (key : A -> N) (l : list A) : list A :=
  foldr (insert_by key) [] l.

(** Lines 703-710.  [rnd i] is the [i]-th value [random.random()]
    returns to the sort, as the numerator of the fraction over 2^53 it
    is; the key function is called once per element, in list order. *)
Definition traversal (rnd : nat -> N) (shuffle : bool) (n : nat) : list nat :=
  let index_list := seq 0 n in
  if shuffle then sorted rnd index_list else index_list.

(** [for ele in unwanted[::-1]]: the words printed and the list left. *)
Fixpoint remove_all (eles : list nat) (_cards : list card)
    : outcome (list card * list string) :=
  match eles with
  | [] => Ok (_cards, [])
  | ele :: eles' =>
      c ← item _cards ele;
      '(_cards', words) ← remove_all eles' (delete ele _cards);
      Ok (_cards', c_word c :: words)
  end.

(** [int(100 * (remaining - missed) / remaining)]: the true quotient cut
    towards zero (the float quotient of these integers is cut to the
    same integer for any deck of fewer than 2^46 cards). *)
Definition percent (remaining missed : nat) : outcome Z :=
  if bool_decide (remaining = 0%nat) then Raise ZeroDivisionError
  else Ok (Z.quot (100 * (Z.of_nat remaining - Z.of_nat missed))
             (Z.of_nat remaining)).

(** The value of [i] after [for i, c in enumerate(_cards)] of lines
    814-816 on a list that is not empty: the first position holding the
    word, the last position when none does. *)
Fixpoint position (w : string) (i : nat) (l : list card) : nat :=
  match l with
  | [] => i
  | c :: l' =>
      if String.eqb (c_word c) w then i
      else match l' with [] => i | _ :: _ => position w (S i) l' end
  end.

(** What the end of the pass prints. *)
Record summary := Summary {
  removed : list string;
  percent_correct : option Z;
  missed_words : list (nat * string)
}.

(** Lines 787-823: the list left after the removals, and the summary. *)
Definition end_of_pass (s : session) : outcome (list card * summary) :=
  '(_cards, words) ←
    remove_all (reverse (sorted N.of_nat (s_unwanted s))) (s_cards s);
  p ← match s_missed s with
      | [] => Ok None
      | _ :: _ =>
          p ← percent (length _cards) (length (s_missed s)); Ok (Some p)
      end;
  Ok (_cards,
      Summary words p
        ((λ m, (position (c_word m) 0 _cards, c_word m)) <$> s_missed s)).

(** The state when the [for] loop starts, lines 712-719. *)
Definition start (cfg : settings) (_cards : list card) : session :=
  let abort := false in
  Session _cards abort [] []
    (if abort_truthy cfg then "Meaning known? (Y/n/i/q) "
     else "Meaning known? (Y/n/i/a/q) ").

(** [go(shuffle)]: the card file afterwards and, when the pass was
    completed, its summary. *)
Definition go (legit_date : string -> bool) (today : string) (cfg : settings)
    (rnd : nat -> N) (shuffle : bool) (inputs : list string) (f : file)
    : outcome (file * option summary) :=
  let abort := abort_is_True cfg in
  match inputs with
  | [] => Raise EOFError
  | ans1 :: inputs =>
      if is_quit ans1 then Ok (f, None)
      else
        '(_cards, _) ← _open legit_date today f;
        let index_list := traversal rnd shuffle (length _cards) in
        r ← pass cfg index_list (start cfg _cards) inputs;
        match r with
        | None => Ok (f, None)
        | Some (s, _) =>
            '(_cards, report) ← end_of_pass s;
            if negb (s_abort s) then Ok (_save _cards, Some report)
            else Ok (f, Some report)
        end
  end.

(** The cards of [l] at the positions from [i] on that are not in
    [marked], in order. *)
Fixpoint unmarked (marked : list nat) (i : nat) (l : list card) : list card :=
  match l with
  | [] => []
  | c :: l' =>
      if bool_decide (i ∈ marked) then unmarked marked (S i) l'
      else c :: unmarked marked (S i) l'
  end.

(** The cases the specification lists before the correct response:
    a link number, a request to show the URLs, "i", a quit token, an
    abort toggle, "n". *)
Definition classified_before_correct (ans : string) : bool :=
  Py.isnumeric ans || is_unhide ans || Py.first_lower_is "i" ans
  || is_quit ans || Py.first_lower_is "a" ans || Py.first_lower_is "n" ans.

(** The tally of a card, read as [go] reads it, is not negative. *)
Definition tally_at_least_0 (c : card) : Prop :=
  ∀ t, Py.int (c_tally c) = Some t → 0 ≤ t.

(** Small decks and settings used in the examples. *)
Definition any_date : string -> bool := λ _, true.
Definition ten : settings := Settings 10 10 (AbortText "False").

(** ** Further definitions *)

(** What [_open] leaves in a card: a word that is not the header's, a
    date that [strptime] accepts or today's, and numeric text in the
    two counters. *)
Definition loaded_card (legit_date : string -> bool) (today : string)
    (c : card) : Prop :=
  c_word c ≠ "word"
  ∧ (legit_date (c_date c) = true ∨ c_date c = today)
  ∧ (∃ v, c_viewed c = Py.Str v ∧ Py.isnumeric v = true)
  ∧ (∃ t, c_tally c = Py.Str t ∧ Py.isnumeric t = true).

(** A card as [csv.writer] and then [_open] turn it: its two counters
    as text. *)
Definition textual (c : card) : card :=
  Card (c_word c) (c_definition c) (c_date c)
    (Py.Str (Py.str (c_viewed c))) (Py.Str (Py.str (c_tally c))) (c_extra c).

(** The order of two positions in a shuffled deck: by the draws, and by
    position in the file when the draws are equal. *)
Definition drawn_before (rnd : nat -> N) (a b : nat) : Prop :=
  (rnd a < rnd b)%N ∨ (rnd a = rnd b ∧ (a < b)%nat).

(** What a card is like after a completed pass: the word, a date the
    format accepts, and two integers that are not negative. *)
Definition shown_card (legit_date : string -> bool) (c : card) : Prop :=
  c_word c ≠ "word"
  ∧ legit_date (c_date c) = true
  ∧ ∃ v t, c_viewed c = Py.Int v ∧ c_tally c = Py.Int t ∧ 0 ≤ v ∧ 0 ≤ t.

(** What holds of the marks and of the missed cards once the cards at
    the positions [seen] have been shown: only cards shown are marked,
    and every missed card is still in the deck, at a position shown and
    not marked, under the word it was missed with. *)
Definition marks_and_misses (seen : list nat) (s : session) : Prop :=
  (∀ u, u ∈ s_unwanted s → u ∈ seen)
  ∧ ∀ m, m ∈ s_missed s →
      ∃ k c, (k ∈ seen) ∧ (k ∉ s_unwanted s)
             ∧ s_cards s !! k = Some c ∧ c_word c = c_word m.

(** ** delete *)

(** [int(float(n))] for an int [n]: [n] rounded to 53 significant bits,
    to even on a tie; [None] is the [OverflowError] that [float] raises
    from 2^1024 on. *)
Definition int_of_float_of_int (n : Z) : option Z :=
  let a := Z.abs n in
  if a <? 2 ^ 53 then Some n
  else
    let e := Z.log2 a - 52 in
    let q := Z.shiftr a e in
    let r := a mod 2 ^ e in
    let half := 2 ^ (e - 1) in
    let q := if (half <? r) || ((r =? half) && Z.odd q) then q + 1 else q in
    let v := Z.shiftl q e in
    if 2 ^ 1024 <=? v then None else Some (Z.sgn n * v).

(** What [delete] prints last. *)
Inductive delete_said :=
  | NoSuchCard (number : Z)
  | NotDeleted (number : Z)
  | CardDeleted (number : Z) (word : string).

(** How a call of [delete] ends: it returns, with the card file as it
    then is, or an exception leaves it. *)
Inductive delete_end :=
  | DeleteReturned (f : file) (said : delete_said)
  | DeleteRaised (e : exn)
  | DeleteOverflowError.

Module Flashcardz.

(** [delete(number)] for an [int] argument; [inputs] are the lines
    typed. *)
Definition delete (legit_date : string -> bool) (today : string) (number : Z)
    (inputs : list string) (f : file) : delete_end :=
  match _open legit_date today f with
  | Raise e => DeleteRaised e
  | Ok (_cards, _) =>
      match int_of_float_of_int number with
      | None => DeleteOverflowError
      | Some m =>
          let number := Z.abs m in
          if number <? Z.of_nat (length _cards) then
            match item _cards (Z.to_nat number) with
            | Raise e => DeleteRaised e
            | Ok c =>
                match inputs with
                | [] => DeleteRaised EOFError
                | confirm :: _ =>
                    if String.eqb (Py.lower confirm) "n"
                       || String.eqb (Py.lower confirm) "no"
                    then DeleteReturned f (NotDeleted number)
                    else DeleteReturned
                           (_save (base.delete (Z.to_nat number) _cards))
                           (CardDeleted number (c_word c))
                end
            end
          else DeleteReturned f (NoSuchCard number)
      end
  end.

End Flashcardz.

(** No character of [s] is the delimiter. *)
Definition delimiter_free (s : string) : bool :=
  Py.all_chars (λ a, negb (Ascii.eqb a delimiter)) s.

(** ** Links in a definition *)

Definition newline : ascii := ascii_of_nat 10.

(** The rest of a lazy [.+?] that is followed by [close]: the text up
    to and with the first [close], and the text after it; nothing when
    a line ends first. *)
Fixpoint until_close (close : ascii) (s : string) : option (string * string) :=
  match s with
  | EmptyString => None
  | String a s' =>
      if Ascii.eqb a close then Some (String a "", s')
      else if Ascii.eqb a newline then None
      else (λ '(m, rest), (String a m, rest)) <$> until_close close s'
  end.

(** [.+?] followed by [close]: at least one character, none of them a
    line end. *)
Definition lazy_to (close : ascii) (s : string) : option (string * string) :=
  match s with
  | EmptyString => None
  | String a s' =>
      if Ascii.eqb a newline then None
      else (λ '(m, rest), (String a m, rest)) <$> until_close close s'
  end.

(** [\s*\(.+?\)], the second group of the pattern, at the start of
    [s]. *)
Fixpoint link_tail (s : string) : option (string * string) :=
  match s with
  | EmptyString => None
  | String a s' =>
      if Py.isspace a then (λ '(m, rest), (String a m, rest)) <$> link_tail s'
      else if Ascii.eqb a "(" then
        (λ '(m, rest), (String a m, rest)) <$> lazy_to ")" s'
      else None
  end.

(** The rest of the first group, after the first character of its
    [.+?]: the shortest text ending in "]" after which the second group
    matches. *)
Fixpoint label_rest (s : string) : option (string * string * string) :=
  match s with
  | EmptyString => None
  | String a s' =>
      match (if Ascii.eqb a "]" then link_tail s' else None) with
      | Some (g2, rest) => Some (String a "", g2, rest)
      | None =>
          if Ascii.eqb a newline then None
          else (λ '(g1, g2, rest), (String a g1, g2, rest)) <$> label_rest s'
      end
  end.

(** A match of [(\[.+?\])(\s*\(.+?\))] at the start of [s]: the two
    groups and the text after the match. *)
Definition link_at (s : string) : option (string * string * string) :=
  match s with
  | String a (String b s') =>
      if Ascii.eqb a "[" && negb (Ascii.eqb b newline) then
        (λ '(g1, g2, rest), (String a (String b g1), g2, rest))
          <$> label_rest s'
      else None
  | _ => None
  end.

(** [re.findall(r'(\[.+?\])(\s*\(.+?\))', text)], from left to right;
    [skip] counts the characters of the last match still to pass. *)
Fixpoint findall_links (skip : nat) (s : string) : list (string * string) :=
  match s with
  | EmptyString => []
  | String a s' =>
      match skip with
      | S n => findall_links n s'
      | O =>
          match link_at s with
          | Some (g1, g2, _) =>
              (g1, g2)
              :: findall_links (String.length g1 + String.length g2 - 1) s'
          | None => findall_links 0 s'
          end
      end
  end.

(** [s.replace(old, '')]: [s] without the occurrences of [old], taken
    from left to right. *)
Fixpoint without (old : string) (skip : nat) (s : string) : string :=
  match s with
  | EmptyString => EmptyString
  | String a s' =>
      match skip with
      | S n => without old n s'
      | O =>
          if Py.nonempty old && String.prefix old s
          then without old (String.length old - 1) s'
          else String a (without old 0 s')
      end
  end.

(** [_hide_urls(text)] *)
Definition _hide_urls (text : string) : string :=
  foldl (λ text url, without (snd url) 0 text) text (findall_links 0 text).

(** [s[1:-1]] *)
Definition inner (s : string) : string :=
  String.substring 1 (String.length s - 2) s.

(** [_url_at(text, i)] for an [int] [i]; [None] is the [None] returned
    after the message that the index is out of range. *)
Definition _url_at (text : string) (i : Z) : option string :=
  let tuples := findall_links 0 text in
  if (0 <? i) && (i <=? Z.of_nat (length tuples)) then
    (λ t, inner (snd t)) <$> tuples !! Z.to_nat (i - 1)
  else None.

(** No character of [s] is [c]. *)
Definition lacks (c : ascii) (s : string) : bool :=
  Py.all_chars (λ a, negb (Ascii.eqb a c)) s.

(** Every character of [s] is white space. *)
Definition blank (s : string) : bool := Py.all_chars Py.isspace s.

(** The text of a link: ["[" label "]" ws "(" url ")"], followed by
    [post]. *)
Definition link_text (label ws url post : string) : string :=
  String "[" (label +:+ String "]" (ws +:+ String "(" (url +:+ String ")" post))).

(** ** The settings that [go] reads *)

(** The white space [int] accepts around a number. *)
Definition int_space (c : ascii) : bool :=
  let n := Py.ord c in
  ((9 <=? n) && (n <=? 13) || (n =? 32) || (n =? 133) || (n =? 160))%N.

Fixpoint lstrip (p : ascii -> bool) (s : string) : string :=
  match s with
  | EmptyString => EmptyString
  | String a s' => if p a then lstrip p s' else s
  end.

Fixpoint rstrip (p : ascii -> bool) (s : string) : string :=
  match s with
  | EmptyString => EmptyString
  | String a s' =>
      match rstrip p s' with
      | EmptyString => if p a then EmptyString else String a EmptyString
      | r => String a r
      end
  end.

(** The value of decimal digits with single underscores between them;
    [after_underscore] tells that the last character read was one. *)
Fixpoint digits_from (acc : Z) (after_underscore : bool) (s : string)
    : option Z :=
  match s with
  | EmptyString => if after_underscore then None else Some acc
  | String a s' =>
      if Py.isdecimal a then
        digits_from (10 * acc + Z.of_N (Py.ord a) - 48) false s'
      else if Ascii.eqb a "_" && negb after_underscore then
        digits_from acc true s'
      else None
  end.

Definition digits (s : string) : option Z :=
  match s with
  | EmptyString => None
  | String a _ => if Py.isdecimal a then digits_from 0 false s else None
  end.

(** [int(s)] for any text [s]: white space around, a sign, digits;
    [None] is [ValueError]. *)
Definition int_of_text (s : string) : option Z :=
  match rstrip int_space (lstrip int_space s) with
  | String "+" r => digits r
  | String "-" r => Z.opp <$> digits r
  | core => digits core
  end.

(** [_setmaxtally()]: the settings afterwards, and whether they were
    written to the settings file ([_changed_to]). *)
Definition _setmaxtally (inputs : list string) (cfg : settings)
    : outcome (settings * bool) :=
  match inputs with
  | [] => Raise EOFError
  | typed :: _ =>
      if negb (blank typed) then
        match int_of_text typed with
        | None => Raise ValueError
        | Some n =>
            let n := Z.abs n in
            if bool_decide (n ≠ maxtally cfg)
            then Ok (Settings n (tallypenalty cfg) (abort_default cfg), true)
            else Ok (cfg, false)
        end
      else Ok (cfg, false)
  end.

(** [_settallypenalty()] *)
Definition _settallypenalty (inputs : list string) (cfg : settings)
    : outcome (settings * bool) :=
  match inputs with
  | [] => Raise EOFError
  | typed :: _ =>
      if negb (blank typed) then
        match int_of_text typed with
        | None => Raise ValueError
        | Some n =>
            if bool_decide (n ≠ tallypenalty cfg)
            then Ok (Settings (maxtally cfg) (Z.abs n) (abort_default cfg), true)
            else Ok (cfg, false)
        end
      else Ok (cfg, false)
  end.

(** Case analysis on the 256 characters. *)
Ltac each_char a := destruct a as [[] [] [] [] [] [] [] []].

(** * Properties *)

(** ** The built-ins, tabulated *)

(** The white space of [str.split()] among the 256 characters. *)
Example isspace_table :
  filter (λ n, Py.isspace (ascii_of_nat n) = true) (seq 0 256)
  = [9; 10; 11; 12; 13; 28; 29; 30; 31; 32; 133; 160]%nat.
Proof. vm_compute. reflexivity. Qed.

(** The characters [str.isnumeric()] accepts; [int] takes the first ten
    of them only. *)
Example isnumeric_table :
  filter (λ n, Py.isnumeric_char (ascii_of_nat n) = true) (seq 0 256)
  = [48; 49; 50; 51; 52; 53; 54; 55; 56; 57; 178; 179; 185; 188; 189; 190]%nat.
Proof. vm_compute. reflexivity. Qed.

Example int_of_superscript :
  Py.isnumeric (String (ascii_of_nat 178) "") = true
  ∧ Py.int_of_str (String (ascii_of_nat 178) "") = None
  ∧ Py.int_of_str "007" = Some 7
  ∧ Py.str_of_int 120 = "120".
Proof. repeat split. Qed.

(** The characters [str.lower()] changes. *)
Example lower_table :
  filter (λ n, bool_decide (Py.lower_char (ascii_of_nat n) ≠ ascii_of_nat n))
    (seq 0 256)
  = (seq 65 26 ++ seq 192 23 ++ seq 216 7)%nat
  ∧ Forall (λ n, Py.lower_char (ascii_of_nat n) = ascii_of_nat (n + 32))
      (seq 65 26 ++ seq 192 23 ++ seq 216 7)%nat.
Proof.
  split; [vm_compute; reflexivity|].
  apply Forall_forall. intros n Hn.
  repeat (apply elem_of_cons in Hn as [-> | Hn]; [reflexivity|]).
  inversion Hn.
Qed.

(** ** Two sessions on a deck of one card *)

Example show_one_correct :
  go any_date "11/04/26" ten (λ _, 0%N) true [""; ""; "y"]
     (Rows [fields; ["cat"; "d"; "01/02/24"; "3"; "8"]] None)
  = Ok (Rows [fields; ["cat"; "d"; "01/02/24"; "4"; "9"]] None,
        Some (Summary [] None [])).
Proof. reflexivity. Qed.

Example show_one_missed :
  go any_date "11/04/26" ten (λ _, 0%N) true [""; ""; "n"]
     (Rows [fields; ["cat"; "d"; "01/02/24"; "3"; "8"]] None)
  = Ok (Rows [fields; ["cat"; "d"; "01/02/24"; "4"; "0"]] None,
        Some (Summary [] (Some 0) [(0%nat, "cat")])).
Proof. reflexivity. Qed.

(** ** Card store *)

Section CardStoreFacts.

Variable legit_date : string -> bool.
Variable today : string.

Lemma read_row_long (row : list string) :
  (2 ≤ length row)%nat → ∃ c, read_row legit_date today row = Ok c.
Proof.
  intros Hlen. unfold read_row.
  destruct row as [|w [|d [|dt [|v [|t more]]]]]; simpl in *; try lia;
    eexists; reflexivity.
Qed.

Lemma read_row_one (row : list string) :
  length row = 1%nat → read_row legit_date today row = Raise SystemExit.
Proof.
  intros Hlen. unfold read_row. rewrite Hlen. reflexivity.
Qed.

(** An exception raised by a row ends the loop with the cards
    collected before it. *)
Lemma read_rows_stop (pre : list (list string)) :
  ∀ r post broken acc e,
    Forall (λ row, (2 ≤ length row)%nat) pre →
    read_row legit_date today r = Raise e →
    read_rows legit_date today (pre ++ r :: post) broken acc
    = (fst (read_rows legit_date today pre None acc), Some e).
Proof.
  induction pre as [|row pre IH]; intros r post broken acc e Hpre Hr; simpl.
  - rewrite Hr. reflexivity.
  - inversion Hpre as [|? ? Hrow Hpre']; subst.
    destruct (read_row_long row Hrow) as [c ->].
    apply IH; assumption.
Qed.

(** Rows of two fields or more never end the loop; what follows them
    decides. *)
Lemma read_rows_long (rows : list (list string)) :
  ∀ broken acc,
    Forall (λ row, (2 ≤ length row)%nat) rows →
    read_rows legit_date today rows broken acc
    = (fst (read_rows legit_date today rows None acc), broken).
Proof.
  induction rows as [|row rows IH]; intros broken acc Hrows; simpl.
  - reflexivity.
  - inversion Hrows as [|? ? Hrow Hrows']; subst.
    destruct (read_row_long row Hrow) as [c ->].
    apply IH; assumption.
Qed.

Lemma _open_no_Exception (f : file) (e : exn) :
  _open legit_date today f = Raise e → is_Exception e = false.
Proof.
  unfold _open.
  destruct f as [|rows broken]; simpl.
  - discriminate.
  - destruct (read_rows legit_date today rows broken []) as [cs [e'|]].
    + destruct (is_Exception e') eqn:He'; [discriminate|].
      intros [= <-]. exact He'.
    + discriminate.
Qed.

End CardStoreFacts.

(** C6.  A row of exactly one field, reached after rows that were read,
    makes [_open] raise [SystemExit]: it returns no cards, its handler
    (which catches [Exception] only) does not stop the exit, and [add]
    and [go] let it through. *)
Theorem one_field_row_halts :
  ∀ legit_date today pre r post broken,
    Forall (λ row, (2 ≤ length row)%nat) pre →
    length r = 1%nat →
    let f := Rows (pre ++ r :: post) broken in
    _open legit_date today f = Raise SystemExit
    ∧ is_Exception SystemExit = false
    ∧ (∀ word definition,
         Py.nonempty word = true → Py.nonempty definition = true →
         add legit_date today word definition f = Raise SystemExit)
    ∧ (∀ cfg rnd shuffle ans1 inputs,
         is_quit ans1 = false →
         go legit_date today cfg rnd shuffle (ans1 :: inputs) f
         = Raise SystemExit).
Proof.
  intros legit_date today pre r post broken Hpre Hr f.
  assert (Hopen : _open legit_date today f = Raise SystemExit).
  { unfold f, _open.
    rewrite (read_rows_stop legit_date today pre r post broken [] SystemExit
               Hpre (read_row_one legit_date today r Hr)).
    reflexivity. }
  split; [exact Hopen|]. split; [reflexivity|]. split.
  - intros word definition Hw Hd. unfold add. rewrite Hw, Hd. simpl.
    rewrite Hopen. reflexivity.
  - intros cfg rnd shuffle ans1 inputs Hq. unfold go. rewrite Hq.
    rewrite Hopen. reflexivity.
Qed.

Lemma one_field_row_halts_witness :
  let f := Rows ([fields; ["cat"; "d"; "01/02/24"; "3"; "8"]]
                 ++ ["cat,d,01/02/24,3,8"] :: [["dog"; "e"]]) None in
  _open any_date "11/04/26" f = Raise SystemExit
  ∧ add any_date "11/04/26" "dog" "e" f = Raise SystemExit
  ∧ go any_date "11/04/26" ten (λ _, 0%N) true [""; ""; "y"] f
    = Raise SystemExit.
Proof.
  intros f.
  destruct (one_field_row_halts any_date "11/04/26"
              [fields; ["cat"; "d"; "01/02/24"; "3"; "8"]]
              ["cat,d,01/02/24,3,8"] [["dog"; "e"]] None)
    as (Hopen & _ & Hadd & Hgo).
  - repeat constructor.
  - reflexivity.
  - split; [exact Hopen|]. split.
    + apply Hadd; reflexivity.
    + apply Hgo; reflexivity.
Defined.

(** C7, as stated, fails: a failure while the rows are being read leaves
    [_open] returning the cards read before it, not an empty list. *)
Lemma read_failure_returns_partial :
  ∃ c, _open any_date "11/04/26"
         (Rows [fields; ["cat"; "d"; "01/02/24"; "3"; "8"]] (Some CsvError))
       = Ok ([c], Some CsvError)
       ∧ [c] ≠ [].
Proof. eexists. split; [reflexivity | discriminate]. Qed.

(** C7, amended.  When the file cannot be opened [_open] reports the
    error and returns the empty list; when reading fails after some rows
    it reports the error and returns the cards read from those rows; and
    no [Exception] ever leaves [_open]. *)
Theorem open_fails_soft :
  ∀ legit_date today,
    _open legit_date today Unreadable = Ok ([], Some OSError)
    ∧ (∀ rows e cs,
         is_Exception e = true →
         Forall (λ row, (2 ≤ length row)%nat) rows →
         _open legit_date today (Rows rows None) = Ok (cs, None) →
         _open legit_date today (Rows rows (Some e)) = Ok (cs, Some e))
    ∧ (∀ f e, _open legit_date today f = Raise e → is_Exception e = false).
Proof.
  intros legit_date today. split; [reflexivity|]. split.
  - intros rows e cs He Hrows. unfold _open.
    rewrite (read_rows_long legit_date today rows (Some e) [] Hrows).
    destruct (read_rows legit_date today rows None []) as [cs' [e'|]]; simpl.
    + destruct (is_Exception e'); discriminate.
    + intros [= <-]. rewrite He. reflexivity.
  - apply _open_no_Exception.
Qed.

Lemma open_fails_soft_witness :
  _open any_date "11/04/26"
    (Rows [fields; ["cat"; "d"; "01/02/24"; "3"; "8"]] (Some OSError))
  = Ok ([Card "cat" "d" "01/02/24" (Py.Str "3") (Py.Str "8") []], Some OSError).
Proof.
  apply (proj1 (proj2 (open_fails_soft any_date "11/04/26"))).
  - reflexivity.
  - repeat constructor.
  - reflexivity.
Defined.

(** ** Response tokens *)

Lemma lower_char_is (a c : ascii) :
  Ascii.eqb (Py.lower_char a) c = true → Py.lower_char a = c.
Proof. apply Ascii.eqb_eq. Qed.

(** A first character that lowers to a letter is neither numeric nor a
    minus sign. *)
Lemma letter_not_numeric (a : ascii) :
  (97 ≤ Z.of_N (Py.ord (Py.lower_char a)) ≤ 122) →
  Py.isnumeric_char a = false ∧ Ascii.eqb a "-" = false.
Proof.
  each_char a; vm_compute; intros [H1 H2]; try (split; reflexivity);
    exfalso; (apply H1; reflexivity) || (apply H2; reflexivity).
Qed.

Lemma isnumeric_cons (a : ascii) (rest : string) :
  Py.isnumeric (String a rest)
  = Py.isnumeric_char a && Py.all_chars Py.isnumeric_char rest.
Proof. reflexivity. Qed.

(** A token that starts with "n" or "N" reaches the branch of line 768. *)
Lemma respond_n cfg k ans s :
  Py.first_lower_is "n" ans = true → respond cfg k ans s = not_known cfg k s.
Proof.
  destruct ans as [|a rest]; [discriminate|]. simpl. intros Hn.
  apply lower_char_is in Hn.
  destruct (letter_not_numeric a) as [Hnum Hdash].
  { rewrite Hn. vm_compute. split; discriminate. }
  unfold respond, is_unhide, is_quit, Py.first_lower_is.
  rewrite isnumeric_cons, Hnum, Hdash, Hn. reflexivity.
Qed.

(** The empty line and a token that starts with "y" or "Y" are among
    the tokens no earlier case takes. *)
Lemma empty_is_correct : classified_before_correct "" = false.
Proof. reflexivity. Qed.

Lemma y_is_correct ans :
  Py.first_lower_is "y" ans = true → classified_before_correct ans = false.
Proof.
  destruct ans as [|a rest]; [discriminate|]. simpl. intros Hy.
  apply lower_char_is in Hy.
  destruct (letter_not_numeric a) as [Hnum Hdash].
  { rewrite Hy. vm_compute. split; discriminate. }
  unfold classified_before_correct, is_unhide, is_quit, Py.first_lower_is.
  rewrite isnumeric_cons, Hnum, Hdash, Hy. reflexivity.
Qed.

Lemma respond_correct cfg k ans s :
  classified_before_correct ans = false → respond cfg k ans s = known cfg k s.
Proof.
  unfold classified_before_correct, respond. intros H.
  repeat (apply orb_false_iff in H as [H ?]).
  repeat match goal with Hb : _ = false |- _ => rewrite Hb; clear Hb end.
  simpl. destruct (Py.first_lower_is "y" ans); reflexivity.
Qed.

(** A quit token ends the session at the prompt for the answer. *)
Lemma respond_quit cfg k ans s :
  is_quit ans = true → respond cfg k ans s = Ok Return.
Proof.
  destruct ans as [|a rest]; [discriminate|]. intros Hq.
  assert (Hl : Py.lower_char a = "q"%char ∨ Py.lower_char a = "e"%char).
  { unfold is_quit in Hq. simpl in Hq. apply orb_true_iff in Hq.
    destruct Hq as [Hq|Hq]; apply lower_char_is in Hq; auto. }
  destruct (letter_not_numeric a) as [Hnum Hdash].
  { destruct Hl as [-> | ->]; vm_compute; split; discriminate. }
  unfold respond, is_unhide. rewrite isnumeric_cons, Hnum, Hdash, Hq.
  unfold Py.first_lower_is.
  destruct Hl as [-> | ->]; reflexivity.
Qed.

(** ** One card *)

(** The two ways a card's cycle ends with the next card. *)
Lemma respond_Next cfg k ans s s' :
  respond cfg k ans s = Ok (Next s') →
  (Py.first_lower_is "n" ans = true ∧ not_known cfg k s = Ok (Next s'))
  ∨ (classified_before_correct ans = false ∧ known cfg k s = Ok (Next s')).
Proof.
  unfold respond, classified_before_correct.
  destruct (Py.isnumeric ans).
  { destruct (to_int (Py.Str ans)); discriminate. }
  destruct (is_unhide ans); [discriminate|].
  destruct (Py.first_lower_is "i" ans); [discriminate|].
  destruct (is_quit ans); [discriminate|].
  destruct (Py.first_lower_is "a" ans); simpl.
  { destruct (s_abort s); discriminate. }
  destruct (Py.first_lower_is "n" ans); [auto|].
  destruct (Py.first_lower_is "y" ans); auto.
Qed.

(** A reply that asks again leaves cards, marks and misses alone. *)
Lemma respond_Again cfg k ans s s' :
  respond cfg k ans s = Ok (Again s') →
  s_cards s' = s_cards s ∧ s_unwanted s' = s_unwanted s
  ∧ s_missed s' = s_missed s.
Proof.
  unfold respond.
  destruct (Py.isnumeric ans).
  { destruct (to_int (Py.Str ans)); simpl; [|discriminate].
    intros [= <-]. auto. }
  destruct (is_unhide ans); [intros [= <-]; auto|].
  destruct (Py.first_lower_is "i" ans); [intros [= <-]; auto|].
  destruct (is_quit ans); [discriminate|].
  destruct (Py.first_lower_is "a" ans); simpl.
  { destruct (s_abort s); simpl; intros [= <-]; auto. }
  unfold not_known, known.
  destruct (Py.first_lower_is "n" ans).
  { destruct (item (s_cards s) k); discriminate. }
  assert (∀ r : outcome reply,
            r = (c ← item (s_cards s) k; t ← to_int (c_tally c);
                 Ok (Next (Session (<[k:=set_tally c (t + 1)]> (s_cards s))
                   (s_abort s)
                   (if maxtally cfg <=? t + 1 then s_unwanted s ++ [k]
                    else s_unwanted s) (s_missed s) (s_correcttext s)))) →
            r ≠ Ok (Again s')) as Hk.
  { intros r ->. destruct (item (s_cards s) k) as [c|]; simpl; [|discriminate].
    destruct (to_int (c_tally c)); discriminate. }
  destruct (Py.first_lower_is "y" ans); intros H; exfalso;
    eapply Hk; try exact H; reflexivity.
Qed.

Lemma item_Ok {A} (l : list A) (i : nat) (a : A) :
  item l i = Ok a ↔ l !! i = Some a.
Proof. unfold item. destruct (l !! i); split; congruence. Qed.

Lemma to_int_Ok (v : Py.value) (n : Z) : to_int v = Ok n ↔ Py.int v = Some n.
Proof. unfold to_int. destruct (Py.int v); split; congruence. Qed.

Lemma bind_Ok {A B} (m : outcome A) (k : A → outcome B) (b : B) :
  m ≫= k = Ok b → ∃ a, m = Ok a ∧ k a = Ok b.
Proof. destruct m as [a|e]; [eauto | discriminate]. Qed.

Lemma not_known_Next cfg k s s' :
  not_known cfg k s = Ok (Next s') →
  ∃ c, s_cards s !! k = Some c ∧
    let c' := set_tally c (Z.max 0 (maxtally cfg - tallypenalty cfg)) in
    s' = Session (<[k := c']> (s_cards s)) (s_abort s) (s_unwanted s)
           (s_missed s ++ [c']) (s_correcttext s).
Proof.
  unfold not_known. intros H. apply bind_Ok in H as (c & Hc & H).
  apply item_Ok in Hc. exists c. split; [exact Hc|]. congruence.
Qed.

Lemma known_Next cfg k s s' :
  known cfg k s = Ok (Next s') →
  ∃ c t, s_cards s !! k = Some c ∧ Py.int (c_tally c) = Some t ∧
    s' = Session (<[k := set_tally c (t + 1)]> (s_cards s)) (s_abort s)
           (if maxtally cfg <=? t + 1 then s_unwanted s ++ [k]
            else s_unwanted s)
           (s_missed s) (s_correcttext s).
Proof.
  unfold known. intros H. apply bind_Ok in H as (c & Hc & H).
  apply bind_Ok in H as (t & Ht & H).
  apply item_Ok in Hc. apply to_int_Ok in Ht.
  exists c, t. repeat split; [exact Hc | exact Ht | congruence].
Qed.

(** The prompt loop reads some lines that ask again and then the line
    that moves on. *)
Lemma ask_Some cfg k (inputs : list string) :
  ∀ s s' rest,
    ask cfg k s inputs = Ok (Some (s', rest)) →
    ∃ again ans sa,
      inputs = again ++ ans :: rest
      ∧ s_cards sa = s_cards s ∧ s_unwanted sa = s_unwanted s
      ∧ s_missed sa = s_missed s
      ∧ respond cfg k ans sa = Ok (Next s').
Proof.
  induction inputs as [|a inputs IH]; intros s s' rest H; simpl in H.
  - discriminate.
  - apply bind_Ok in H as (r & Hr & H). destruct r as [s1|s1|].
    + apply IH in H as (again & ans & sa & -> & Hc & Hu & Hm & Hresp).
      apply respond_Again in Hr as (Hc1 & Hu1 & Hm1).
      exists (a :: again), ans, sa. repeat split; try congruence.
    + injection H as <- <-. exists [], a, s. repeat split. exact Hr.
    + discriminate.
Qed.

(** What showing card [k] does when the session moves on to the next
    card: one more view, and the tally of the answer given. *)
Lemma show_Some cfg k s inputs s' rest :
  show cfg k s inputs = Ok (Some (s', rest)) →
  ∃ c v ans0 again ans,
    s_cards s !! k = Some c ∧ Py.int (c_viewed c) = Some v
    ∧ inputs = ans0 :: again ++ ans :: rest
    ∧
    ((Py.first_lower_is "n" ans = true ∧
      let c' := set_tally (set_viewed c (v + 1))
                  (Z.max 0 (maxtally cfg - tallypenalty cfg)) in
      s_cards s' = <[k := c']> (s_cards s)
      ∧ s_unwanted s' = s_unwanted s
      ∧ s_missed s' = s_missed s ++ [c'])
     ∨ (classified_before_correct ans = false ∧
        ∃ t, Py.int (c_tally c) = Some t ∧
          s_cards s' = <[k := set_tally (set_viewed c (v + 1)) (t + 1)]> (s_cards s)
          ∧ s_unwanted s' = (if maxtally cfg <=? t + 1 then s_unwanted s ++ [k]
                             else s_unwanted s)
          ∧ s_missed s' = s_missed s)).
Proof.
  unfold show. intros H.
  apply bind_Ok in H as (c & Hc & H). apply bind_Ok in H as (v & Hv & H).
  apply item_Ok in Hc. apply to_int_Ok in Hv.
  destruct inputs as [|ans0 inputs]; [discriminate|].
  destruct (is_quit ans0); [discriminate|].
  apply ask_Some in H as (again & ans & sa & -> & Hcs & Hu & Hm & Hresp).
  simpl in Hcs, Hu, Hm.
  assert (Hk : (k < length (s_cards s))%nat) by (eapply lookup_lt_Some; eauto).
  exists c, v, ans0, again, ans. repeat split; try assumption.
  apply respond_Next in Hresp as [[Hn Hresp] | [Hy Hresp]].
  - left. split; [exact Hn|].
    apply not_known_Next in Hresp as (c1 & Hc1 & ->). simpl.
    rewrite Hcs in Hc1 |- *. rewrite list_lookup_insert_eq in Hc1 by exact Hk.
    injection Hc1 as <-. rewrite list_insert_insert_eq, Hu, Hm. auto.
  - right. split; [exact Hy|].
    apply known_Next in Hresp as (c1 & t & Hc1 & Ht & ->). simpl.
    rewrite Hcs in Hc1 |- *. rewrite list_lookup_insert_eq in Hc1 by exact Hk.
    injection Hc1 as <-. exists t.
    rewrite list_insert_insert_eq, Hu, Hm. auto.
Qed.

(** ** The pass *)

Lemma pass_app cfg (l1 l2 : list nat) :
  ∀ s inputs,
    pass cfg (l1 ++ l2) s inputs
    = (r ← pass cfg l1 s inputs;
       match r with
       | None => Ok None
       | Some (s', inputs') => pass cfg l2 s' inputs'
       end).
Proof.
  induction l1 as [|k l1 IH]; intros s inputs; simpl.
  - reflexivity.
  - destruct (show cfg k s inputs) as [[[s' inputs']|]|e]; simpl; auto.
Qed.

(** One card changes no other card, and adds one entry to [unwanted] or
    to [missed], or none. *)
Lemma show_frame cfg k s inputs s' rest :
  show cfg k s inputs = Ok (Some (s', rest)) →
  (k < length (s_cards s))%nat
  ∧ length (s_cards s') = length (s_cards s)
  ∧ (∀ j, j ≠ k → s_cards s' !! j = s_cards s !! j)
  ∧ ∃ u m, s_unwanted s' = s_unwanted s ++ u
           ∧ s_missed s' = s_missed s ++ m
           ∧ u `sublist_of` [k]
           ∧ (length u + length m ≤ 1)%nat.
Proof.
  intros H.
  apply show_Some in H as (c & v & ans0 & again & ans & Hc & Hv & -> & H).
  split; [eapply lookup_lt_Some; eauto|].
  destruct H as [(_ & Hcs & Hu & Hm) | (_ & t & Ht & Hcs & Hu & Hm)];
    rewrite Hcs, length_insert; (split; [reflexivity|]);
    (split; [intros j Hj; apply list_lookup_insert_ne; congruence|]).
  - exists [], [set_tally (set_viewed c (v + 1))
                  (Z.max 0 (maxtally cfg - tallypenalty cfg))].
    rewrite app_nil_r.
    split; [assumption|]. split; [assumption|].
    split; [apply sublist_nil_l | simpl; lia].
  - destruct (maxtally cfg <=? t + 1).
    + exists [k], []. rewrite app_nil_r.
      split; [assumption|]. split; [assumption|].
      split; [reflexivity | simpl; lia].
    + exists [], []. rewrite !app_nil_r.
      split; [assumption|]. split; [assumption|].
      split; [apply sublist_nil_l | simpl; lia].
Qed.

(** A completed pass over [l] keeps the number of cards, touches only
    the cards of [l], and adds to [unwanted] a sub-list of [l]. *)
Lemma pass_frame cfg (l : list nat) :
  ∀ s inputs s' rest,
    pass cfg l s inputs = Ok (Some (s', rest)) →
    length (s_cards s') = length (s_cards s)
    ∧ (∀ j, j ∉ l → s_cards s' !! j = s_cards s !! j)
    ∧ (∀ j, j ∈ l → (j < length (s_cards s))%nat)
    ∧ ∃ u m, s_unwanted s' = s_unwanted s ++ u
             ∧ s_missed s' = s_missed s ++ m
             ∧ u `sublist_of` l
             ∧ (length u + length m ≤ length l)%nat.
Proof.
  induction l as [|k l IH]; intros s inputs s' rest H; simpl in H.
  - injection H as <- <-. repeat split.
    + intros j Hj. inversion Hj.
    + exists [], []. rewrite !app_nil_r.
      split; [reflexivity|]. split; [reflexivity|].
      split; [reflexivity | simpl; lia].
  - apply bind_Ok in H as (r & Hshow & H).
    destruct r as [[s1 inputs1]|]; [|discriminate].
    apply show_frame in Hshow as (Hk & Hlen1 & Hother1 & u1 & m1 & Hu1 & Hm1 & Hsub1 & Hn1).
    apply IH in H as (Hlen & Hother & Hin & u & m & Hu & Hm & Hsub & Hn).
    split; [congruence|]. split; [|split].
    + intros j Hj. apply not_elem_of_cons in Hj as [Hjk Hjl].
      rewrite Hother by exact Hjl. apply Hother1. exact Hjk.
    + intros j Hj. apply elem_of_cons in Hj as [-> | Hj]; [exact Hk|].
      rewrite <- Hlen1. apply Hin. exact Hj.
    + exists (u1 ++ u), (m1 ++ m). rewrite Hu, Hm, Hu1, Hm1, !app_assoc.
      split; [reflexivity|]. split; [reflexivity|]. split.
      * change (k :: l) with ([k] ++ l). apply sublist_app; assumption.
      * rewrite !length_app. simpl. lia.
Qed.

(** ** Sorting and the traversal order *)

Lemma insert_by_perm {A} (key : A → N) (x : A) (l : list A) :
  insert_by key x l ≡ₚ x :: l.
Proof.
  induction l as [|y l IH]; simpl.
  - reflexivity.
  - destruct (key x <=? key y)%N; [reflexivity|].
    rewrite IH. apply Permutation_swap.
Qed.

Lemma sorted_perm {A} (key : A → N) (l : list A) : sorted key l ≡ₚ l.
Proof.
  induction l as [|x l IH]; simpl.
  - reflexivity.
  - unfold sorted in *. simpl. rewrite insert_by_perm, IH. reflexivity.
Qed.

Lemma insert_by_sorted {A} (key : A → N) (x : A) (l : list A) :
  StronglySorted (λ a b, (key a ≤ key b)%N) l →
  StronglySorted (λ a b, (key a ≤ key b)%N) (insert_by key x l).
Proof.
  induction l as [|y l IH]; intros Hl; simpl.
  - repeat constructor.
  - apply StronglySorted_cons in Hl as [Hy Hl].
    destruct (key x <=? key y)%N eqn:Hxy.
    + apply N.leb_le in Hxy. apply StronglySorted_cons. split.
      * constructor; [exact Hxy|].
        eapply Forall_impl; [exact Hy|]. simpl. intros z Hz. lia.
      * apply StronglySorted_cons. split; [exact Hy | exact Hl].
    + apply N.leb_gt in Hxy. apply StronglySorted_cons. split.
      * rewrite insert_by_perm. constructor; [lia | exact Hy].
      * apply IH; exact Hl.
Qed.

Lemma sorted_sorted {A} (key : A → N) (l : list A) :
  StronglySorted (λ a b, (key a ≤ key b)%N) (sorted key l).
Proof.
  induction l as [|x l IH]; unfold sorted in *; simpl.
  - constructor.
  - apply insert_by_sorted, IH.
Qed.

(** The traversal order visits every position once. *)
Lemma traversal_perm rnd shuffle n : traversal rnd shuffle n ≡ₚ seq 0 n.
Proof.
  unfold traversal. destruct shuffle; [apply sorted_perm | reflexivity].
Qed.

Lemma traversal_NoDup rnd shuffle n : NoDup (traversal rnd shuffle n).
Proof. rewrite traversal_perm. apply NoDup_seq. Qed.

(** [unwanted[::-1]] after [sorted]: strictly falling, when no position
    is marked twice. *)
Lemma falling_marks (u : list nat) :
  NoDup u →
  StronglySorted (λ a b, (b < a)%nat) (reverse (sorted N.of_nat u)).
Proof.
  intros Hnd.
  assert (Hnd' : NoDup (sorted N.of_nat u)) by (rewrite sorted_perm; exact Hnd).
  pose proof (sorted_sorted N.of_nat u) as Hs.
  induction (sorted N.of_nat u) as [|x l IH].
  - constructor.
  - apply StronglySorted_cons in Hs as [Hx Hl].
    apply NoDup_cons in Hnd' as [Hxl Hnd'].
    rewrite reverse_cons. apply StronglySorted_app_2.
    + intros a b Ha Hb. rewrite elem_of_reverse in Ha.
      apply list_elem_of_singleton in Hb as ->.
      rewrite Forall_forall in Hx. specialize (Hx a Ha).
      assert (a ≠ x) by (intros ->; contradiction). lia.
    + apply IH; assumption.
    + repeat constructor.
Qed.

(** ** Removing the marked cards *)

Lemma unmarked_ext_from (d1 d2 : list nat) (l : list card) :
  ∀ i, (∀ x, (i ≤ x)%nat → x ∈ d1 ↔ x ∈ d2) →
    unmarked d1 i l = unmarked d2 i l.
Proof.
  induction l as [|c l IH]; intros i H; simpl.
  - reflexivity.
  - rewrite (bool_decide_ext _ _ (H i (Nat.le_refl i))), (IH (S i)).
    + reflexivity.
    + intros x Hx. apply H. lia.
Qed.

Lemma unmarked_ext (d1 d2 : list nat) (l : list card) :
  ∀ i, (∀ x, x ∈ d1 ↔ x ∈ d2) → unmarked d1 i l = unmarked d2 i l.
Proof. intros i H. apply unmarked_ext_from. intros x _. apply H. Qed.

Lemma unmarked_below (d : list nat) (l : list card) :
  ∀ i, (∀ x, x ∈ d → (x < i)%nat) → unmarked d i l = l.
Proof.
  induction l as [|c l IH]; intros i H; simpl.
  - reflexivity.
  - rewrite bool_decide_eq_false_2.
    + f_equal. apply IH. intros x Hx. specialize (H x Hx). lia.
    + intros Hi. specialize (H i Hi). lia.
Qed.

Lemma unmarked_delete (l : list card) :
  ∀ i e d,
    (∀ x, x ∈ d → (x < i + e)%nat) →
    (e < length l)%nat →
    unmarked d i (delete e l) = unmarked ((i + e)%nat :: d) i l.
Proof.
  induction l as [|c l IH]; intros i e d Hd He; simpl in He; [lia|].
  destruct e as [|e]; simpl.
  - rewrite Nat.add_0_r in *.
    rewrite bool_decide_eq_true_2 by apply list_elem_of_here.
    rewrite (unmarked_below d l i) by exact Hd.
    symmetry. apply unmarked_below.
    intros x Hx. apply elem_of_cons in Hx as [-> | Hx]; [lia|].
    specialize (Hd x Hx). lia.
  - assert (Hiff : i ∈ (i + S e)%nat :: d ↔ i ∈ d).
    { rewrite elem_of_cons. split; [intros [?|?]; [lia|assumption] | auto]. }
    rewrite (bool_decide_ext _ _ Hiff).
    replace (i + S e)%nat with (S i + e)%nat by lia.
    rewrite <- (IH (S i) e d); [reflexivity | | lia].
    intros x Hx. specialize (Hd x Hx). lia.
Qed.

(** Deleting strictly falling positions one after the other leaves the
    cards at the other positions. *)
Lemma remove_all_falling (d : list nat) :
  ∀ l,
    StronglySorted (λ a b, (b < a)%nat) d →
    (∀ x, x ∈ d → (x < length l)%nat) →
    ∃ words, remove_all d l = Ok (unmarked d 0 l, words)
             ∧ length words = length d.
Proof.
  induction d as [|e d IH]; intros l Hs Hlt; simpl.
  - exists []. rewrite unmarked_below by (intros x Hx; inversion Hx). auto.
  - apply StronglySorted_cons in Hs as [He Hs]. rewrite Forall_forall in He.
    assert (Hel : (e < length l)%nat) by (apply Hlt, list_elem_of_here).
    destruct (lookup_lt_is_Some_2 l e Hel) as [c Hc].
    unfold item. rewrite Hc. simpl.
    destruct (IH (delete e l) Hs) as (words & -> & Hw).
    { intros x Hx. rewrite length_delete by eauto.
      specialize (He x Hx). lia. }
    simpl. exists (c_word c :: words). split; [|simpl; lia].
    rewrite (unmarked_delete l 0 e d); [reflexivity | | exact Hel].
    intros x Hx. specialize (He x Hx). lia.
Qed.

(** The end of a pass whose marks are distinct positions of the list:
    the cards left are those at the positions not marked, and the
    division of the summary is by their number. *)
Lemma end_of_pass_unmarked (s : session) :
  NoDup (s_unwanted s) →
  (∀ x, x ∈ s_unwanted s → (x < length (s_cards s))%nat) →
  let left := unmarked (s_unwanted s) 0 (s_cards s) in
  ∃ words,
    length words = length (s_unwanted s) ∧
    end_of_pass s
    = (p ← match s_missed s with
           | [] => Ok None
           | _ :: _ =>
               p ← percent (length left) (length (s_missed s)); Ok (Some p)
           end;
       Ok (left,
           Summary words p
             ((λ m, (position (c_word m) 0 left, c_word m)) <$> s_missed s))).
Proof.
  intros Hnd Hlt left. unfold end_of_pass.
  destruct (remove_all_falling (reverse (sorted N.of_nat (s_unwanted s)))
              (s_cards s)) as (words & -> & Hw).
  - apply falling_marks, Hnd.
  - intros x Hx. rewrite elem_of_reverse, sorted_perm in Hx. auto.
  - exists words. split.
    + rewrite Hw, length_reverse. apply Permutation_length, sorted_perm.
    + simpl.
      rewrite (unmarked_ext _ (s_unwanted s));
        [reflexivity|].
      intros x. rewrite elem_of_reverse, sorted_perm. reflexivity.
Qed.

Lemma unmarked_length (l : list card) :
  ∀ d i, NoDup d →
    (∀ x, x ∈ d → (i ≤ x < i + length l)%nat) →
    (length (unmarked d i l) + length d = length l)%nat.
Proof.
  induction l as [|c l IH]; intros d i Hnd Hd; simpl.
  - destruct d as [|x d]; [reflexivity|].
    specialize (Hd x (list_elem_of_here _ _)). simpl in Hd. lia.
  - destruct (decide (i ∈ d)) as [Hi|Hi].
    + rewrite bool_decide_eq_true_2 by exact Hi.
      apply list_elem_of_split in Hi as (d1 & d2 & ->).
      apply NoDup_app in Hnd as (Hd1 & Hd12 & Hd2).
      apply NoDup_cons in Hd2 as (Hid2 & Hd2).
      assert (Hid1 : i ∉ d1).
      { intros Hi. apply (Hd12 i Hi). left. }
      rewrite (unmarked_ext_from _ (d1 ++ d2)).
      * specialize (IH (d1 ++ d2) (S i)).
        rewrite !length_app in *. simpl. rewrite <- IH; [lia | |].
        -- apply NoDup_app. split; [exact Hd1|]. split; [|exact Hd2].
           intros x Hx1 Hx2. apply (Hd12 x Hx1). right. exact Hx2.
        -- intros x Hx.
           assert (Hx' : x ∈ d1 ++ i :: d2).
           { apply elem_of_app in Hx as [Hx|Hx]; apply elem_of_app;
               [left | right; right]; exact Hx. }
           specialize (Hd x Hx'). simpl in Hd.
           assert (x ≠ i); [|lia].
           intros ->. apply elem_of_app in Hx as [Hx|Hx]; contradiction.
      * intros x Hx. rewrite !elem_of_app, elem_of_cons. split.
        -- intros [?|[->|?]]; auto. lia.
        -- intros [?|?]; auto.
    + rewrite bool_decide_eq_false_2 by exact Hi. simpl.
      rewrite <- (IH d (S i) Hnd); [lia|].
      intros x Hx. specialize (Hd x Hx). simpl in Hd.
      assert (x ≠ i) by (intros ->; contradiction). lia.
Qed.

(** ** A completed session *)

(** The state a completed pass of [go] ends in: the marks are distinct
    positions of the deck, and marks and misses together are no more
    than the cards. *)
Lemma pass_of_go cfg rnd shuffle (cards0 : list card) inputs s rest :
  pass cfg (traversal rnd shuffle (length cards0)) (start cfg cards0) inputs
  = Ok (Some (s, rest)) →
  length (s_cards s) = length cards0
  ∧ NoDup (s_unwanted s)
  ∧ (∀ x, x ∈ s_unwanted s → (x < length (s_cards s))%nat)
  ∧ (length (s_unwanted s) + length (s_missed s) ≤ length cards0)%nat.
Proof.
  intros H.
  apply pass_frame in H as (Hlen & _ & Hin & u & m & Hu & Hm & Hsub & Hn).
  simpl in Hu, Hm, Hlen, Hin. subst u m.
  split; [exact Hlen|]. split; [|split].
  - eapply sublist_NoDup; [apply traversal_NoDup | exact Hsub].
  - intros x Hx. rewrite Hlen. apply Hin.
    eapply elem_of_sublist; [exact Hx | exact Hsub].
  - rewrite (Permutation_length (traversal_perm rnd shuffle (length cards0))),
      length_seq in Hn. exact Hn.
Qed.

(** What [go] returns once its pass is completed. *)
Lemma go_completed legit_date today cfg rnd shuffle ans1 inputs f
    cards0 reported s rest :
  is_quit ans1 = false →
  _open legit_date today f = Ok (cards0, reported) →
  pass cfg (traversal rnd shuffle (length cards0)) (start cfg cards0) inputs
  = Ok (Some (s, rest)) →
  let left := unmarked (s_unwanted s) 0 (s_cards s) in
  (length left + length (s_unwanted s) = length cards0)%nat
  ∧ (length (s_missed s) ≤ length left)%nat
  ∧ ∃ words,
      length words = length (s_unwanted s) ∧
      go legit_date today cfg rnd shuffle (ans1 :: inputs) f
      = Ok (if s_abort s then f else _save left,
            Some (Summary words
                    (match s_missed s with
                     | [] => None
                     | _ :: _ =>
                         Some (Z.quot (100 * (Z.of_nat (length left)
                                              - Z.of_nat (length (s_missed s))))
                                 (Z.of_nat (length left)))
                     end)
                    ((λ m, (position (c_word m) 0 left, c_word m))
                       <$> s_missed s))).
Proof.
  intros Hq Hopen Hpass left.
  destruct (pass_of_go _ _ _ _ _ _ _ Hpass) as (Hlen & Hnd & Hlt & Hn).
  assert (Hleft : (length left + length (s_unwanted s) = length cards0)%nat).
  { rewrite <- Hlen. apply unmarked_length; [exact Hnd|].
    intros x Hx. specialize (Hlt x Hx). lia. }
  split; [exact Hleft|]. split; [lia|].
  destruct (end_of_pass_unmarked s Hnd Hlt) as (words & Hw & Hend).
  exists words. split; [exact Hw|].
  unfold go. rewrite Hq, Hopen. simpl. rewrite Hpass. simpl. rewrite Hend.
  fold left. destruct (s_missed s) as [|m ms] eqn:Hm; simpl.
  - destruct (s_abort s); reflexivity.
  - unfold percent. rewrite bool_decide_eq_false_2 by (simpl in *; lia).
    simpl. destruct (s_abort s); reflexivity.
Qed.

(** ** The answer that ends a card's cycle *)

(** The line read last while card [k] is shown is the answer, and it is
    either an "n" or a correct response. *)
Lemma show_answer cfg k s inputs s' rest typed ans :
  show cfg k s inputs = Ok (Some (s', rest)) →
  inputs = typed ++ ans :: rest →
  ∃ c v,
    s_cards s !! k = Some c ∧ Py.int (c_viewed c) = Some v ∧
    ((Py.first_lower_is "n" ans = true ∧
      let c' := set_tally (set_viewed c (v + 1))
                  (Z.max 0 (maxtally cfg - tallypenalty cfg)) in
      s_cards s' = <[k := c']> (s_cards s)
      ∧ s_unwanted s' = s_unwanted s
      ∧ s_missed s' = s_missed s ++ [c'])
     ∨ (classified_before_correct ans = false ∧
        ∃ t, Py.int (c_tally c) = Some t ∧
          s_cards s' = <[k := set_tally (set_viewed c (v + 1)) (t + 1)]> (s_cards s)
          ∧ s_unwanted s' = (if maxtally cfg <=? t + 1 then s_unwanted s ++ [k]
                             else s_unwanted s)
          ∧ s_missed s' = s_missed s)).
Proof.
  intros Hshow Hin.
  apply show_Some in Hshow as (c & v & ans0 & again & ans' & Hc & Hv & Hin' & H).
  assert (ans' = ans) as ->.
  { rewrite Hin in Hin'.
    change (ans0 :: again ++ ans' :: rest)
      with ((ans0 :: again) ++ ans' :: rest) in Hin'.
    apply app_inj_2 in Hin' as [_ Heq]; [congruence | reflexivity]. }
  exists c, v. auto.
Qed.

Lemma correct_not_n ans :
  classified_before_correct ans = false → Py.first_lower_is "n" ans = false.
Proof.
  unfold classified_before_correct. intros H.
  apply orb_false_iff in H as [_ H]. exact H.
Qed.

Lemma named_correct ans :
  ans = "" ∨ Py.first_lower_is "y" ans = true
  ∨ classified_before_correct ans = false →
  classified_before_correct ans = false.
Proof.
  intros [-> | [Hy | H]]; [reflexivity | apply y_is_correct, Hy | exact H].
Qed.

(** C1.  In a session of [go], let card [k] be reached after the cards
    [before] and let the line that ends its cycle be a correct response
    (empty, starting with y or Y, or taken by no earlier case).  Then
    its tally is the tally it had plus 1, and stays so to the end of the
    pass; and when that tally is at least [maxtally] and the pass ends
    without the abort flag, [go] saves the cards at the positions not
    marked, position [k] being marked. *)
Theorem correct_answer_counts :
  ∀ legit_date today cfg rnd shuffle ans1 inputs f cards0 reported
    before k after s1 inputs1 s2 typed ans rest s3 inputs3 c t,
    is_quit ans1 = false →
    _open legit_date today f = Ok (cards0, reported) →
    traversal rnd shuffle (length cards0) = before ++ k :: after →
    pass cfg before (start cfg cards0) inputs = Ok (Some (s1, inputs1)) →
    show cfg k s1 inputs1 = Ok (Some (s2, rest)) →
    inputs1 = typed ++ ans :: rest →
    (ans = "" ∨ Py.first_lower_is "y" ans = true
     ∨ classified_before_correct ans = false) →
    s_cards s1 !! k = Some c →
    Py.int (c_tally c) = Some t →
    pass cfg after s2 rest = Ok (Some (s3, inputs3)) →
    (∃ c2, s_cards s2 !! k = Some c2 ∧ c_tally c2 = Py.Int (t + 1))
    ∧ (∃ c3, s_cards s3 !! k = Some c3 ∧ c_tally c3 = Py.Int (t + 1))
    ∧ (maxtally cfg ≤ t + 1 → s_abort s3 = false →
       k ∈ s_unwanted s3
       ∧ ∃ report,
           go legit_date today cfg rnd shuffle (ans1 :: inputs) f
           = Ok (_save (unmarked (s_unwanted s3) 0 (s_cards s3)),
                 Some report)).
Proof.
  intros legit_date today cfg rnd shuffle ans1 inputs f cards0 reported
    before k after s1 inputs1 s2 typed ans rest s3 inputs3 c t
    Hq Hopen Htrav Hbefore Hshow Hin Hans Hc Ht Hafter.
  apply named_correct in Hans.
  pose proof (traversal_NoDup rnd shuffle (length cards0)) as Hnd.
  rewrite Htrav in Hnd. apply NoDup_app in Hnd as (_ & _ & Hnd).
  apply NoDup_cons in Hnd as [Hk _].
  destruct (show_answer _ _ _ _ _ _ _ _ Hshow Hin)
    as (c' & v & Hc' & Hv & [(Hn & _) | (_ & t' & Ht' & Hcs & Hu & _)]).
  { rewrite (correct_not_n ans Hans) in Hn. discriminate. }
  rewrite Hc in Hc'. injection Hc' as <-.
  rewrite Ht in Ht'. injection Ht' as <-.
  assert (Hk1 : (k < length (s_cards s1))%nat) by (eapply lookup_lt_Some; eauto).
  assert (H2 : s_cards s2 !! k = Some (set_tally (set_viewed c (v + 1)) (t + 1))).
  { rewrite Hcs. apply list_lookup_insert_eq, Hk1. }
  destruct (pass_frame _ _ _ _ _ _ Hafter)
    as (_ & Hother & _ & u & m & Hu3 & _ & _ & _).
  split; [eexists; split; [exact H2 | reflexivity]|].
  split.
  { eexists. split; [rewrite (Hother k Hk); exact H2 | reflexivity]. }
  intros Hmax Habort.
  assert (Hmark : k ∈ s_unwanted s3).
  { rewrite Hu3, Hu. apply Z.leb_le in Hmax. rewrite Hmax.
    apply elem_of_app. left. apply elem_of_app. right. left. }
  split; [exact Hmark|].
  assert (Hpass : pass cfg (traversal rnd shuffle (length cards0))
                    (start cfg cards0) inputs = Ok (Some (s3, inputs3))).
  { rewrite Htrav, pass_app, Hbefore. simpl. rewrite Hshow. simpl.
    exact Hafter. }
  destruct (go_completed legit_date today cfg rnd shuffle ans1 inputs f
              cards0 reported s3 inputs3 Hq Hopen Hpass)
    as (_ & _ & words & _ & Hgo).
  rewrite Habort in Hgo. eexists. exact Hgo.
Qed.

Lemma correct_answer_counts_witness :
  ∃ report,
    go any_date "11/04/26" ten (λ _, 0%N) true [""; ""; "1"; "yes"]
       (Rows [fields; ["cat"; "d"; "01/02/24"; "3"; "9"]] None)
    = Ok (_save [], Some report).
Proof.
  pose (c := Card "cat" "d" "01/02/24" (Py.Str "3") (Py.Str "9") []).
  pose (s2 := Session [set_tally (set_viewed c 4) 10] false [0%nat] []
                "Meaning known? (Y/n/i/q) ").
  destruct (correct_answer_counts any_date "11/04/26" ten (λ _, 0%N) true
              "" [""; "1"; "yes"]
              (Rows [fields; ["cat"; "d"; "01/02/24"; "3"; "9"]] None)
              [c] None [] 0%nat [] (start ten [c]) [""; "1"; "yes"]
              s2 [""; "1"] "yes" [] s2 [] c 9)
    as (_ & _ & H); try reflexivity.
  - right. left. reflexivity.
  - destruct H as (_ & report & H); [simpl; lia | reflexivity|].
    exists report. exact H.
Defined.

(** C2.  In a session, let card [k] be reached after the cards [before]
    and let the line that ends its cycle start with n or N.  Then the
    tally of the card is max(0, maxtally - tallypenalty), whatever it
    was, and stays so to the end of the pass, and the card is in
    [missed]. *)
Theorem incorrect_answer_resets :
  ∀ cfg rnd shuffle n s0 inputs before k after s1 inputs1 s2 typed ans rest
    s3 inputs3,
    traversal rnd shuffle n = before ++ k :: after →
    pass cfg before s0 inputs = Ok (Some (s1, inputs1)) →
    show cfg k s1 inputs1 = Ok (Some (s2, rest)) →
    inputs1 = typed ++ ans :: rest →
    Py.first_lower_is "n" ans = true →
    pass cfg after s2 rest = Ok (Some (s3, inputs3)) →
    ∃ c2,
      c_tally c2 = Py.Int (Z.max 0 (maxtally cfg - tallypenalty cfg))
      ∧ s_cards s2 !! k = Some c2
      ∧ s_cards s3 !! k = Some c2
      ∧ c2 ∈ s_missed s2
      ∧ c2 ∈ s_missed s3.
Proof.
  intros cfg rnd shuffle n s0 inputs before k after s1 inputs1 s2 typed ans
    rest s3 inputs3 Htrav Hbefore Hshow Hin Hn Hafter.
  pose proof (traversal_NoDup rnd shuffle n) as Hnd.
  rewrite Htrav in Hnd. apply NoDup_app in Hnd as (_ & _ & Hnd).
  apply NoDup_cons in Hnd as [Hk _].
  destruct (show_answer _ _ _ _ _ _ _ _ Hshow Hin)
    as (c & v & Hc & Hv & [(_ & Hcs & _ & Hm) | (Hcorrect & _)]).
  2: { rewrite (correct_not_n ans Hcorrect) in Hn. discriminate. }
  simpl in Hcs, Hm.
  assert (Hk1 : (k < length (s_cards s1))%nat) by (eapply lookup_lt_Some; eauto).
  destruct (pass_frame _ _ _ _ _ _ Hafter)
    as (_ & Hother & _ & u & m & _ & Hm3 & _ & _).
  exists (set_tally (set_viewed c (v + 1))
            (Z.max 0 (maxtally cfg - tallypenalty cfg))).
  split; [reflexivity|].
  assert (H2 : s_cards s2 !! k
               = Some (set_tally (set_viewed c (v + 1))
                         (Z.max 0 (maxtally cfg - tallypenalty cfg)))).
  { rewrite Hcs. apply list_lookup_insert_eq, Hk1. }
  split; [exact H2|]. split; [rewrite (Hother k Hk); exact H2|].
  assert (H2m : set_tally (set_viewed c (v + 1))
                  (Z.max 0 (maxtally cfg - tallypenalty cfg)) ∈ s_missed s2).
  { rewrite Hm. apply elem_of_app. right. left. }
  split; [exact H2m|]. rewrite Hm3. apply elem_of_app. left. exact H2m.
Qed.

Lemma incorrect_answer_resets_witness :
  ∃ c2, c_tally c2 = Py.Int 7 ∧ c_word c2 = "cat".
Proof.
  pose (cfg := Settings 10 3 (AbortText "False")).
  pose (c := Card "cat" "d" "01/02/24" (Py.Str "3") (Py.Str "8") []).
  pose (c2 := set_tally (set_viewed c 4) 7).
  pose (s2 := Session [c2] false [] [c2] "Meaning known? (Y/n/i/q) ").
  destruct (incorrect_answer_resets cfg (λ _, 0%N) true 1%nat
              (start cfg [c]) [""; "No"] [] 0%nat [] (start cfg [c])
              [""; "No"] s2 [""] "No" [] s2 [])
    as (c2' & Ht & H2 & _); try reflexivity.
  exists c2'. split; [exact Ht|].
  injection H2 as <-. reflexivity.
Defined.

(** C3.  With maxtally 10 and tallypenalty 3, a card of tally 8 that is
    answered "n" is saved with tally 7 = max(0, 10 - 3); the penalty
    taken from its own tally would give max(0, 8 - 3) = 5. *)
Theorem penalty_not_taken_from_tally :
  go any_date "11/04/26" (Settings 10 3 (AbortText "False")) (λ _, 0%N) true
     [""; ""; "n"]
     (Rows [fields; ["cat"; "d"; "01/02/24"; "3"; "8"]] None)
  = Ok (Rows [fields; ["cat"; "d"; "01/02/24"; "4"; "7"]] None,
        Some (Summary [] (Some 0) [(0%nat, "cat")]))
  ∧ Py.str (Py.Int (Z.max 0 (8 - 3))) = "5".
Proof. split; reflexivity. Qed.

(** ** Quitting and aborting *)

Lemma respond_not_EOF cfg k ans s : respond cfg k ans s ≠ Raise EOFError.
Proof.
  unfold respond, not_known, known, item, to_int.
  repeat match goal with
         | |- context [if ?b then _ else _] => destruct b
         | |- context [match ?o with Some _ => _ | None => _ end] =>
             destruct o; simpl
         end; discriminate.
Qed.

(** A session waiting for a line that is not there raises [EOFError];
    when a quit token is typed at that prompt the session returns. *)
Lemma ask_quit cfg k tok more (typed : list string) :
  is_quit tok = true →
  ∀ s, ask cfg k s typed = Raise EOFError →
       ask cfg k s (typed ++ tok :: more) = Ok None.
Proof.
  intros Hq. induction typed as [|a typed IH]; intros s H; simpl in *.
  - rewrite (respond_quit cfg k tok s Hq). reflexivity.
  - destruct (respond cfg k a s) as [[s'|s'|]|e] eqn:Hr; simpl in *.
    + apply IH, H.
    + discriminate.
    + discriminate.
    + injection H as ->. destruct (respond_not_EOF _ _ _ _ Hr).
Qed.

Lemma ask_more cfg k more (inputs : list string) :
  ∀ s s' rest,
    ask cfg k s inputs = Ok (Some (s', rest)) →
    ask cfg k s (inputs ++ more) = Ok (Some (s', rest ++ more)).
Proof.
  induction inputs as [|a inputs IH]; intros s s' rest H; simpl in *.
  - discriminate.
  - destruct (respond cfg k a s) as [[s1|s1|]|e]; simpl in *.
    + apply IH, H.
    + injection H as <- <-. reflexivity.
    + discriminate.
    + discriminate.
Qed.

Lemma show_quit cfg k tok more typed s :
  is_quit tok = true →
  show cfg k s typed = Raise EOFError →
  show cfg k s (typed ++ tok :: more) = Ok None.
Proof.
  intros Hq. unfold show, item, to_int.
  destruct (s_cards s !! k) as [c|]; simpl; [|discriminate].
  destruct (Py.int (c_viewed c)) as [v|]; simpl; [|discriminate].
  destruct typed as [|ans0 typed]; simpl.
  - rewrite Hq. reflexivity.
  - destruct (is_quit ans0); [discriminate|]. apply ask_quit, Hq.
Qed.

Lemma show_more cfg k more inputs s s' rest :
  show cfg k s inputs = Ok (Some (s', rest)) →
  show cfg k s (inputs ++ more) = Ok (Some (s', rest ++ more)).
Proof.
  unfold show, item, to_int.
  destruct (s_cards s !! k) as [c|]; simpl; [|discriminate].
  destruct (Py.int (c_viewed c)) as [v|]; simpl; [|discriminate].
  destruct inputs as [|ans0 inputs]; simpl; [discriminate|].
  destruct (is_quit ans0); [discriminate|]. apply ask_more.
Qed.

Lemma pass_quit cfg tok more (l : list nat) :
  is_quit tok = true →
  ∀ s typed, pass cfg l s typed = Raise EOFError →
             pass cfg l s (typed ++ tok :: more) = Ok None.
Proof.
  intros Hq. induction l as [|k l IH]; intros s typed H; simpl in *.
  - discriminate.
  - destruct (show cfg k s typed) as [[[s' rest]|]|e] eqn:Hshow; simpl in *.
    + rewrite (show_more _ _ (tok :: more) _ _ _ _ Hshow). simpl.
      apply IH, H.
    + discriminate.
    + injection H as ->.
      rewrite (show_quit _ _ _ _ _ _ Hq Hshow). reflexivity.
Qed.

Lemma remove_all_not_EOF (d : list nat) :
  ∀ l, remove_all d l ≠ Raise EOFError.
Proof.
  induction d as [|e d IH]; intros l; simpl; [discriminate|].
  unfold item. destruct (l !! e) as [c|]; simpl; [|discriminate].
  specialize (IH (delete e l)).
  destruct (remove_all d (delete e l)) as [[cs ws]|e']; simpl;
    [discriminate | congruence].
Qed.

Lemma end_of_pass_not_EOF s : end_of_pass s ≠ Raise EOFError.
Proof.
  unfold end_of_pass.
  pose proof (remove_all_not_EOF (reverse (sorted N.of_nat (s_unwanted s)))
                (s_cards s)) as H.
  destruct (remove_all _ _) as [[cs ws]|e]; simpl; [|congruence].
  destruct (s_missed s); simpl; [discriminate|].
  unfold percent. destruct (bool_decide _); simpl; discriminate.
Qed.

Lemma go_quit legit_date today cfg rnd shuffle f tok more typed :
  is_quit tok = true →
  go legit_date today cfg rnd shuffle typed f = Raise EOFError →
  go legit_date today cfg rnd shuffle (typed ++ tok :: more) f = Ok (f, None).
Proof.
  intros Hq. unfold go. destruct typed as [|ans1 typed]; simpl.
  - rewrite Hq. reflexivity.
  - destruct (is_quit ans1); [discriminate|].
    destruct (_open legit_date today f) as [[cards0 reported]|e] eqn:Hopen;
      simpl.
    + destruct (pass cfg _ _ typed) as [[[s rest]|]|e] eqn:Hpass; simpl.
      * pose proof (end_of_pass_not_EOF s) as Hend.
        destruct (end_of_pass s) as [[cs report]|e]; simpl.
        -- destruct (s_abort s); discriminate.
        -- congruence.
      * discriminate.
      * intros [= ->].
        rewrite (pass_quit _ _ _ _ Hq _ _ Hpass). reflexivity.
    + intros [= ->]. apply _open_no_Exception in Hopen. discriminate.
Qed.

(** C4.  A quit token typed at any prompt of [go] (the session, fed the
    lines typed so far, is waiting for the next line) makes [go] return
    with the card file as it was; and when the pass is completed with
    the abort flag set, [go] returns its summary with the card file as
    it was.  In neither case is [_save] called. *)
Theorem quit_or_abort_leaves_file :
  ∀ legit_date today cfg rnd shuffle f,
    (∀ typed tok more,
       is_quit tok = true →
       go legit_date today cfg rnd shuffle typed f = Raise EOFError →
       go legit_date today cfg rnd shuffle (typed ++ tok :: more) f
       = Ok (f, None))
    ∧ (∀ ans1 inputs cards0 reported s rest,
         is_quit ans1 = false →
         _open legit_date today f = Ok (cards0, reported) →
         pass cfg (traversal rnd shuffle (length cards0)) (start cfg cards0)
           inputs = Ok (Some (s, rest)) →
         s_abort s = true →
         ∃ report,
           go legit_date today cfg rnd shuffle (ans1 :: inputs) f
           = Ok (f, Some report)).
Proof.
  intros legit_date today cfg rnd shuffle f. split.
  - intros typed tok more. apply go_quit.
  - intros ans1 inputs cards0 reported s rest Hq Hopen Hpass Habort.
    destruct (go_completed legit_date today cfg rnd shuffle ans1 inputs f
                cards0 reported s rest Hq Hopen Hpass)
      as (_ & _ & words & _ & Hgo).
    rewrite Habort in Hgo. eexists. exact Hgo.
Qed.

Lemma quit_or_abort_leaves_file_witness :
  let f := Rows [fields; ["cat"; "d"; "01/02/24"; "3"; "8"];
                 ["dog"; "e"; "01/03/24"; "0"; "9"]] None in
  go any_date "11/04/26" ten (λ _, 0%N) true
     ([""; ""; "y"; ""] ++ "Quit" :: ["y"]) f = Ok (f, None)
  ∧ ∃ report,
      go any_date "11/04/26" ten (λ _, 0%N) true
         ("" :: [""; "abort"; "y"; ""; "y"]) f = Ok (f, Some report).
Proof.
  intros f.
  destruct (quit_or_abort_leaves_file any_date "11/04/26" ten (λ _, 0%N)
              true f) as [Hquit Habort].
  split.
  - apply Hquit; vm_compute; reflexivity.
  - eapply (Habort "" [""; "abort"; "y"; ""; "y"]).
    + reflexivity.
    + vm_compute; reflexivity.
    + vm_compute; reflexivity.
    + reflexivity.
Defined.







(** ** The summary *)

(** C8.  When the pass of [go] is completed with at least one card
    missed, [go] does not raise [ZeroDivisionError]: the cards left
    after the removals are at least as many as the missed ones, and the
    percentage of the summary is 100 * (remaining - missed) / remaining
    cut to an integer, where remaining counts the cards left after the
    removals. *)
Theorem percent_correct_truncates :
  ∀ legit_date today cfg rnd shuffle ans1 inputs f cards0 reported s rest,
    is_quit ans1 = false →
    _open legit_date today f = Ok (cards0, reported) →
    pass cfg (traversal rnd shuffle (length cards0)) (start cfg cards0) inputs
    = Ok (Some (s, rest)) →
    s_missed s ≠ [] →
    let remaining :=
      Z.of_nat (length (unmarked (s_unwanted s) 0 (s_cards s))) in
    let missed := Z.of_nat (length (s_missed s)) in
    ∃ f' report p,
      go legit_date today cfg rnd shuffle (ans1 :: inputs) f
      = Ok (f', Some report)
      ∧ percent_correct report = Some p
      ∧ length (removed report) = length (s_unwanted s)
      ∧ remaining = Z.of_nat (length cards0) - Z.of_nat (length (s_unwanted s))
      ∧ 0 < missed ≤ remaining
      ∧ p = Z.quot (100 * (remaining - missed)) remaining
      ∧ p * remaining ≤ 100 * (remaining - missed) < (p + 1) * remaining.
Proof.
  intros legit_date today cfg rnd shuffle ans1 inputs f cards0 reported s rest
    Hq Hopen Hpass Hmissed remaining missed.
  destruct (go_completed legit_date today cfg rnd shuffle ans1 inputs f
              cards0 reported s rest Hq Hopen Hpass)
    as (Hleft & Hle & words & Hwords & Hgo).
  destruct (s_missed s) as [|m ms] eqn:Hm; [contradiction|].
  assert (Hpos : 0 < missed ≤ remaining).
  { unfold missed, remaining. simpl in *. lia. }
  eexists _, _, (Z.quot (100 * (remaining - missed)) remaining).
  split; [exact Hgo|].
  split; [reflexivity|]. split; [exact Hwords|].
  split; [unfold remaining; lia|]. split; [exact Hpos|].
  split; [reflexivity|].
  rewrite Z.quot_div_nonneg by lia.
  pose proof (Z.mul_div_le (100 * (remaining - missed)) remaining) as H1.
  pose proof (Z.mul_succ_div_gt (100 * (remaining - missed)) remaining) as H2.
  lia.
Qed.

Lemma percent_correct_truncates_witness :
  let f := Rows [fields; ["a"; "1"; "01/02/24"; "0"; "0"];
                 ["b"; "2"; "01/02/24"; "0"; "0"];
                 ["c"; "3"; "01/02/24"; "0"; "0"];
                 ["d"; "4"; "01/02/24"; "0"; "0"];
                 ["e"; "5"; "01/02/24"; "0"; "0"]] None in
  ∃ f' report,
    go any_date "11/04/26" ten (λ _, 0%N) false
       [""; ""; "y"; ""; "n"; ""; "y"; ""; ""; ""; "y"] f
    = Ok (f', Some report)
    ∧ percent_correct report = Some 80.
Proof.
  intros f.
  edestruct (percent_correct_truncates any_date "11/04/26" ten (λ _, 0%N)
               false "" [""; "y"; ""; "n"; ""; "y"; ""; ""; ""; "y"] f)
    as (f' & report & p & Hgo & Hp & _ & _ & _ & Hquot & _).
  - reflexivity.
  - vm_compute; reflexivity.
  - vm_compute; reflexivity.
  - discriminate.
  - exists f', report. split; [exact Hgo|].
    rewrite Hp, Hquot. vm_compute. reflexivity.
Defined.

(** Three cards, one of them missed: 66, not the rounded 67. *)
Example percent_two_of_three :
  percent_correct
    <$> (snd <$> match go any_date "11/04/26" ten (λ _, 0%N) false
                         [""; ""; "y"; ""; "n"; ""; "y"]
                         (Rows [fields; ["a"; "1"; "01/02/24"; "0"; "0"];
                                ["b"; "2"; "01/02/24"; "0"; "0"];
                                ["c"; "3"; "01/02/24"; "0"; "0"]] None) with
                 | Ok r => Some r
                 | Raise _ => None
                 end) ≫= id
  = Some (Some 66).
Proof. reflexivity. Qed.

(** ** add *)

(** The loop of [add] on a deck whose first matching card is [x]. *)
Lemma replace_match_first word definition (x : card) (after : list card) :
  String.eqb (normalized (c_word x)) (normalized word) = true →
  ∀ todo seen,
    Forall (λ y, String.eqb (normalized (c_word y)) (normalized word) = false)
      todo →
    replace_match word definition (length seen) (todo ++ x :: after)
      (seen ++ todo ++ x :: after)
    = Some (seen ++ todo ++ after
            ++ [Card word definition (c_date x) (c_viewed x) (c_tally x) []]).
Proof.
  intros Hx. induction todo as [|y todo IH]; intros seen Hno; simpl.
  - rewrite Hx. rewrite delete_middle, <- app_assoc. reflexivity.
  - inversion Hno as [|? ? Hy Hno']; subst. rewrite Hy.
    specialize (IH (seen ++ [y]) Hno').
    rewrite length_app, Nat.add_1_r, <- !app_assoc in IH. exact IH.
Qed.

(** The loop of [add] on a deck without a matching card. *)
Lemma replace_match_none word definition (_cards : list card) :
  ∀ todo i,
    Forall (λ y, String.eqb (normalized (c_word y)) (normalized word) = false)
      todo →
    replace_match word definition i todo _cards = None.
Proof.
  induction todo as [|y todo IH]; intros i Hno; simpl.
  - reflexivity.
  - inversion Hno as [|? ? Hy Hno']; subst. rewrite Hy. apply IH, Hno'.
Qed.

Lemma upsert_single today word definition before x after :
  let w := Py.replace delimiter substitute word in
  let d := Py.replace delimiter substitute definition in
  normalized (c_word x) = normalized w →
  (∀ y, y ∈ before ++ after → normalized (c_word y) ≠ normalized w) →
  upsert today word definition (before ++ x :: after)
  = before ++ after ++ [Card w d (c_date x) (c_viewed x) (c_tally x) []].
Proof.
  intros w d Hx Hno. unfold upsert. fold w d.
  assert (Hbefore : Forall (λ y, String.eqb (normalized (c_word y))
                                   (normalized w) = false) before).
  { apply Forall_forall. intros y Hy. apply String.eqb_neq, Hno.
    apply elem_of_app. left. exact Hy. }
  pose proof (replace_match_first w d x after
                (proj2 (String.eqb_eq _ _) Hx) before [] Hbefore) as Hr.
  simpl in Hr. rewrite Hr. reflexivity.
Qed.

Lemma to_row_length (c : card) : (5 ≤ length (to_row c))%nat.
Proof. unfold to_row. rewrite length_app. simpl. lia. Qed.

(** Reading back a row that [_save] wrote. *)
Lemma read_row_saved legit_date today (c : card) :
  read_row legit_date today (to_row c)
  = Ok (Card (c_word c) (c_definition c)
          (if legit_date (c_date c) then c_date c else today)
          (Py.Str (if Py.isnumeric (Py.str (c_viewed c))
                   then Py.str (c_viewed c) else "0"))
          (Py.Str (if Py.isnumeric (Py.str (c_tally c))
                   then Py.str (c_tally c) else "0"))
          (c_extra c)).
Proof.
  unfold read_row.
  rewrite bool_decide_eq_false_2 by (pose proof (to_row_length c); lia).
  rewrite bool_decide_eq_false_2 by (pose proof (to_row_length c); lia).
  reflexivity.
Qed.

(** Reading back the rows of a saved deck: the words are words of the
    cards saved. *)
Lemma read_rows_saved legit_date today (l : list card) :
  ∀ acc, ∃ l',
    read_rows legit_date today (map to_row l) None acc = (acc ++ l', None)
    ∧ ∀ c', c' ∈ l' → ∃ c, c ∈ l ∧ c_word c' = c_word c.
Proof.
  induction l as [|c l IH]; intros acc.
  - exists []. simpl. rewrite app_nil_r. split; [reflexivity|].
    intros c' Hc'. inversion Hc'.
  - cbn [map read_rows]. rewrite read_row_saved. cbn [c_word].
    destruct (String.eqb (c_word c) "word").
    + destruct (IH acc) as (l' & -> & Hl'). exists l'. split; [reflexivity|].
      intros c' Hc'. destruct (Hl' c' Hc') as (c0 & Hc0 & Hw).
      exists c0. split; [right; exact Hc0 | exact Hw].
    + match goal with
      | |- context [read_rows _ _ _ _ (acc ++ [?c1])] =>
          destruct (IH (acc ++ [c1])) as (l' & -> & Hl'); exists (c1 :: l')
      end.
      rewrite <- app_assoc. split; [reflexivity|].
      intros c' Hc'. apply elem_of_cons in Hc' as [-> | Hc'].
      * exists c. split; [left | reflexivity].
      * destruct (Hl' c' Hc') as (c0 & Hc0 & Hw).
        exists c0. split; [right; exact Hc0 | exact Hw].
Qed.

Lemma read_rows_app legit_date today (rows1 rows2 : list (list string)) :
  ∀ acc acc1,
    read_rows legit_date today rows1 None acc = (acc1, None) →
    read_rows legit_date today (rows1 ++ rows2) None acc
    = read_rows legit_date today rows2 None acc1.
Proof.
  induction rows1 as [|r rows1 IH]; intros acc acc1 H; simpl in *.
  - injection H as <-. reflexivity.
  - destruct (read_row legit_date today r) as [c|e]; [|discriminate].
    apply IH, H.
Qed.

(** C9, as stated, fails on a deck that holds two cards of the same
    normalized word (only the first is replaced), for an empty
    definition (which [add] refuses), and for a word that holds the
    delimiter (it is compared after the substitution). *)
Lemma add_keeps_second_match :
  let f := Rows [fields; ["cat"; "d0"; "01/02/24"; "0"; "0"];
                 ["Cat "; "d1"; "01/03/24"; "0"; "0"]] None in
  add any_date "11/04/26" "cat" "d2" f
  = Ok (Rows [fields; ["Cat "; "d1"; "01/03/24"; "0"; "0"];
              ["cat"; "d2"; "01/02/24"; "0"; "0"]] None)
  ∧ normalized "Cat " = normalized "cat"
  ∧ add any_date "11/04/26" "cat" "" f = Ok f
  ∧ add any_date "11/04/26" "a|b" "d2"
      (Rows [fields; ["a|b"; "d0"; "01/02/24"; "0"; "0"]] None)
    = Ok (Rows [fields; ["a|b"; "d0"; "01/02/24"; "0"; "0"];
                ["a;b"; "d2"; "11/04/26"; "0"; "0"]] None).
Proof. repeat split. Qed.

(** C9, amended.  When [word] and [definition] are not empty and
    exactly one card of the deck has the normalized word of [word]
    (after the delimiter has been replaced), [add] saves the deck
    without that card and with the new card at the end: the new word and
    definition, the old card's date, views and tally.  In particular,
    on a deck without "cat", [add("cat", "d1")] and then
    [add("cat", "d2")] save a deck whose only "cat" card is the last
    one, with definition "d2" and the date of the first [add], when that
    date is valid under the date format. *)
Theorem add_replaces_the_match :
  ∀ legit_date,
    (∀ today word definition f reported before x after,
       Py.nonempty word = true →
       Py.nonempty definition = true →
       _open legit_date today f = Ok (before ++ x :: after, reported) →
       let w := Py.replace delimiter substitute word in
       let d := Py.replace delimiter substitute definition in
       normalized (c_word x) = normalized w →
       (∀ y, y ∈ before ++ after → normalized (c_word y) ≠ normalized w) →
       add legit_date today word definition f
       = Ok (_save (before ++ after
                    ++ [Card w d (c_date x) (c_viewed x) (c_tally x) []])))
    ∧ (∀ today1 today2 f cards0 reported,
         _open legit_date today1 f = Ok (cards0, reported) →
         (∀ y, y ∈ cards0 → normalized (c_word y) ≠ "cat") →
         legit_date today1 = true →
         ∃ f1 cs,
           add legit_date today1 "cat" "d1" f = Ok f1
           ∧ add legit_date today2 "cat" "d2" f1
             = Ok (_save (cs ++ [Card "cat" "d2" today1
                                   (Py.Str "0") (Py.Str "0") []]))
           ∧ (∀ y, y ∈ cs → normalized (c_word y) ≠ "cat")).
Proof.
  intros legit_date. split.
  - intros today word definition f reported before x after Hw Hd Hopen w d
      Hx Hno.
    unfold add. rewrite Hw, Hd, Hopen. simpl.
    rewrite (upsert_single today word definition before x after Hx Hno).
    reflexivity.
  - intros today1 today2 f cards0 reported Hopen Hno Hdate.
    pose (cat1 := Card "cat" "d1" today1 (Py.Int 0) (Py.Int 0) []).
    assert (Hadd1 : add legit_date today1 "cat" "d1" f
                    = Ok (_save (cards0 ++ [cat1]))).
    { unfold add. simpl. rewrite Hopen. simpl. unfold upsert.
      rewrite replace_match_none; [reflexivity|].
      apply Forall_forall. intros y Hy. apply String.eqb_neq, Hno, Hy. }
    destruct (read_rows_saved legit_date today2 cards0 []) as (cs & Hcs & Hwords).
    simpl in Hcs.
    pose (cat1' := Card "cat" "d1" today1 (Py.Str "0") (Py.Str "0") []).
    assert (Hopen2 : _open legit_date today2 (_save (cards0 ++ [cat1]))
                     = Ok (cs ++ [cat1'], None)).
    { unfold _open, _save. rewrite map_app.
      change (fields :: map to_row cards0 ++ map to_row [cat1])
        with ([fields] ++ map to_row cards0 ++ map to_row [cat1]).
      rewrite (read_rows_app legit_date today2 [fields] _ [] []) by reflexivity.
      rewrite (read_rows_app legit_date today2 _ _ [] cs Hcs).
      simpl. unfold read_row. simpl. rewrite Hdate. reflexivity. }
    assert (Hcsno : ∀ y, y ∈ cs → normalized (c_word y) ≠ "cat").
    { intros y Hy. destruct (Hwords y Hy) as (c & Hc & ->). apply Hno, Hc. }
    exists (_save (cards0 ++ [cat1])), cs.
    split; [exact Hadd1|]. split; [|exact Hcsno].
    unfold add. simpl. rewrite Hopen2. simpl.
    rewrite (upsert_single today2 "cat" "d2" cs cat1' []).
    + rewrite app_nil_l. reflexivity.
    + reflexivity.
    + intros y Hy. rewrite app_nil_r in Hy. apply Hcsno, Hy.
Qed.

Lemma add_replaces_the_match_witness :
  add any_date "11/04/26" "Cat" "a|b"
    (Rows [fields; ["cat "; "d0"; "01/02/24"; "3"; "7"];
           ["dog"; "d1"; "01/03/24"; "0"; "0"]] None)
  = Ok (Rows [fields; ["dog"; "d1"; "01/03/24"; "0"; "0"];
              ["Cat"; "a;b"; "01/02/24"; "3"; "7"]] None)
  ∧ ∃ f1 cs,
      add any_date "11/03/26" "cat" "d1" (Rows [fields] None) = Ok f1
      ∧ add any_date "11/04/26" "cat" "d2" f1
        = Ok (_save (cs ++ [Card "cat" "d2" "11/03/26"
                              (Py.Str "0") (Py.Str "0") []])).
Proof.
  destruct (add_replaces_the_match any_date) as [Hone Htwo]. split.
  - apply (Hone "11/04/26" "Cat" "a|b" _ None []
             (Card "cat " "d0" "01/02/24" (Py.Str "3") (Py.Str "7") [])
             [Card "dog" "d1" "01/03/24" (Py.Str "0") (Py.Str "0") []]);
      try reflexivity.
    intros y Hy. apply list_elem_of_singleton in Hy as ->.
    vm_compute. discriminate.
  - destruct (Htwo "11/03/26" "11/04/26" (Rows [fields] None) [] None)
      as (f1 & cs & H1 & H2 & _); try reflexivity.
    + intros y Hy. inversion Hy.
    + exists f1, cs. split; [exact H1 | exact H2].
Defined.

(** ** The range of the tally *)

Lemma int_of_str_at_least_0 (s : string) (t : Z) :
  Py.int_of_str s = Some t → 0 ≤ t.
Proof.
  unfold Py.int_of_str. destruct (NilZero.uint_of_string s) as [d|]; simpl.
  - intros [= <-]. unfold Z.of_uint. lia.
  - discriminate.
Qed.

Lemma normalize_tally legit_date today (row : list string) (c : card) :
  normalize legit_date today row = Ok c → tally_at_least_0 c.
Proof.
  unfold normalize.
  destruct row as [|w [|d [|dt [|v [|t more]]]]]; try discriminate.
  intros [= <-] n. simpl. apply int_of_str_at_least_0.
Qed.

Lemma read_row_tally legit_date today (row : list string) (c : card) :
  read_row legit_date today row = Ok c → tally_at_least_0 c.
Proof.
  unfold read_row. destruct (bool_decide _).
  - apply normalize_tally.
  - destruct (bool_decide _); [discriminate | apply normalize_tally].
Qed.

Lemma read_rows_tally legit_date today (rows : list (list string)) :
  ∀ broken acc,
    Forall tally_at_least_0 acc →
    Forall tally_at_least_0 (fst (read_rows legit_date today rows broken acc)).
Proof.
  induction rows as [|r rows IH]; intros broken acc Hacc; simpl.
  - exact Hacc.
  - destruct (read_row legit_date today r) as [c|e] eqn:Hr; [|exact Hacc].
    apply IH. destruct (String.eqb (c_word c) "word"); [exact Hacc|].
    apply Forall_app. split; [exact Hacc|].
    constructor; [eapply read_row_tally; exact Hr | constructor].
Qed.

Lemma _open_tally legit_date today f cs reported :
  _open legit_date today f = Ok (cs, reported) → Forall tally_at_least_0 cs.
Proof.
  unfold _open. destruct f as [|rows broken].
  - simpl. intros [= <- _]. constructor.
  - pose proof (read_rows_tally legit_date today rows broken [] (Forall_nil_2 _))
      as H.
    destruct (read_rows legit_date today rows broken []) as [cs' [e|]];
      simpl in *.
    + destruct (is_Exception e); [|discriminate]. intros [= <- _]. exact H.
    + intros [= <- _]. exact H.
Qed.

Lemma show_tally cfg k s inputs s' rest :
  Forall tally_at_least_0 (s_cards s) →
  show cfg k s inputs = Ok (Some (s', rest)) →
  Forall tally_at_least_0 (s_cards s').
Proof.
  intros Hall Hshow.
  apply show_Some in Hshow
    as (c & v & ans0 & again & ans & Hc & Hv & _
        & [(_ & -> & _) | (_ & t & Ht & -> & _)]);
    apply Forall_insert; try exact Hall; intros n; simpl; intros [= <-].
  - lia.
  - rewrite Forall_forall in Hall.
    assert (0 ≤ t); [|lia].
    apply (Hall c); [eapply list_elem_of_lookup_2; exact Hc | exact Ht].
Qed.

Lemma pass_tally cfg (l : list nat) :
  ∀ s inputs s' rest,
    Forall tally_at_least_0 (s_cards s) →
    pass cfg l s inputs = Ok (Some (s', rest)) →
    Forall tally_at_least_0 (s_cards s').
Proof.
  induction l as [|k l IH]; intros s inputs s' rest Hall H; simpl in H.
  - injection H as <- <-. exact Hall.
  - apply bind_Ok in H as (r & Hshow & H).
    destruct r as [[s1 inputs1]|]; [|discriminate].
    eapply IH; [|exact H]. eapply show_tally; [exact Hall | exact Hshow].
Qed.

(** C5, as stated, fails: [_open] keeps a tally above [maxtally] that
    the file holds, and with [tallypenalty] 0 the answer "n" sets the
    tally to [maxtally] and the card is saved, not removed. *)
Lemma tally_can_leave_the_range :
  (∃ c, _open any_date "11/04/26"
          (Rows [fields; ["cat"; "d"; "01/02/24"; "0"; "50"]] None)
        = Ok ([c], None)
        ∧ Py.int (c_tally c) = Some 50
        ∧ ¬ (0 ≤ 50 ≤ maxtally ten))
  ∧ go any_date "11/04/26" (Settings 10 0 (AbortText "False")) (λ _, 0%N) true
       [""; ""; "n"]
       (Rows [fields; ["cat"; "d"; "01/02/24"; "3"; "8"]] None)
    = Ok (Rows [fields; ["cat"; "d"; "01/02/24"; "4"; "10"]] None,
          Some (Summary [] (Some 0) [(0%nat, "cat")])).
Proof.
  split; [|reflexivity].
  eexists. split; [reflexivity|]. split; [reflexivity|].
  simpl. lia.
Qed.

(** * Further properties *)

(** ** Loading and saving *)

Lemma normalize_loaded legit_date today (row : list string) (c : card) :
  normalize legit_date today row = Ok c →
  (legit_date (c_date c) = true ∨ c_date c = today)
  ∧ (∃ v, c_viewed c = Py.Str v ∧ Py.isnumeric v = true)
  ∧ (∃ t, c_tally c = Py.Str t ∧ Py.isnumeric t = true).
Proof.
  unfold normalize.
  destruct row as [|w [|d [|dt [|v [|t more]]]]]; try discriminate.
  intros [= <-]. simpl. split; [|split].
  - destruct (legit_date dt) eqn:Hdt; auto.
  - eexists. split; [reflexivity|].
    destruct (Py.isnumeric v) eqn:Hv; [exact Hv | reflexivity].
  - eexists. split; [reflexivity|].
    destruct (Py.isnumeric t) eqn:Ht; [exact Ht | reflexivity].
Qed.

Lemma read_row_loaded legit_date today (row : list string) (c : card) :
  read_row legit_date today row = Ok c →
  (legit_date (c_date c) = true ∨ c_date c = today)
  ∧ (∃ v, c_viewed c = Py.Str v ∧ Py.isnumeric v = true)
  ∧ (∃ t, c_tally c = Py.Str t ∧ Py.isnumeric t = true).
Proof.
  unfold read_row. destruct (bool_decide _).
  - apply normalize_loaded.
  - destruct (bool_decide _); [discriminate | apply normalize_loaded].
Qed.

Lemma read_rows_loaded legit_date today (rows : list (list string)) :
  ∀ broken acc,
    Forall (loaded_card legit_date today) acc →
    Forall (loaded_card legit_date today)
      (fst (read_rows legit_date today rows broken acc)).
Proof.
  induction rows as [|r rows IH]; intros broken acc Hacc; simpl.
  - exact Hacc.
  - destruct (read_row legit_date today r) as [c|e] eqn:Hr; [|exact Hacc].
    apply IH. destruct (String.eqb (c_word c) "word") eqn:Hw; [exact Hacc|].
    apply Forall_app. split; [exact Hacc|].
    constructor; [|constructor].
    split; [apply String.eqb_neq, Hw | eapply read_row_loaded; exact Hr].
Qed.

Lemma _open_loaded legit_date today f cs reported :
  _open legit_date today f = Ok (cs, reported) →
  Forall (loaded_card legit_date today) cs.
Proof.
  unfold _open. destruct f as [|rows broken].
  - simpl. intros [= <- _]. constructor.
  - pose proof (read_rows_loaded legit_date today rows broken []
                  (Forall_nil_2 _)) as H.
    destruct (read_rows legit_date today rows broken []) as [cs' [e|]];
      simpl in *.
    + destruct (is_Exception e); [|discriminate]. intros [= <- _]. exact H.
    + intros [= <- _]. exact H.
Qed.

(** A card that was loaded, written by [_save], is read as it was. *)
Lemma read_row_of_loaded legit_date today1 today2 (c : card) :
  legit_date today1 = true →
  loaded_card legit_date today1 c →
  read_row legit_date today2 (to_row c) = Ok c.
Proof.
  intros Htoday (_ & Hdate & (v & Hv & Hvn) & (t & Ht & Htn)).
  rewrite read_row_saved. destruct c as [w d dt vw tl more]. simpl in *.
  subst vw tl. simpl. rewrite Hvn, Htn.
  assert (legit_date dt = true) as ->; [|reflexivity].
  destruct Hdate as [Hdt | ->]; assumption.
Qed.

Lemma read_rows_of_loaded legit_date today1 today2 (cs : list card) :
  legit_date today1 = true →
  Forall (loaded_card legit_date today1) cs →
  ∀ acc, read_rows legit_date today2 (map to_row cs) None acc
         = (acc ++ cs, None).
Proof.
  intros Htoday. induction 1 as [|c cs Hc Hcs IH]; intros acc.
  - simpl. rewrite app_nil_r. reflexivity.
  - cbn [map read_rows].
    rewrite (read_row_of_loaded legit_date today1 today2 c Htoday Hc).
    destruct Hc as (Hw & _). apply String.eqb_neq in Hw. rewrite Hw.
    rewrite IH, <- app_assoc. reflexivity.
Qed.

Lemma _open_save_loaded legit_date today1 today2 (cs : list card) :
  legit_date today1 = true →
  Forall (loaded_card legit_date today1) cs →
  _open legit_date today2 (_save cs) = Ok (cs, None).
Proof.
  intros Htoday Hcs. unfold _open, _save.
  change (fields :: map to_row cs) with ([fields] ++ map to_row cs).
  rewrite (read_rows_app legit_date today2 [fields] _ [] []) by reflexivity.
  rewrite (read_rows_of_loaded legit_date today1 today2 cs Htoday Hcs).
  reflexivity.
Qed.

(** X1.  Every card [_open] returns has a word other than "word", a date
    that the date format accepts or today's date, and numeric text as
    its number of views and as its tally. *)
Theorem open_normalizes :
  ∀ legit_date today f cs reported,
    _open legit_date today f = Ok (cs, reported) →
    Forall (loaded_card legit_date today) cs.
Proof. intros legit_date today f cs reported. apply _open_loaded. Qed.

Lemma open_normalizes_witness :
  Forall (loaded_card any_date "11/04/26")
    [Card "cat" "d" "01/02/24" (Py.Str "0") (Py.Str "0") [];
     Card "dog" "e" "11/04/26" (Py.Str "0") (Py.Str "0") []].
Proof.
  apply (open_normalizes any_date "11/04/26"
           (Rows [fields; ["cat"; "d"; "01/02/24"; "x"; "-1"]; ["dog"; "e"; "z"]]
              None) _ None).
  reflexivity.
Defined.

(** X2.  Saving a deck that was loaded and loading it again, on the
    same day or a later one, gives the same deck without any report,
    provided the date format accepts the date of the first load. *)
Theorem save_then_open_is_identity :
  ∀ legit_date today1 today2 f cs reported,
    _open legit_date today1 f = Ok (cs, reported) →
    legit_date today1 = true →
    _open legit_date today2 (_save cs) = Ok (cs, None).
Proof.
  intros legit_date today1 today2 f cs reported Hopen Htoday.
  apply (_open_save_loaded legit_date today1 today2 cs Htoday).
  eapply _open_loaded. exact Hopen.
Qed.

Lemma save_then_open_is_identity_witness :
  let cs := [Card "cat" "d" "01/02/24" (Py.Str "0") (Py.Str "0") [];
             Card "dog" "e" "11/04/26" (Py.Str "0") (Py.Str "0") ["more"]] in
  _open any_date "11/05/26" (_save cs) = Ok (cs, None).
Proof.
  intros cs.
  apply (save_then_open_is_identity any_date "11/04/26" "11/05/26"
           (Rows [["cat"; "d"; "01/02/24"; "x"; "-1"]; fields;
                  ["dog"; "e"; "11/04/26"; "0"; "0"; "more"]]
              (Some OSError)) cs (Some OSError)).
  - reflexivity.
  - reflexivity.
Defined.

(** X3.  A row without fields (a blank line) ends the load: [_open]
    reports the [IndexError] and returns the cards of the rows before
    it, and [add] then writes back those cards only, whatever rows
    followed. *)
Theorem blank_row_ends_load :
  ∀ legit_date today pre post broken cs,
    Forall (λ row, (2 ≤ length row)%nat) pre →
    _open legit_date today (Rows pre None) = Ok (cs, None) →
    _open legit_date today (Rows (pre ++ [] :: post) broken)
    = Ok (cs, Some IndexError)
    ∧ ∀ word definition,
        Py.nonempty word = true → Py.nonempty definition = true →
        add legit_date today word definition (Rows (pre ++ [] :: post) broken)
        = Ok (_save (upsert today word definition cs)).
Proof.
  intros legit_date today pre post broken cs Hpre Hopen.
  assert (Hblank : _open legit_date today (Rows (pre ++ [] :: post) broken)
                   = Ok (cs, Some IndexError)).
  { revert Hopen. unfold _open.
    rewrite (read_rows_stop legit_date today pre [] post broken [] IndexError
               Hpre eq_refl).
    destruct (read_rows legit_date today pre None []) as [cs' [e|]]; simpl.
    - destruct (is_Exception e); discriminate.
    - intros [= <-]. reflexivity. }
  split; [exact Hblank|].
  intros word definition Hw Hd. unfold add. rewrite Hw, Hd, Hblank.
  reflexivity.
Qed.

Lemma blank_row_ends_load_witness :
  add any_date "11/04/26" "owl" "o"
    (Rows ([fields; ["cat"; "d"; "01/02/24"; "3"; "8"]]
           ++ [] :: [["dog"; "e"; "01/03/24"; "0"; "0"]]) None)
  = Ok (Rows [fields; ["cat"; "d"; "01/02/24"; "3"; "8"];
              ["owl"; "o"; "11/04/26"; "0"; "0"]] None).
Proof.
  destruct (blank_row_ends_load any_date "11/04/26"
              [fields; ["cat"; "d"; "01/02/24"; "3"; "8"]]
              [["dog"; "e"; "01/03/24"; "0"; "0"]] None
              [Card "cat" "d" "01/02/24" (Py.Str "3") (Py.Str "8") []])
    as [_ Hadd].
  - repeat constructor.
  - reflexivity.
  - rewrite Hadd; reflexivity.
Defined.

(** X4.  A card added under the word "word" is written to the file but
    taken for the header when the file is read: provided the date
    format accepts the date of the [add], the next load returns the
    deck as it was before the [add]. *)
Theorem card_named_word_is_lost :
  ∀ legit_date today1 today2 definition f cs reported,
    Py.nonempty definition = true →
    legit_date today1 = true →
    _open legit_date today1 f = Ok (cs, reported) →
    (∀ y, y ∈ cs → normalized (c_word y) ≠ "word") →
    add legit_date today1 "word" definition f
    = Ok (_save (cs ++ [Card "word"
                          (Py.replace delimiter substitute definition) today1
                          (Py.Int 0) (Py.Int 0) []]))
    ∧ _open legit_date today2
        (_save (cs ++ [Card "word"
                         (Py.replace delimiter substitute definition) today1
                         (Py.Int 0) (Py.Int 0) []]))
      = Ok (cs, None).
Proof.
  intros legit_date today1 today2 definition f cs reported Hd Htoday Hopen Hno.
  split.
  - unfold add. rewrite Hd, Hopen. simpl. unfold upsert.
    rewrite replace_match_none; [reflexivity|].
    apply Forall_forall. intros y Hy. apply String.eqb_neq, Hno, Hy.
  - unfold _open, _save. rewrite map_app.
    change (fields :: map to_row cs ++ ?l)
      with ([fields] ++ map to_row cs ++ l).
    rewrite (read_rows_app legit_date today2 [fields] _ [] []) by reflexivity.
    rewrite (read_rows_app legit_date today2 (map to_row cs) _ [] cs).
    + reflexivity.
    + apply (read_rows_of_loaded legit_date today1 today2 cs Htoday).
      eapply _open_loaded. exact Hopen.
Qed.

Lemma card_named_word_is_lost_witness :
  _open any_date "11/05/26"
    (_save ([Card "cat" "d" "01/02/24" (Py.Str "3") (Py.Str "8") []]
            ++ [Card "word" "a;b" "11/04/26" (Py.Int 0) (Py.Int 0) []]))
  = Ok ([Card "cat" "d" "01/02/24" (Py.Str "3") (Py.Str "8") []], None).
Proof.
  apply (card_named_word_is_lost any_date "11/04/26" "11/05/26" "a|b"
           (Rows [fields; ["cat"; "d"; "01/02/24"; "3"; "8"]] None)
           [Card "cat" "d" "01/02/24" (Py.Str "3") (Py.Str "8") []] None);
    try reflexivity.
  intros y Hy. apply list_elem_of_singleton in Hy as ->.
  vm_compute. discriminate.
Defined.

(** ** Numbers as text *)

Lemma string_of_uint_digits (d : Decimal.uint) :
  Py.all_chars Py.isnumeric_char (NilEmpty.string_of_uint d) = true.
Proof. induction d; simpl; [reflexivity | exact IHd ..]. Qed.

(** [str] of a number that is not negative is numeric text, and [int]
    reads the number back. *)
Lemma str_of_int_numeric (n : Z) :
  0 ≤ n →
  Py.isnumeric (Py.str_of_int n) = true
  ∧ Py.int_of_str (Py.str_of_int n) = Some n.
Proof.
  intros Hn. destruct n as [|p|p]; [split; reflexivity | | lia].
  unfold Py.str_of_int, Py.int_of_str. simpl Z.to_int.
  unfold NilZero.string_of_int.
  pose proof (DecimalPos.Unsigned.to_uint_nonnil p) as Hnil.
  split.
  - unfold Py.isnumeric, NilZero.string_of_uint.
    pose proof (string_of_uint_digits (Pos.to_uint p)) as Hd.
    destruct (Pos.to_uint p); [contradiction | simpl in *; exact Hd ..].
  - rewrite (NilZero.usu _ Hnil). simpl. unfold Z.of_uint.
    rewrite DecimalPos.Unsigned.of_to. reflexivity.
Qed.

(** ** Every card of a completed pass *)

Lemma show_visit cfg k s inputs s' rest :
  show cfg k s inputs = Ok (Some (s', rest)) →
  ∃ c v t',
    s_cards s !! k = Some c ∧ Py.int (c_viewed c) = Some v
    ∧ s_cards s'
      = <[k := Card (c_word c) (c_definition c) (c_date c)
                 (Py.Int (v + 1)) (Py.Int t') (c_extra c)]> (s_cards s)
    ∧ (tally_at_least_0 c → 0 ≤ t').
Proof.
  intros H.
  apply show_Some in H
    as (c & v & ans0 & again & ans & Hc & Hv & _
        & [(_ & Hcs & _) | (_ & t & Ht & Hcs & _)]).
  - exists c, v, (Z.max 0 (maxtally cfg - tallypenalty cfg)).
    split; [exact Hc|]. split; [exact Hv|]. split; [exact Hcs | lia].
  - exists c, v, (t + 1).
    split; [exact Hc|]. split; [exact Hv|]. split; [exact Hcs|].
    intros Hpos. specialize (Hpos t Ht). lia.
Qed.

(** A completed pass over positions that are all different turns each
    of them into a card with one more view, an integer tally, and the
    word, definition, date and further fields it had. *)
Lemma pass_visits cfg (l : list nat) :
  NoDup l →
  ∀ s inputs s' rest,
    pass cfg l s inputs = Ok (Some (s', rest)) →
    ∀ k, k ∈ l →
      ∃ c v t',
        s_cards s !! k = Some c ∧ Py.int (c_viewed c) = Some v
        ∧ s_cards s' !! k
          = Some (Card (c_word c) (c_definition c) (c_date c)
                    (Py.Int (v + 1)) (Py.Int t') (c_extra c))
        ∧ (tally_at_least_0 c → 0 ≤ t').
Proof.
  induction 1 as [|k0 l Hk0 Hnd IH]; intros s inputs s' rest H k Hk.
  - inversion Hk.
  - simpl in H. apply bind_Ok in H as (r & Hshow & H).
    destruct r as [[s1 inputs1]|]; [|discriminate].
    pose proof (show_frame _ _ _ _ _ _ Hshow) as (Hlt & _ & Hother1 & _).
    apply elem_of_cons in Hk as [-> | Hk].
    + apply show_visit in Hshow as (c & v & t' & Hc & Hv & Hcs & Ht').
      exists c, v, t'. split; [exact Hc|]. split; [exact Hv|].
      split; [|exact Ht'].
      destruct (pass_frame _ _ _ _ _ _ H) as (_ & Hother & _).
      rewrite (Hother k0 Hk0), Hcs. apply list_lookup_insert_eq, Hlt.
    + destruct (IH _ _ _ _ H k Hk) as (c & v & t' & Hc & Hrest).
      exists c, v, t'. split; [|exact Hrest].
      rewrite <- Hc. symmetry. apply Hother1. intros ->. contradiction.
Qed.

(** The cards at the end of a completed pass of [go]. *)
Lemma pass_of_go_cards :
  ∀ legit_date today cfg rnd shuffle f cards0 reported inputs s rest,
    _open legit_date today f = Ok (cards0, reported) →
    pass cfg (traversal rnd shuffle (length cards0)) (start cfg cards0) inputs
    = Ok (Some (s, rest)) →
    length (s_cards s) = length cards0
    ∧ ∀ k c, cards0 !! k = Some c →
        ∃ v t',
          Py.int (c_viewed c) = Some v ∧ 0 ≤ v ∧ 0 ≤ t'
          ∧ s_cards s !! k
            = Some (Card (c_word c) (c_definition c) (c_date c)
                      (Py.Int (v + 1)) (Py.Int t') (c_extra c)).
Proof.
  intros legit_date today cfg rnd shuffle f cards0 reported inputs s rest
    Hopen Hpass.
  split; [apply (pass_of_go _ _ _ _ _ _ _ Hpass)|].
  intros k c Hc.
  assert (Hk : k ∈ traversal rnd shuffle (length cards0)).
  { rewrite traversal_perm. apply elem_of_seq.
    apply lookup_lt_Some in Hc. lia. }
  destruct (pass_visits cfg _ (traversal_NoDup rnd shuffle (length cards0))
              _ _ _ _ Hpass k Hk) as (c' & v & t' & Hc' & Hv & Hk' & Ht').
  simpl in Hc'. rewrite Hc in Hc'. injection Hc' as <-.
  pose proof (_open_loaded _ _ _ _ _ Hopen) as Hloaded.
  pose proof (_open_tally _ _ _ _ _ Hopen) as Htally.
  rewrite Forall_forall in Hloaded, Htally.
  assert (Hin : c ∈ cards0) by (eapply list_elem_of_lookup_2; exact Hc).
  destruct (Hloaded c Hin) as (_ & _ & (vt & Hvt & _) & _).
  exists v, t'. split; [exact Hv|]. split; [|split].
  - rewrite Hvt in Hv. simpl in Hv. eapply int_of_str_at_least_0, Hv.
  - apply Ht', Htally, Hin.
  - exact Hk'.
Qed.

(** ** The range of the tally, after load and after a pass *)

(** The text [_open] accepts as a tally need not be an integer: the
    character U+00BD, one half, is numeric and [int] rejects it. *)
Example loaded_tally_no_integer :
  let half := String (ascii_of_nat 189) "" in
  ∃ c, _open any_date "11/04/26"
         (Rows [fields; ["cat"; "d"; "01/02/24"; "0"; half]] None)
       = Ok ([c], None)
       ∧ c_tally c = Py.Str half ∧ Py.int (c_tally c) = None.
Proof. eexists. split; [reflexivity|]. split; reflexivity. Qed.

(** C5, amended.  After [_open] the tally of every card is text for
    which [isnumeric] holds, and at least 0 whenever [int] reads it;
    after a completed pass of [go] the tally of every card is an
    integer that is at least 0, and a tally that is at least 0 stays so
    over any pass; a correct response on a card of tally [t] makes it
    [t + 1], which is within [0, maxtally] when [t] was within
    [0, maxtally - 1], and marks the card for removal when [t + 1] is
    [maxtally] or more; and a mark made during the pass is still there
    at its end. *)
Theorem tally_range :
  ∀ cfg,
    (∀ legit_date today f cs reported,
       _open legit_date today f = Ok (cs, reported) →
       Forall (λ c, (∃ text, c_tally c = Py.Str text
                             ∧ Py.isnumeric text = true)
                    ∧ tally_at_least_0 c) cs)
    ∧ (∀ legit_date today rnd shuffle f cards0 reported inputs s rest,
         _open legit_date today f = Ok (cards0, reported) →
         pass cfg (traversal rnd shuffle (length cards0)) (start cfg cards0)
           inputs
         = Ok (Some (s, rest)) →
         Forall (λ c, ∃ t, c_tally c = Py.Int t ∧ 0 ≤ t) (s_cards s))
    ∧ (∀ l s inputs s' rest,
         Forall tally_at_least_0 (s_cards s) →
         pass cfg l s inputs = Ok (Some (s', rest)) →
         Forall tally_at_least_0 (s_cards s')
         ∧ ∀ k, k ∈ s_unwanted s → k ∈ s_unwanted s')
    ∧ (∀ k ans s s' c t,
         classified_before_correct ans = false →
         s_cards s !! k = Some c →
         Py.int (c_tally c) = Some t →
         respond cfg k ans s = Ok (Next s') →
         (c_tally <$> s_cards s' !! k) = Some (Py.Int (t + 1))
         ∧ (0 ≤ t < maxtally cfg → 0 ≤ t + 1 ≤ maxtally cfg)
         ∧ (maxtally cfg ≤ t + 1 → k ∈ s_unwanted s')).
Proof.
  intros cfg. split; [|split; [|split]].
  - intros legit_date today f cs reported Hopen.
    pose proof (_open_loaded _ _ _ _ _ Hopen) as Hl.
    pose proof (_open_tally _ _ _ _ _ Hopen) as Ht.
    rewrite Forall_forall in Hl, Ht. apply Forall_forall. intros c Hc.
    split; [|apply Ht; exact Hc].
    destruct (Hl c Hc) as (_ & _ & _ & Htext). exact Htext.
  - intros legit_date today rnd shuffle f cards0 reported inputs s rest
      Hopen Hpass.
    destruct (pass_of_go_cards _ _ _ _ _ _ _ _ _ _ _ Hopen Hpass)
      as [Hlen Hcards].
    apply Forall_forall. intros c Hc.
    apply list_elem_of_lookup_1 in Hc as [k Hk].
    assert (Hlt : (k < length cards0)%nat)
      by (rewrite <- Hlen; eapply lookup_lt_Some; exact Hk).
    apply lookup_lt_is_Some_2 in Hlt as [c0 Hc0].
    destruct (Hcards k c0 Hc0) as (v & t' & _ & _ & Ht' & Hk').
    rewrite Hk in Hk'. injection Hk' as ->.
    exists t'. split; [reflexivity | exact Ht'].
  - intros l s inputs s' rest Hall Hpass. split.
    + eapply pass_tally; [exact Hall | exact Hpass].
    + destruct (pass_frame _ _ _ _ _ _ Hpass)
        as (_ & _ & _ & u & m & -> & _).
      intros k Hk. apply elem_of_app. left. exact Hk.
  - intros k ans s s' c t Hans Hc Ht Hresp.
    rewrite (respond_correct cfg k ans s Hans) in Hresp.
    apply known_Next in Hresp as (c' & t' & Hc' & Ht' & ->).
    rewrite Hc in Hc'. injection Hc' as <-.
    rewrite Ht in Ht'. injection Ht' as <-.
    simpl. split; [|split].
    + rewrite list_lookup_insert_eq by (eapply lookup_lt_Some; exact Hc).
      reflexivity.
    + lia.
    + intros Hmax. apply Z.leb_le in Hmax. rewrite Hmax.
      apply elem_of_app. right. left.
Qed.

Lemma tally_range_witness :
  Forall (λ c, (∃ text, c_tally c = Py.Str text ∧ Py.isnumeric text = true)
               ∧ tally_at_least_0 c)
    [Card "cat" "d" "01/02/24" (Py.Str "0") (Py.Str "50") []]
  ∧ Forall (λ c, ∃ t, c_tally c = Py.Int t ∧ 0 ≤ t)
      [Card "cat" "d" "01/02/24" (Py.Int 1) (Py.Int 51) []]
  ∧ ∃ s', respond ten 0 "" (start ten
                [Card "cat" "d" "01/02/24" (Py.Str "4") (Py.Str "9") []])
          = Ok (Next s')
          ∧ (0%nat ∈ s_unwanted s').
Proof.
  destruct (tally_range ten) as (Hopen & Hgo & _ & Hresp). split; [|split].
  - apply (Hopen any_date "11/04/26"
             (Rows [fields; ["cat"; "d"; "01/02/24"; "0"; "50"]] None) _ None).
    reflexivity.
  - apply (Hgo any_date "11/04/26" (λ _, 0%N) true
             (Rows [fields; ["cat"; "d"; "01/02/24"; "0"; "50"]] None)
             [Card "cat" "d" "01/02/24" (Py.Str "0") (Py.Str "50") []] None
             [""; "y"]
             (Session [Card "cat" "d" "01/02/24" (Py.Int 1) (Py.Int 51) []]
                false [0%nat] [] "Meaning known? (Y/n/i/q) ")
             []); reflexivity.
  - pose (c := Card "cat" "d" "01/02/24" (Py.Str "4") (Py.Str "9") []).
    pose (s' := Session [set_tally c 10] false [0%nat] []
                  "Meaning known? (Y/n/i/q) ").
    destruct (Hresp 0%nat "" (start ten [c]) s' c 9) as (_ & _ & Hmark);
      try reflexivity.
    exists s'. split; [reflexivity|]. apply Hmark. simpl. lia.
Defined.

(** X5.  When the pass of [go] is completed, every card of the deck has
    been shown once: it has one more view than it was loaded with, an
    integer tally that is not negative, and its word, definition, date
    and further fields are those loaded. *)
Theorem completed_pass_views_every_card :
  ∀ legit_date today cfg rnd shuffle f cards0 reported inputs s rest,
    _open legit_date today f = Ok (cards0, reported) →
    pass cfg (traversal rnd shuffle (length cards0)) (start cfg cards0) inputs
    = Ok (Some (s, rest)) →
    length (s_cards s) = length cards0
    ∧ ∀ k c, cards0 !! k = Some c →
        ∃ v t',
          Py.int (c_viewed c) = Some v ∧ 0 ≤ v ∧ 0 ≤ t'
          ∧ s_cards s !! k
            = Some (Card (c_word c) (c_definition c) (c_date c)
                      (Py.Int (v + 1)) (Py.Int t') (c_extra c)).
Proof. exact pass_of_go_cards. Qed.

Lemma completed_pass_views_every_card_witness :
  ∃ v t', Py.int (Py.Str "3") = Some v ∧ 0 ≤ v ∧ 0 ≤ t'
          ∧ [Card "cat" "d" "01/02/24" (Py.Int 4) (Py.Int 9) []] !! 0%nat
            = Some (Card "cat" "d" "01/02/24" (Py.Int (v + 1)) (Py.Int t') []).
Proof.
  pose (c := Card "cat" "d" "01/02/24" (Py.Str "3") (Py.Str "8") []).
  destruct (completed_pass_views_every_card any_date "11/04/26" ten
              (λ _, 0%N) true
              (Rows [fields; ["cat"; "d"; "01/02/24"; "3"; "8"]] None)
              [c] None [""; "y"]
              (Session [Card "cat" "d" "01/02/24" (Py.Int 4) (Py.Int 9) []]
                 false [] [] "Meaning known? (Y/n/i/q) ") [])
    as [_ H]; try reflexivity.
  exact (H 0%nat c eq_refl).
Defined.

Lemma pass_of_go_shown legit_date today cfg rnd shuffle f cards0 reported
    inputs s rest :
  legit_date today = true →
  _open legit_date today f = Ok (cards0, reported) →
  pass cfg (traversal rnd shuffle (length cards0)) (start cfg cards0) inputs
  = Ok (Some (s, rest)) →
  Forall (shown_card legit_date) (s_cards s).
Proof.
  intros Htoday Hopen Hpass.
  destruct (pass_of_go_cards _ _ _ _ _ _ _ _ _ _ _ Hopen Hpass) as [Hlen Hall].
  pose proof (_open_loaded _ _ _ _ _ Hopen) as Hloaded.
  rewrite Forall_forall in Hloaded.
  apply Forall_lookup. intros k c' Hc'.
  assert (Hk : (k < length cards0)%nat).
  { rewrite <- Hlen. eapply lookup_lt_Some. exact Hc'. }
  destruct (lookup_lt_is_Some_2 cards0 k Hk) as [c Hc].
  destruct (Hall k c Hc) as (v & t' & _ & Hv & Ht' & Hk').
  rewrite Hc' in Hk'. injection Hk' as ->.
  destruct (Hloaded c (list_elem_of_lookup_2 _ _ _ Hc))
    as (Hw & Hdate & _).
  split; [exact Hw|]. split.
  - simpl. destruct Hdate as [Hd | ->]; assumption.
  - exists (v + 1), t'. simpl. repeat split; lia.
Qed.

Lemma unmarked_Forall (P : card → Prop) (d : list nat) (l : list card) :
  ∀ i, Forall P l → Forall P (unmarked d i l).
Proof.
  induction l as [|c l IH]; intros i Hl; simpl; [constructor|].
  apply Forall_cons in Hl as [Hc Hl].
  destruct (bool_decide _); [apply IH, Hl|].
  constructor; [exact Hc | apply IH, Hl].
Qed.

Lemma read_row_of_shown legit_date today (c : card) :
  shown_card legit_date c →
  read_row legit_date today (to_row c) = Ok (textual c)
  ∧ Py.int (c_viewed (textual c)) = Py.int (c_viewed c)
  ∧ Py.int (c_tally (textual c)) = Py.int (c_tally c).
Proof.
  intros (_ & Hdate & v & t & Hv & Ht & Hv0 & Ht0).
  rewrite read_row_saved. unfold textual. rewrite Hdate, Hv, Ht. simpl.
  destruct (str_of_int_numeric v Hv0) as [-> ->].
  destruct (str_of_int_numeric t Ht0) as [-> ->]. auto.
Qed.

Lemma read_rows_of_shown legit_date today (cs : list card) :
  Forall (shown_card legit_date) cs →
  ∀ acc, read_rows legit_date today (map to_row cs) None acc
         = (acc ++ (textual <$> cs), None).
Proof.
  induction 1 as [|c cs Hc Hcs IH]; intros acc.
  - simpl. rewrite app_nil_r. reflexivity.
  - cbn [map read_rows fmap list_fmap].
    destruct (read_row_of_shown legit_date today c Hc) as [-> _].
    destruct Hc as (Hw & _). apply String.eqb_neq in Hw.
    change (c_word (textual c)) with (c_word c). rewrite Hw.
    rewrite IH, <- app_assoc. reflexivity.
Qed.

(** X6.  What [go] saves after a completed pass, the next [_open] reads
    back, provided the date format accepts the date of the session: the
    same cards in the same order, their views and tallies as text of
    the same numbers, and no report. *)
Theorem go_saves_what_open_reads :
  ∀ legit_date today today2 cfg rnd shuffle ans1 inputs f cards0 reported
    s rest,
    is_quit ans1 = false →
    legit_date today = true →
    _open legit_date today f = Ok (cards0, reported) →
    pass cfg (traversal rnd shuffle (length cards0)) (start cfg cards0) inputs
    = Ok (Some (s, rest)) →
    s_abort s = false →
    let left := unmarked (s_unwanted s) 0 (s_cards s) in
    (∃ report,
       go legit_date today cfg rnd shuffle (ans1 :: inputs) f
       = Ok (_save left, Some report))
    ∧ _open legit_date today2 (_save left) = Ok (textual <$> left, None)
    ∧ Forall (λ c, Py.int (c_viewed (textual c)) = Py.int (c_viewed c)
                   ∧ Py.int (c_tally (textual c)) = Py.int (c_tally c)) left.
Proof.
  intros legit_date today today2 cfg rnd shuffle ans1 inputs f cards0 reported
    s rest Hq Htoday Hopen Hpass Habort left.
  assert (Hleft : Forall (shown_card legit_date) left).
  { apply unmarked_Forall.
    eapply pass_of_go_shown; [exact Htoday | exact Hopen | exact Hpass]. }
  split; [|split].
  - destruct (go_completed legit_date today cfg rnd shuffle ans1 inputs f
                cards0 reported s rest Hq Hopen Hpass)
      as (_ & _ & words & _ & Hgo).
    rewrite Habort in Hgo. eexists. exact Hgo.
  - unfold _open, _save.
    change (fields :: map to_row left) with ([fields] ++ map to_row left).
    rewrite (read_rows_app legit_date today2 [fields] _ [] []) by reflexivity.
    rewrite (read_rows_of_shown legit_date today2 left Hleft). reflexivity.
  - eapply Forall_impl; [exact Hleft|]. simpl. intros c Hc.
    apply (read_row_of_shown legit_date today2 c Hc).
Qed.

Lemma go_saves_what_open_reads_witness :
  _open any_date "11/05/26"
    (_save [Card "cat" "d" "01/02/24" (Py.Int 4) (Py.Int 9) []])
  = Ok ([Card "cat" "d" "01/02/24" (Py.Str "4") (Py.Str "9") []], None).
Proof.
  pose (c := Card "cat" "d" "01/02/24" (Py.Str "3") (Py.Str "8") []).
  destruct (go_saves_what_open_reads any_date "11/04/26" "11/05/26" ten
              (λ _, 0%N) true "" [""; "y"]
              (Rows [fields; ["cat"; "d"; "01/02/24"; "3"; "8"]] None)
              [c] None
              (Session [Card "cat" "d" "01/02/24" (Py.Int 4) (Py.Int 9) []]
                 false [] [] "Meaning known? (Y/n/i/q) ") [])
    as (_ & H & _); [reflexivity .. | exact H].
Defined.

(** ** Sessions that end early *)

(** X7.  A session that reaches a card whose number of views is no
    integer ends there with [ValueError], and nothing is saved.  (Text
    such as a superscript two is numeric for [_open] and no integer for
    [int].) *)
Theorem views_that_are_no_integer_end_the_session :
  ∀ legit_date today cfg rnd shuffle ans1 inputs f cards0 reported
    before k after s1 inputs1 c,
    is_quit ans1 = false →
    _open legit_date today f = Ok (cards0, reported) →
    traversal rnd shuffle (length cards0) = before ++ k :: after →
    pass cfg before (start cfg cards0) inputs = Ok (Some (s1, inputs1)) →
    cards0 !! k = Some c →
    Py.int (c_viewed c) = None →
    go legit_date today cfg rnd shuffle (ans1 :: inputs) f = Raise ValueError.
Proof.
  intros legit_date today cfg rnd shuffle ans1 inputs f cards0 reported
    before k after s1 inputs1 c Hq Hopen Htrav Hbefore Hc Hv.
  pose proof (traversal_NoDup rnd shuffle (length cards0)) as Hnd.
  rewrite Htrav in Hnd. apply NoDup_app in Hnd as (_ & Hk & _).
  assert (Hkb : k ∉ before).
  { intros Hin. apply (Hk k Hin). left. }
  destruct (pass_frame _ _ _ _ _ _ Hbefore) as (_ & Hother & _).
  assert (Hshow : show cfg k s1 inputs1 = Raise ValueError).
  { unfold show, item. rewrite (Hother k Hkb). simpl. rewrite Hc. simpl.
    unfold to_int. rewrite Hv. reflexivity. }
  unfold go. rewrite Hq, Hopen. simpl.
  rewrite Htrav, pass_app, Hbefore. simpl. rewrite Hshow. reflexivity.
Qed.

Lemma views_that_are_no_integer_end_the_session_witness :
  go any_date "11/04/26" ten (λ _, 0%N) false [""; ""; "y"; ""; "y"]
     (Rows [fields; ["cat"; "d"; "01/02/24"; "3"; "8"];
            ["dog"; "e"; "01/03/24"; String (ascii_of_nat 178) ""; "0"]] None)
  = Raise ValueError.
Proof.
  pose (c := Card "cat" "d" "01/02/24" (Py.Str "3") (Py.Str "8") []).
  pose (d := Card "dog" "e" "01/03/24"
               (Py.Str (String (ascii_of_nat 178) "")) (Py.Str "0") []).
  apply (views_that_are_no_integer_end_the_session any_date "11/04/26" ten
           (λ _, 0%N) false "" [""; "y"; ""; "y"] _ [c; d] None
           [0%nat] 1%nat []
           (Session [Card "cat" "d" "01/02/24" (Py.Int 4) (Py.Int 9) []; d]
              false [] [] "Meaning known? (Y/n/i/q) ") [""; "y"] d);
    reflexivity.
Defined.

(** X8.  When [_open] returns no cards, [go] asks for no answer, has
    nothing removed or missed to report, and calls [_save] with the
    empty deck: the rows handed to the writer are the header row and
    nothing else.  (Whether the write succeeds is not part of the
    model: [_save] stands for the rows it is given to write.) *)
Theorem go_on_an_empty_deck :
  ∀ legit_date today cfg rnd shuffle ans1 inputs f reported,
    is_quit ans1 = false →
    _open legit_date today f = Ok ([], reported) →
    go legit_date today cfg rnd shuffle (ans1 :: inputs) f
    = Ok (_save [], Some (Summary [] None []))
    ∧ _save [] = Rows [fields] None.
Proof.
  intros legit_date today cfg rnd shuffle ans1 inputs f reported Hq Hopen.
  split; [|reflexivity].
  unfold go. rewrite Hq, Hopen. destruct shuffle; reflexivity.
Qed.

Lemma go_on_an_empty_deck_witness :
  go any_date "11/04/26" ten (λ _, 0%N) true ["go"; "y"]
    (Rows [fields; ["word"; "a card that is taken for the header"]] None)
  = Ok (_save [], Some (Summary [] None [])).
Proof.
  apply (go_on_an_empty_deck any_date "11/04/26" ten (λ _, 0%N) true
           "go" ["y"]
           (Rows [fields; ["word"; "a card that is taken for the header"]]
              None) None); reflexivity.
Defined.

(** ** The order of the cards *)

Lemma insert_by_drawn (rnd : nat → N) (x : nat) (l : list nat) :
  StronglySorted (drawn_before rnd) l →
  (∀ y, y ∈ l → (x < y)%nat) →
  StronglySorted (drawn_before rnd) (insert_by rnd x l).
Proof.
  induction l as [|y l IH]; intros Hl Hx; simpl.
  - repeat constructor.
  - apply StronglySorted_cons in Hl as [Hy Hl].
    assert (Hxy : (x < y)%nat) by (apply Hx; left).
    destruct (rnd x <=? rnd y)%N eqn:Hle.
    + apply N.leb_le in Hle. apply StronglySorted_cons. split.
      * constructor.
        { unfold drawn_before. lia. }
        rewrite Forall_forall in Hy |- *. intros z Hz.
        specialize (Hy z Hz). assert ((x < z)%nat) by (apply Hx; right; exact Hz).
        unfold drawn_before in *. lia.
      * apply StronglySorted_cons. split; assumption.
    + apply N.leb_gt in Hle. apply StronglySorted_cons. split.
      * rewrite insert_by_perm. constructor; [|exact Hy].
        unfold drawn_before. lia.
      * apply IH; [exact Hl|]. intros z Hz. apply Hx. right. exact Hz.
Qed.

Lemma sorted_seq_drawn (rnd : nat → N) (n : nat) :
  ∀ i, StronglySorted (drawn_before rnd) (sorted rnd (seq i n)).
Proof.
  induction n as [|n IH]; intros i; unfold sorted in *; simpl.
  - constructor.
  - apply insert_by_drawn; [apply IH|].
    intros y Hy. fold (sorted rnd (seq (S i) n)) in Hy.
    rewrite sorted_perm in Hy. apply elem_of_seq in Hy. lia.
Qed.

Lemma sorted_equal_keys {A} (key : A → N) (l : list A) :
  (∀ a b, key a = key b) → sorted key l = l.
Proof.
  intros Hkey. induction l as [|x l IH]; unfold sorted in *; simpl.
  - reflexivity.
  - rewrite IH. destruct l as [|y l]; [reflexivity|]. simpl.
    rewrite (Hkey x y), N.leb_refl. reflexivity.
Qed.

(** X9.  The order in which [go] shows the cards holds every position
    of the deck once.  Without shuffling it is the order of the file;
    with shuffling the cards come by rising draws, and cards of equal
    draws in the order of the file. *)
Theorem traversal_order :
  ∀ rnd shuffle n,
    traversal rnd shuffle n ≡ₚ seq 0 n
    ∧ traversal rnd false n = seq 0 n
    ∧ StronglySorted (drawn_before rnd) (traversal rnd true n)
    ∧ ((∀ a b, rnd a = rnd b) → traversal rnd shuffle n = seq 0 n).
Proof.
  intros rnd shuffle n. split; [apply traversal_perm|].
  split; [reflexivity|]. split; [apply sorted_seq_drawn|].
  intros Hkey. unfold traversal. destruct shuffle; [|reflexivity].
  apply sorted_equal_keys, Hkey.
Qed.

Lemma traversal_order_witness :
  traversal (λ _, 7%N) true 4 = [0; 1; 2; 3]%nat.
Proof.
  apply (proj2 (proj2 (proj2 (traversal_order (λ _, 7%N) true 4)))).
  reflexivity.
Defined.

Example traversal_by_draws :
  traversal (λ i, nth i [5; 1; 5; 0]%N 0%N) true 4 = [3; 1; 0; 2]%nat.
Proof. reflexivity. Qed.

(** ** The summary of a completed pass *)

Lemma show_marks_and_misses cfg k s inputs s' rest (seen : list nat) :
  k ∉ seen →
  marks_and_misses seen s →
  show cfg k s inputs = Ok (Some (s', rest)) →
  marks_and_misses (seen ++ [k]) s'.
Proof.
  intros Hk [Hmarks Hmisses] Hshow.
  pose proof (show_frame _ _ _ _ _ _ Hshow) as (Hlt & _ & Hother & _).
  apply show_Some in Hshow
    as (c & v & ans0 & again & ans & Hc & Hv & _
        & [(_ & Hcs & Hu & Hm) | (_ & t & Ht & Hcs & Hu & Hm)]).
  - simpl in Hcs, Hm. split.
    + intros u Hin. rewrite Hu in Hin. apply elem_of_app. left. auto.
    + intros m Hin. rewrite Hm in Hin. apply elem_of_app in Hin as [Hin|Hin].
      * destruct (Hmisses m Hin) as (k' & c' & Hk' & Hnot & Hc' & Hw).
        exists k', c'. rewrite Hu.
        split; [apply elem_of_app; left; exact Hk'|].
        split; [exact Hnot|]. split; [|exact Hw].
        rewrite Hother; [exact Hc' | intros ->; contradiction].
      * apply list_elem_of_singleton in Hin as ->.
        eexists k, _. rewrite Hu.
        split; [apply elem_of_app; right; left|].
        split; [intros Hin; apply Hk, Hmarks, Hin|].
        split; [rewrite Hcs; apply list_lookup_insert_eq, Hlt | reflexivity].
  - split.
    + intros u Hin. rewrite Hu in Hin.
      destruct (maxtally cfg <=? t + 1).
      * apply elem_of_app in Hin as [Hin|Hin]; apply elem_of_app;
          [left; auto | right; exact Hin].
      * apply elem_of_app. left. auto.
    + intros m Hin. rewrite Hm in Hin.
      destruct (Hmisses m Hin) as (k' & c' & Hk' & Hnot & Hc' & Hw).
      assert (Hne : k' ≠ k) by (intros ->; contradiction).
      exists k', c'.
      split; [apply elem_of_app; left; exact Hk'|].
      split.
      * rewrite Hu. destruct (maxtally cfg <=? t + 1); [|exact Hnot].
        intros Hin'. apply elem_of_app in Hin' as [Hin'|Hin'];
          [contradiction|].
        apply list_elem_of_singleton in Hin'. contradiction.
      * split; [|exact Hw]. rewrite Hother; [exact Hc' | exact Hne].
Qed.

Lemma pass_marks_and_misses cfg (l : list nat) :
  ∀ seen s inputs s' rest,
    NoDup (seen ++ l) →
    marks_and_misses seen s →
    pass cfg l s inputs = Ok (Some (s', rest)) →
    marks_and_misses (seen ++ l) s'.
Proof.
  induction l as [|k l IH]; intros seen s inputs s' rest Hnd Hinv H;
    simpl in H.
  - injection H as <- <-. rewrite app_nil_r. exact Hinv.
  - apply bind_Ok in H as (r & Hshow & H).
    destruct r as [[s1 inputs1]|]; [|discriminate].
    assert (Hk : k ∉ seen).
    { apply NoDup_app in Hnd as (_ & Hdisj & _).
      intros Hin. apply (Hdisj k Hin). left. }
    change (k :: l) with ([k] ++ l) in Hnd |- *. rewrite app_assoc in Hnd |- *.
    eapply IH; [exact Hnd | | exact H].
    eapply show_marks_and_misses; [exact Hk | exact Hinv | exact Hshow].
Qed.

Lemma elem_of_unmarked (d : list nat) (l : list card) :
  ∀ i k c, l !! k = Some c → (i + k)%nat ∉ d → c ∈ unmarked d i l.
Proof.
  induction l as [|x l IH]; intros i k c Hk Hnot; [discriminate|].
  simpl. destruct k as [|k]; simpl in Hk.
  - injection Hk as ->. rewrite Nat.add_0_r in Hnot.
    rewrite bool_decide_eq_false_2 by exact Hnot. left.
  - assert (Hin : c ∈ unmarked d (S i) l).
    { apply (IH (S i) k c Hk). replace (S i + k)%nat with (i + S k)%nat by lia.
      exact Hnot. }
    destruct (bool_decide _); [exact Hin | right; exact Hin].
Qed.

(** The position found for a word that some card of the list has. *)
Lemma position_found (w : string) (l : list card) :
  ∀ i, (∃ c, c ∈ l ∧ c_word c = w) →
       ∃ j c, position w i l = (i + j)%nat ∧ l !! j = Some c ∧ c_word c = w.
Proof.
  induction l as [|x l IH]; intros i (c & Hc & Hw).
  - inversion Hc.
  - simpl. destruct (String.eqb (c_word x) w) eqn:Hx.
    + apply String.eqb_eq in Hx. exists 0%nat, x.
      rewrite Nat.add_0_r. auto.
    + apply elem_of_cons in Hc as [-> | Hc].
      { apply String.eqb_neq in Hx. contradiction. }
      destruct l as [|y l]; [inversion Hc|].
      destruct (IH (S i)) as (j & c' & Hpos & Hj & Hw').
      { exists c. auto. }
      exists (S j), c'. rewrite Hpos. split; [lia | auto].
Qed.

(** X10.  In the summary of a completed pass, there is one entry per
    missed card, and the position printed with a missed word is a
    position, in the deck as it is after the removals, of a card with
    that word. *)
Theorem summary_places_missed_words :
  ∀ legit_date today cfg rnd shuffle ans1 inputs f cards0 reported s rest,
    is_quit ans1 = false →
    _open legit_date today f = Ok (cards0, reported) →
    pass cfg (traversal rnd shuffle (length cards0)) (start cfg cards0) inputs
    = Ok (Some (s, rest)) →
    ∃ f' report,
      go legit_date today cfg rnd shuffle (ans1 :: inputs) f
      = Ok (f', Some report)
      ∧ (missed_words report).*2 = c_word <$> s_missed s
      ∧ ∀ i w, (i, w) ∈ missed_words report →
          ∃ c, unmarked (s_unwanted s) 0 (s_cards s) !! i = Some c
               ∧ c_word c = w.
Proof.
  intros legit_date today cfg rnd shuffle ans1 inputs f cards0 reported s rest
    Hq Hopen Hpass.
  destruct (go_completed legit_date today cfg rnd shuffle ans1 inputs f
              cards0 reported s rest Hq Hopen Hpass)
    as (_ & _ & words & _ & Hgo).
  eexists _, _. split; [exact Hgo|]. simpl. split.
  - rewrite <- list_fmap_compose. reflexivity.
  - intros i w Hin. apply list_elem_of_fmap in Hin as (m & [= -> ->] & Hm).
    assert (Hinv : marks_and_misses
                     ([] ++ traversal rnd shuffle (length cards0)) s).
    { eapply pass_marks_and_misses; [|  | exact Hpass].
      - apply traversal_NoDup.
      - split; intros x Hx; inversion Hx. }
    destruct Hinv as [_ Hmisses].
    destruct (Hmisses m Hm) as (k & c & _ & Hnot & Hc & Hw).
    destruct (position_found (c_word m) (unmarked (s_unwanted s) 0 (s_cards s))
                0) as (j & c' & -> & Hj & Hw').
    { exists c. split; [|exact Hw]. eapply elem_of_unmarked; eauto. }
    exists c'. auto.
Qed.

Lemma summary_places_missed_words_witness :
  ∃ f' report,
    go any_date "11/04/26" (Settings 1 1 (AbortText "False")) (λ _, 0%N) false
       [""; ""; "y"; ""; "n"]
       (Rows [fields; ["cat"; "d"; "01/02/24"; "3"; "8"];
              ["dog"; "e"; "01/03/24"; "0"; "0"]] None)
    = Ok (f', Some report)
    ∧ missed_words report = [(0%nat, "dog")].
Proof.
  edestruct (summary_places_missed_words any_date "11/04/26"
               (Settings 1 1 (AbortText "False")) (λ _, 0%N) false
               "" [""; "y"; ""; "n"]
               (Rows [fields; ["cat"; "d"; "01/02/24"; "3"; "8"];
                      ["dog"; "e"; "01/03/24"; "0"; "0"]] None))
    as (f' & report & Hgo & _).
  - reflexivity.
  - vm_compute; reflexivity.
  - vm_compute; reflexivity.
  - exists f', report. split; [exact Hgo|].
    vm_compute in Hgo. injection Hgo as _ <-. reflexivity.
Defined.

Lemma remove_all_words (d : list nat) :
  ∀ (l l' : list card) bound cs ws,
    StronglySorted (λ a b, (b < a)%nat) d →
    (∀ x, x ∈ d → (x < bound)%nat) →
    (∀ k, (k < bound)%nat → l' !! k = l !! k) →
    remove_all d l' = Ok (cs, ws) →
    Forall2 (λ k w, c_word <$> l !! k = Some w) d ws.
Proof.
  induction d as [|e d IH]; intros l l' bound cs ws Hs Hlt Hagree H;
    simpl in H.
  - injection H as _ <-. constructor.
  - apply bind_Ok in H as (c & Hc & H). apply item_Ok in Hc.
    apply bind_Ok in H as ([cs' ws'] & Hrest & H). injection H as _ <-.
    apply StronglySorted_cons in Hs as [He Hs]. rewrite Forall_forall in He.
    assert (Heb : (e < bound)%nat) by (apply Hlt; left).
    constructor.
    + rewrite <- (Hagree e Heb), Hc. reflexivity.
    + apply (IH l (delete e l') e cs' ws' Hs He); [|exact Hrest].
      intros k Hk. rewrite list_lookup_delete_lt by exact Hk. apply Hagree. lia.
Qed.

(** X11.  The words listed as removed in the summary of a completed
    pass are the words of the cards at the marked positions, from the
    highest position down. *)
Theorem summary_names_removed_cards :
  ∀ legit_date today cfg rnd shuffle ans1 inputs f cards0 reported s rest,
    is_quit ans1 = false →
    _open legit_date today f = Ok (cards0, reported) →
    pass cfg (traversal rnd shuffle (length cards0)) (start cfg cards0) inputs
    = Ok (Some (s, rest)) →
    let marks := reverse (sorted N.of_nat (s_unwanted s)) in
    ∃ f' report,
      go legit_date today cfg rnd shuffle (ans1 :: inputs) f
      = Ok (f', Some report)
      ∧ marks ≡ₚ s_unwanted s
      ∧ StronglySorted (λ a b, (b < a)%nat) marks
      ∧ Forall2 (λ k w, c_word <$> s_cards s !! k = Some w) marks
          (removed report).
Proof.
  intros legit_date today cfg rnd shuffle ans1 inputs f cards0 reported s rest
    Hq Hopen Hpass marks.
  destruct (go_completed legit_date today cfg rnd shuffle ans1 inputs f
              cards0 reported s rest Hq Hopen Hpass)
    as (_ & _ & words & _ & Hgo).
  destruct (pass_of_go _ _ _ _ _ _ _ Hpass) as (_ & Hnd & Hlt & _).
  pose proof (falling_marks (s_unwanted s) Hnd) as Hfall. fold marks in Hfall.
  eexists _, _. split; [exact Hgo|].
  split; [unfold marks; rewrite reverse_Permutation; apply sorted_perm|].
  split; [exact Hfall|]. simpl.
  revert Hgo. unfold go. rewrite Hq, Hopen. simpl. rewrite Hpass. simpl.
  unfold end_of_pass. fold marks.
  destruct (remove_all marks (s_cards s)) as [[cs ws]|e] eqn:Hrem; simpl;
    [|discriminate].
  intros Hgo.
  assert (ws = words) as <-.
  { destruct (s_missed s); simpl in Hgo.
    - destruct (s_abort s); simpl in Hgo; congruence.
    - destruct (percent _ _); simpl in Hgo; [|discriminate].
      destruct (s_abort s); simpl in Hgo; congruence. }
  apply (remove_all_words marks (s_cards s) (s_cards s)
           (length (s_cards s)) cs ws Hfall); [|reflexivity|exact Hrem].
  intros x Hx. apply Hlt. unfold marks in Hx.
  rewrite elem_of_reverse, sorted_perm in Hx. exact Hx.
Qed.

Lemma summary_names_removed_cards_witness :
  ∃ f' report,
    go any_date "11/04/26" (Settings 1 1 (AbortText "False")) (λ _, 0%N) false
       [""; ""; "y"; ""; "n"; ""; ""]
       (Rows [fields; ["cat"; "d"; "01/02/24"; "3"; "8"];
              ["dog"; "e"; "01/03/24"; "0"; "0"];
              ["owl"; "o"; "01/03/24"; "0"; "0"]] None)
    = Ok (f', Some report)
    ∧ removed report = ["owl"; "cat"].
Proof.
  edestruct (summary_names_removed_cards any_date "11/04/26"
               (Settings 1 1 (AbortText "False")) (λ _, 0%N) false
               "" [""; "y"; ""; "n"; ""; ""]
               (Rows [fields; ["cat"; "d"; "01/02/24"; "3"; "8"];
                      ["dog"; "e"; "01/03/24"; "0"; "0"];
                      ["owl"; "o"; "01/03/24"; "0"; "0"]] None))
    as (f' & report & Hgo & _).
  - reflexivity.
  - vm_compute; reflexivity.
  - vm_compute; reflexivity.
  - exists f', report. split; [exact Hgo|].
    vm_compute in Hgo. injection Hgo as _ <-. reflexivity.
Defined.

(** ** add, on any deck *)

Lemma replace_delimiter_free (s : string) :
  delimiter_free (Py.replace delimiter substitute s) = true.
Proof.
  unfold delimiter_free.
  induction s as [|a s IH]; simpl; [reflexivity|].
  rewrite IH, andb_true_r.
  destruct (Ascii.eqb a delimiter) eqn:Ha; [reflexivity|].
  rewrite Ha. reflexivity.
Qed.

Lemma length_delete_le {A} (l : list A) (i : nat) :
  (length l ≤ length (base.delete i l) + 1)%nat.
Proof.
  revert i. induction l as [|x l IH]; intros i; simpl; [lia|].
  destruct i as [|i]; simpl; [lia|]. specialize (IH i). lia.
Qed.

Lemma replace_match_Some word definition (_cards : list card) :
  ∀ todo i r,
    replace_match word definition i todo _cards = Some r →
    ∃ j x, r = base.delete j _cards
                 ++ [Card word definition (c_date x) (c_viewed x) (c_tally x) []].
Proof.
  induction todo as [|y todo IH]; intros i r H; simpl in H; [discriminate|].
  destruct (String.eqb _ _).
  - injection H as <-. eauto.
  - eapply IH. exact H.
Qed.

(** X12.  Whatever the deck and the text, the file [add] writes ends
    with a card that holds the new word and definition without any
    delimiter character; before it come the cards of the old deck in
    their order, all of them or all but one. *)
Theorem add_writes_the_new_card_last :
  ∀ legit_date today word definition f cards0 reported,
    Py.nonempty word = true →
    Py.nonempty definition = true →
    _open legit_date today f = Ok (cards0, reported) →
    ∃ others c,
      add legit_date today word definition f = Ok (_save (others ++ [c]))
      ∧ c_word c = Py.replace delimiter substitute word
      ∧ c_definition c = Py.replace delimiter substitute definition
      ∧ delimiter_free (c_word c) = true
      ∧ delimiter_free (c_definition c) = true
      ∧ others `sublist_of` cards0
      ∧ (length cards0 ≤ length others + 1)%nat.
Proof.
  intros legit_date today word definition f cards0 reported Hw Hd Hopen.
  unfold add. rewrite Hw, Hd, Hopen. simpl. unfold upsert.
  destruct (replace_match _ _ 0 cards0 cards0) as [r|] eqn:Hr.
  - apply replace_match_Some in Hr as (j & x & ->).
    eexists _, _. split; [reflexivity|]. simpl.
    split; [reflexivity|]. split; [reflexivity|].
    split; [apply replace_delimiter_free|].
    split; [apply replace_delimiter_free|].
    split; [apply sublist_delete | apply length_delete_le].
  - eexists _, _. split; [reflexivity|]. simpl.
    split; [reflexivity|]. split; [reflexivity|].
    split; [apply replace_delimiter_free|].
    split; [apply replace_delimiter_free|].
    split; [reflexivity | lia].
Qed.

Lemma add_writes_the_new_card_last_witness :
  ∃ others c,
    add any_date "11/04/26" "a|b" "c||d" Unreadable
    = Ok (_save (others ++ [c]))
    ∧ c_word c = "a;b" ∧ c_definition c = "c;;d".
Proof.
  destruct (add_writes_the_new_card_last any_date "11/04/26" "a|b" "c||d"
              Unreadable [] (Some OSError))
    as (others & c & Hadd & Hw & Hd & _); [reflexivity ..|].
  exists others, c. auto.
Defined.

(** X13.  When no card of the deck has the normalized word of the new
    word, [add] writes the deck with one more card at its end: the new
    word and definition, today's date, no view and tally 0. *)
Theorem add_appends_a_new_word :
  ∀ legit_date today word definition f cards0 reported,
    Py.nonempty word = true →
    Py.nonempty definition = true →
    _open legit_date today f = Ok (cards0, reported) →
    (∀ y, y ∈ cards0 →
          normalized (c_word y)
          ≠ normalized (Py.replace delimiter substitute word)) →
    add legit_date today word definition f
    = Ok (_save (cards0
                 ++ [Card (Py.replace delimiter substitute word)
                       (Py.replace delimiter substitute definition)
                       today (Py.Int 0) (Py.Int 0) []])).
Proof.
  intros legit_date today word definition f cards0 reported Hw Hd Hopen Hno.
  unfold add. rewrite Hw, Hd, Hopen. simpl. unfold upsert.
  rewrite replace_match_none; [reflexivity|].
  apply Forall_forall. intros y Hy. apply String.eqb_neq, Hno, Hy.
Qed.

Lemma add_appends_a_new_word_witness :
  add any_date "11/04/26" "owl" "o"
    (Rows [fields; ["cat"; "d"; "01/02/24"; "3"; "8"]] None)
  = Ok (Rows [fields; ["cat"; "d"; "01/02/24"; "3"; "8"];
              ["owl"; "o"; "11/04/26"; "0"; "0"]] None).
Proof.
  apply (add_appends_a_new_word any_date "11/04/26" "owl" "o"
           (Rows [fields; ["cat"; "d"; "01/02/24"; "3"; "8"]] None)
           [Card "cat" "d" "01/02/24" (Py.Str "3") (Py.Str "8") []] None);
    try reflexivity.
  intros y Hy. apply list_elem_of_singleton in Hy as ->.
  vm_compute. discriminate.
Defined.

(** ** delete *)

Example int_of_float_of_int_table :
  int_of_float_of_int <$> [-3; 2 ^ 53 + 1; 2 ^ 53 + 3; - (2 ^ 54 + 2);
                           2 ^ 1024 - 2 ^ 970 - 1; 2 ^ 1024 - 2 ^ 970]
  = [Some (-3); Some (2 ^ 53); Some (2 ^ 53 + 4); Some (- 2 ^ 54);
     Some (2 ^ 1024 - 2 ^ 971); None].
Proof. vm_compute. reflexivity. Qed.

Lemma int_of_float_of_small_int (n : Z) :
  Z.abs n < 2 ^ 53 → int_of_float_of_int n = Some n.
Proof.
  intros Hn. unfold int_of_float_of_int.
  apply Z.ltb_lt in Hn. rewrite Hn. reflexivity.
Qed.

(** X14.  [delete] leaves the card file as it is when the number, taken
    without its sign, is not a position of the deck (no line is read
    then), and when the line typed at its question is "n" or "no" in
    upper or lower case. *)
Theorem delete_keeps_the_file :
  ∀ legit_date today number f cards0 reported,
    _open legit_date today f = Ok (cards0, reported) →
    Z.abs number < 2 ^ 53 →
    (∀ inputs,
       Z.of_nat (length cards0) ≤ Z.abs number →
       Flashcardz.delete legit_date today number inputs f
       = DeleteReturned f (NoSuchCard (Z.abs number)))
    ∧ (∀ confirm inputs,
         Z.abs number < Z.of_nat (length cards0) →
         Py.lower confirm = "n" ∨ Py.lower confirm = "no" →
         Flashcardz.delete legit_date today number (confirm :: inputs) f
         = DeleteReturned f (NotDeleted (Z.abs number))).
Proof.
  intros legit_date today number f cards0 reported Hopen Hsmall.
  unfold Flashcardz.delete.
  rewrite Hopen, (int_of_float_of_small_int number Hsmall). split.
  - intros inputs Hout. apply Z.ltb_ge in Hout. rewrite Hout. reflexivity.
  - intros confirm inputs Hin Hno. pose proof Hin as Hlt.
    apply Z.ltb_lt in Hin. rewrite Hin.
    destruct (lookup_lt_is_Some_2 cards0 (Z.to_nat (Z.abs number))) as [c Hc];
      [lia|].
    unfold item. rewrite Hc.
    destruct Hno as [-> | ->]; reflexivity.
Qed.

Lemma delete_keeps_the_file_witness :
  let f := Rows [fields; ["cat"; "d"; "01/02/24"; "3"; "8"];
                 ["dog"; "e"; "01/03/24"; "0"; "0"]] None in
  Flashcardz.delete any_date "11/04/26" (-2) [] f
  = DeleteReturned f (NoSuchCard 2)
  ∧ Flashcardz.delete any_date "11/04/26" 1 ["No"] f
    = DeleteReturned f (NotDeleted 1).
Proof.
  intros f. split.
  - apply (proj1 (delete_keeps_the_file any_date "11/04/26" (-2) f
                    [Card "cat" "d" "01/02/24" (Py.Str "3") (Py.Str "8") [];
                     Card "dog" "e" "01/03/24" (Py.Str "0") (Py.Str "0") []]
                    None eq_refl eq_refl)).
    simpl. lia.
  - apply (proj2 (delete_keeps_the_file any_date "11/04/26" 1 f
                    [Card "cat" "d" "01/02/24" (Py.Str "3") (Py.Str "8") [];
                     Card "dog" "e" "01/03/24" (Py.Str "0") (Py.Str "0") []]
                    None eq_refl eq_refl)).
    + simpl. lia.
    + right. reflexivity.
Defined.

Lemma Forall_delete {A} (P : A → Prop) (l : list A) (i : nat) :
  Forall P l → Forall P (base.delete i l).
Proof.
  intros H. rewrite Forall_forall in H |- *. intros x Hx. apply H.
  eapply elem_of_sublist; [exact Hx | apply sublist_delete].
Qed.

(** X15.  When the number, below 2^53 and taken without its sign, is a
    position of the deck and the line typed is neither "n" nor "no",
    [delete] writes the deck without the card at that position, the
    other cards in their order; provided the date format accepts the
    date of the [delete], the next load returns exactly that deck.  The
    sign of the number plays no part. *)
Theorem delete_removes_one_card :
  ∀ legit_date today today2 number confirm inputs f cards0 reported,
    _open legit_date today f = Ok (cards0, reported) →
    legit_date today = true →
    Z.abs number < Z.of_nat (length cards0) →
    Z.abs number < 2 ^ 53 →
    Py.lower confirm ≠ "n" →
    Py.lower confirm ≠ "no" →
    let k := Z.to_nat (Z.abs number) in
    let left := base.delete k cards0 in
    ∃ c,
      cards0 !! k = Some c
      ∧ Flashcardz.delete legit_date today number (confirm :: inputs) f
        = DeleteReturned (_save left) (CardDeleted (Z.abs number) (c_word c))
      ∧ Flashcardz.delete legit_date today (- number) (confirm :: inputs) f
        = Flashcardz.delete legit_date today number (confirm :: inputs) f
      ∧ left = take k cards0 ++ drop (S k) cards0
      ∧ (length left + 1 = length cards0)%nat
      ∧ _open legit_date today2 (_save left) = Ok (left, None).
Proof.
  intros legit_date today today2 number confirm inputs f cards0 reported
    Hopen Htoday Hin Hsmall Hn Hno k left.
  destruct (lookup_lt_is_Some_2 cards0 k) as [c Hc]; [unfold k; lia|].
  assert (Hdel : ∀ n, Z.abs n = Z.abs number →
            Flashcardz.delete legit_date today n (confirm :: inputs) f
            = DeleteReturned (_save left)
                (CardDeleted (Z.abs number) (c_word c))).
  { intros n Habs. unfold Flashcardz.delete.
    rewrite Hopen, (int_of_float_of_small_int n) by lia. rewrite Habs.
    apply Z.ltb_lt in Hin. rewrite Hin. fold k. unfold item. rewrite Hc.
    apply String.eqb_neq in Hn, Hno. rewrite Hn, Hno. reflexivity. }
  exists c. split; [exact Hc|]. split; [apply Hdel; reflexivity|].
  split; [rewrite !Hdel; [reflexivity | reflexivity | apply Z.abs_opp]|].
  split; [apply delete_take_drop|]. split.
  - unfold left. rewrite length_delete by eauto.
    apply lookup_lt_Some in Hc. lia.
  - apply (_open_save_loaded legit_date today today2 left Htoday).
    apply Forall_delete. eapply _open_loaded. exact Hopen.
Qed.

Lemma delete_removes_one_card_witness :
  Flashcardz.delete any_date "11/04/26" (-1) ["y"]
    (Rows [fields; ["cat"; "d"; "01/02/24"; "3"; "8"];
           ["dog"; "e"; "01/03/24"; "0"; "0"];
           ["owl"; "o"; "01/03/24"; "0"; "0"]] None)
  = DeleteReturned
      (Rows [fields; ["cat"; "d"; "01/02/24"; "3"; "8"];
             ["owl"; "o"; "01/03/24"; "0"; "0"]] None)
      (CardDeleted 1 "dog").
Proof.
  destruct (delete_removes_one_card any_date "11/04/26" "11/05/26" (-1) "y" []
              (Rows [fields; ["cat"; "d"; "01/02/24"; "3"; "8"];
                     ["dog"; "e"; "01/03/24"; "0"; "0"];
                     ["owl"; "o"; "01/03/24"; "0"; "0"]] None)
              [Card "cat" "d" "01/02/24" (Py.Str "3") (Py.Str "8") [];
               Card "dog" "e" "01/03/24" (Py.Str "0") (Py.Str "0") [];
               Card "owl" "o" "01/03/24" (Py.Str "0") (Py.Str "0") []] None)
    as (c & Hc & Hdel & _);
    [reflexivity | reflexivity | reflexivity | reflexivity
     | discriminate | discriminate |].
  rewrite Hdel. injection Hc as <-. reflexivity.
Defined.

(** ** Links *)

Lemma lacks_cons c a s :
  lacks c (String a s) = true ↔ Ascii.eqb a c = false ∧ lacks c s = true.
Proof.
  unfold lacks. simpl. rewrite andb_true_iff, negb_true_iff. reflexivity.
Qed.

Lemma until_close_found close (m post : string) :
  lacks close m = true → lacks newline m = true →
  until_close close (m +:+ String close post)
  = Some (m +:+ String close "", post).
Proof.
  induction m as [|a m IH]; intros Hc Hn; simpl.
  - rewrite Ascii.eqb_refl. reflexivity.
  - apply lacks_cons in Hc as [Hac Hc]. apply lacks_cons in Hn as [Han Hn].
    rewrite Hac, Han, (IH Hc Hn). reflexivity.
Qed.

Lemma lazy_to_found close (m post : string) :
  Py.nonempty m = true → lacks close m = true → lacks newline m = true →
  lazy_to close (m +:+ String close post)
  = Some (m +:+ String close "", post).
Proof.
  destruct m as [|a m]; [discriminate|]. intros _ Hc Hn. simpl.
  apply lacks_cons in Hc as [Hac Hc]. apply lacks_cons in Hn as [Han Hn].
  rewrite Han, (until_close_found close m post Hc Hn). reflexivity.
Qed.

Lemma link_tail_found (ws url post : string) :
  blank ws = true → Py.nonempty url = true →
  lacks ")" url = true → lacks newline url = true →
  link_tail (ws +:+ String "(" (url +:+ String ")" post))
  = Some (ws +:+ String "(" (url +:+ String ")" ""), post).
Proof.
  intros Hws Hu Hc Hn. induction ws as [|a ws IH]; simpl.
  - rewrite (lazy_to_found ")" url post Hu Hc Hn). reflexivity.
  - unfold blank in Hws. simpl in Hws. apply andb_true_iff in Hws as [Ha Hws].
    rewrite Ha, (IH Hws). reflexivity.
Qed.

Lemma label_rest_found (m tail g2 post : string) :
  link_tail tail = Some (g2, post) →
  lacks "]" m = true → lacks newline m = true →
  label_rest (m +:+ String "]" tail) = Some (m +:+ String "]" "", g2, post).
Proof.
  intros Htail. induction m as [|a m IH]; intros Hc Hn; simpl.
  - rewrite Htail. reflexivity.
  - apply lacks_cons in Hc as [Hac Hc]. apply lacks_cons in Hn as [Han Hn].
    rewrite Hac, Han, (IH Hc Hn). reflexivity.
Qed.

(** The pattern matches a link where it starts. *)
Lemma link_at_found (label ws url post : string) :
  Py.nonempty label = true →
  lacks "]" label = true → lacks newline label = true →
  blank ws = true → Py.nonempty url = true →
  lacks ")" url = true → lacks newline url = true →
  link_at (link_text label ws url post)
  = Some (String "[" (label +:+ String "]" ""),
          ws +:+ String "(" (url +:+ String ")" ""), post).
Proof.
  intros Hl Hlc Hln Hws Hu Huc Hun. unfold link_text.
  destruct label as [|b label]; [discriminate|]. simpl.
  apply lacks_cons in Hlc as [_ Hlc]. apply lacks_cons in Hln as [Hbn Hln].
  rewrite Hbn. simpl.
  rewrite (label_rest_found label _ _ post
             (link_tail_found ws url post Hws Hu Huc Hun) Hlc Hln).
  reflexivity.
Qed.

Lemma findall_links_skip (m s : string) :
  findall_links (String.length m) (m +:+ s) = findall_links 0 s.
Proof. induction m as [|a m IH]; simpl; [reflexivity | exact IH]. Qed.

Lemma link_at_other (a : ascii) (s : string) :
  Ascii.eqb a "[" = false → link_at (String a s) = None.
Proof. intros Ha. unfold link_at. destruct s; [reflexivity|]. rewrite Ha. reflexivity. Qed.

Lemma findall_links_before (pre s : string) :
  lacks "[" pre = true →
  findall_links 0 (pre +:+ s) = findall_links 0 s.
Proof.
  induction pre as [|a pre IH]; intros Hpre; simpl; [reflexivity|].
  apply lacks_cons in Hpre as [Ha Hpre].
  change (match link_at (String a (pre +:+ s)) with
          | Some (g1, g2, _) =>
              (g1, g2) :: findall_links
                            (String.length g1 + String.length g2 - 1) (pre +:+ s)
          | None => findall_links 0 (pre +:+ s)
          end = findall_links 0 s).
  rewrite (link_at_other a _ Ha). apply IH, Hpre.
Qed.

Lemma length_append (a b : string) :
  String.length (a +:+ b) = (String.length a + String.length b)%nat.
Proof. induction a as [|x a IH]; simpl; [reflexivity | rewrite IH; reflexivity]. Qed.

Lemma append_assoc (a b c : string) : (a +:+ b) +:+ c = a +:+ (b +:+ c).
Proof.
  induction a as [|x a IH]; [reflexivity|].
  change (String x ((a +:+ b) +:+ c) = String x (a +:+ (b +:+ c))).
  rewrite IH. reflexivity.
Qed.

Lemma append_cons_assoc (m r s : string) (c : ascii) :
  (m +:+ String c r) +:+ s = m +:+ String c (r +:+ s).
Proof. rewrite append_assoc. reflexivity. Qed.

(** The matches of a text that starts with a link. *)
Lemma findall_links_found (label ws url post : string) :
  Py.nonempty label = true →
  lacks "]" label = true → lacks newline label = true →
  blank ws = true → Py.nonempty url = true →
  lacks ")" url = true → lacks newline url = true →
  findall_links 0 (link_text label ws url post)
  = (String "[" (label +:+ String "]" ""),
     ws +:+ String "(" (url +:+ String ")" ""))
    :: findall_links 0 post.
Proof.
  intros Hl Hlc Hln Hws Hu Huc Hun.
  pose proof (link_at_found label ws url post Hl Hlc Hln Hws Hu Huc Hun) as Hat.
  unfold link_text in *.
  cbn [findall_links]. rewrite Hat. f_equal.
  rewrite <- (findall_links_skip
                (label +:+ String "]" (ws +:+ String "(" (url +:+ String ")" "")))
                post).
  assert (Happ : ∀ (m r : string) c,
            (m +:+ String c r) +:+ post = m +:+ String c (r +:+ post)).
  { intros m r c. rewrite append_assoc. reflexivity. }
  rewrite !Happ. f_equal.
  repeat (rewrite ?length_append; cbn [String.length]). lia.
Qed.

Lemma substring_all (m rest : string) :
  String.substring 0 (String.length m) (m +:+ rest) = m.
Proof.
  induction m as [|a m IH]; simpl.
  - destruct rest; reflexivity.
  - rewrite IH. reflexivity.
Qed.

Lemma inner_found (a b : ascii) (m : string) :
  inner (String a (m +:+ String b "")) = m.
Proof.
  unfold inner. cbn [String.length]. rewrite length_append.
  cbn [String.length].
  replace (S (String.length m + 1) - 2)%nat with (String.length m) by lia.
  apply substring_all.
Qed.

(** X16.  In a text whose first "[" opens a link, written as a label
    without "]" in brackets, white space or none, and a URL without ")"
    in parentheses, that link is the first match of the pattern and the
    matches of the text behind it follow.  [_url_at(text, 1)] is the
    URL when the parenthesis follows the bracket at once; when white
    space stands between them it is that white space without its first
    character, then "(" and the URL. *)
Theorem url_of_the_first_link :
  ∀ pre label ws url post,
    lacks "[" pre = true →
    Py.nonempty label = true →
    lacks "]" label = true → lacks newline label = true →
    blank ws = true →
    Py.nonempty url = true →
    lacks ")" url = true → lacks newline url = true →
    let text := pre +:+ link_text label ws url post in
    findall_links 0 text
    = (String "[" (label +:+ String "]" ""),
       ws +:+ String "(" (url +:+ String ")" ""))
      :: findall_links 0 post
    ∧ (ws = "" → _url_at text 1 = Some url)
    ∧ (∀ w ws', ws = String w ws' →
         _url_at text 1 = Some (ws' +:+ String "(" url))
    ∧ (∀ i, 1 < i → _url_at text i = _url_at post (i - 1)).
Proof.
  intros pre label ws url post Hpre Hl Hlc Hln Hws Hu Huc Hun text.
  assert (Hall : findall_links 0 text
                 = (String "[" (label +:+ String "]" ""),
                    ws +:+ String "(" (url +:+ String ")" ""))
                   :: findall_links 0 post).
  { unfold text. rewrite (findall_links_before pre _ Hpre).
    apply findall_links_found; assumption. }
  split; [exact Hall|].
  assert (Hfirst : _url_at text 1
                   = Some (inner (ws +:+ String "(" (url +:+ String ")" "")))).
  { unfold _url_at. rewrite Hall.
    assert (((0 <? 1) && (1 <=? Z.of_nat (length
               ((String "[" (label +:+ String "]" ""),
                 ws +:+ String "(" (url +:+ String ")" ""))
                :: findall_links 0 post)))) = true) as ->.
    { apply andb_true_iff. split; [reflexivity|].
      apply Z.leb_le. cbn [length]. lia. }
    reflexivity. }
  split; [|split].
  - intros ->. rewrite Hfirst. f_equal. apply inner_found.
  - intros w ws' ->. rewrite Hfirst. f_equal.
    rewrite <- (inner_found w ")" (ws' +:+ String "(" url)).
    rewrite append_assoc. reflexivity.
  - intros i Hi. unfold _url_at. rewrite Hall. cbn [length].
    replace (Z.to_nat (i - 1)) with (S (Z.to_nat (i - 1 - 1))) by lia.
    cbn [lookup list_lookup].
    destruct (0 <? i) eqn:H1; [|apply Z.ltb_ge in H1; lia].
    destruct (0 <? i - 1) eqn:H2; [|apply Z.ltb_ge in H2; lia].
    simpl.
    destruct (i <=? Z.of_nat (S (length (findall_links 0 post)))) eqn:H3;
      destruct (i - 1 <=? Z.of_nat (length (findall_links 0 post))) eqn:H4;
      try reflexivity.
    + apply Z.leb_le in H3. apply Z.leb_gt in H4. lia.
    + apply Z.leb_gt in H3. apply Z.leb_le in H4. lia.
Qed.

Lemma url_of_the_first_link_witness :
  _url_at "see [the site](https://a.b/c) and [more] (https://d)" 1
  = Some "https://a.b/c"
  ∧ _url_at "see [the site](https://a.b/c) and [more] (https://d)" 2
    = Some "(https://d".
Proof.
  destruct (url_of_the_first_link "see " "the site" "" "https://a.b/c"
              " and [more] (https://d)")
    as (_ & H1 & _ & Hnext); [reflexivity .. |].
  split; [exact (H1 eq_refl)|].
  transitivity (_url_at " and [more] (https://d)" (2 - 1)).
  { apply (Hnext 2). lia. }
  destruct (url_of_the_first_link " and " "more" " " "https://d" "")
    as (_ & _ & H2 & _); [reflexivity .. |].
  exact (H2 " "%char "" eq_refl).
Defined.

Lemma link_tail_none (s : string) :
  lacks "(" s = true → link_tail s = None.
Proof.
  induction s as [|a s IH]; intros Hs; simpl; [reflexivity|].
  apply lacks_cons in Hs as [Ha Hs]. rewrite Ha, (IH Hs).
  destruct (Py.isspace a); reflexivity.
Qed.

Lemma label_rest_none (s : string) :
  lacks "(" s = true → label_rest s = None.
Proof.
  induction s as [|a s IH]; intros Hs; simpl; [reflexivity|].
  apply lacks_cons in Hs as [Ha Hs].
  rewrite (link_tail_none s Hs), (IH Hs).
  destruct (Ascii.eqb a "]"), (Ascii.eqb a newline); reflexivity.
Qed.

Lemma link_at_none (s : string) :
  lacks "[" s = true ∨ lacks "(" s = true → link_at s = None.
Proof.
  intros Hs. unfold link_at. destruct s as [|a [|b s]]; try reflexivity.
  destruct Hs as [Hs | Hs].
  - apply lacks_cons in Hs as [Ha _]. rewrite Ha. reflexivity.
  - apply lacks_cons in Hs as [_ Hs]. apply lacks_cons in Hs as [_ Hs].
    rewrite (label_rest_none s Hs).
    destruct (Ascii.eqb a "[" && negb (Ascii.eqb b newline)); reflexivity.
Qed.

Lemma findall_links_none (s : string) :
  lacks "[" s = true ∨ lacks "(" s = true →
  ∀ skip, findall_links skip s = [].
Proof.
  induction s as [|a s IH]; intros Hs skip; [reflexivity|].
  assert (Hs' : lacks "[" s = true ∨ lacks "(" s = true).
  { destruct Hs as [Hs | Hs]; apply lacks_cons in Hs as [_ Hs]; auto. }
  cbn [findall_links]. destruct skip as [|n]; [|apply IH, Hs'].
  rewrite (link_at_none _ Hs). apply IH, Hs'.
Qed.

(** X17.  A text without "[" or without "(" holds no link:
    [_hide_urls] returns it as it is and [_url_at] finds no URL in it,
    whatever the index. *)
Theorem text_without_links :
  ∀ text,
    lacks "[" text = true ∨ lacks "(" text = true →
    findall_links 0 text = []
    ∧ _hide_urls text = text
    ∧ ∀ i, _url_at text i = None.
Proof.
  intros text Hs. pose proof (findall_links_none text Hs 0) as Hnone.
  split; [exact Hnone|]. split.
  - unfold _hide_urls. rewrite Hnone. reflexivity.
  - intros i. unfold _url_at. rewrite Hnone. cbn [length].
    change (Z.of_nat 0) with 0.
    destruct (0 <? i) eqn:H1; [|reflexivity].
    destruct (i <=? 0) eqn:H2; [|reflexivity].
    apply Z.ltb_lt in H1. apply Z.leb_le in H2. lia.
Qed.

Lemma text_without_links_witness :
  _hide_urls "(moverse deprisa) run vi" = "(moverse deprisa) run vi"
  ∧ _url_at "(moverse deprisa) run vi" 1 = None.
Proof.
  destruct (text_without_links "(moverse deprisa) run vi") as (_ & Hh & Hu).
  - left. reflexivity.
  - split; [exact Hh | apply Hu].
Defined.

Lemma lacks_append c (a b : string) :
  lacks c (a +:+ b) = lacks c a && lacks c b.
Proof.
  induction a as [|x a IH]; [reflexivity|].
  change (lacks c (String x (a +:+ b)) = lacks c (String x a) && lacks c b).
  unfold lacks in *. cbn [Py.all_chars]. rewrite IH, andb_assoc. reflexivity.
Qed.

Lemma without_skip old (m s : string) :
  without old (String.length m) (m +:+ s) = without old 0 s.
Proof. induction m as [|a m IH]; [reflexivity | exact IH]. Qed.

Lemma prefix_append (old s : string) : String.prefix old (old +:+ s) = true.
Proof. apply String.prefix_correct, substring_all. Qed.

Lemma without_cons old (a : ascii) (s : string) :
  without old 0 (String a s)
  = if Py.nonempty old && String.prefix old (String a s)
    then without old (String.length old - 1) s
    else String a (without old 0 s).
Proof. reflexivity. Qed.

Lemma without_lacking o (old' m s : string) :
  lacks o m = true →
  without (String o old') 0 (m +:+ s) = m +:+ without (String o old') 0 s.
Proof.
  induction m as [|a m IH]; intros Hm; [reflexivity|].
  apply lacks_cons in Hm as [Ha Hm].
  change (String a m +:+ s) with (String a (m +:+ s)).
  rewrite without_cons.
  assert (String.prefix (String o old') (String a (m +:+ s)) = false) as ->.
  { simpl. destruct (ascii_dec o a) as [-> | _]; [|reflexivity].
    rewrite Ascii.eqb_refl in Ha. discriminate. }
  rewrite andb_false_r, (IH Hm). reflexivity.
Qed.

Lemma append_empty (x : string) : x +:+ "" = x.
Proof.
  induction x as [|a x IH]; [reflexivity|].
  change (String a (x +:+ "") = String a x). rewrite IH. reflexivity.
Qed.

Lemma without_untouched o (old' s : string) :
  lacks o s = true → without (String o old') 0 s = s.
Proof.
  intros Hs. rewrite <- (append_empty s) at 1.
  rewrite (without_lacking o old' s "" Hs). apply append_empty.
Qed.

Lemma without_found (old s : string) :
  Py.nonempty old = true → without old 0 (old +:+ s) = without old 0 s.
Proof.
  destruct old as [|o old]; [discriminate|]. intros _.
  change (String o old +:+ s) with (String o (old +:+ s)).
  rewrite without_cons.
  change (String o (old +:+ s)) with (String o old +:+ s).
  rewrite prefix_append. cbn [Py.nonempty andb String.length Nat.sub].
  rewrite Nat.sub_0_r. apply without_skip.
Qed.

(** X18.  [_hide_urls] turns a text with one link into the text with
    the label in its brackets and without the URL and its parentheses,
    when no other "(" stands in the text. *)
Theorem hide_urls_keeps_the_label :
  ∀ pre label url post,
    lacks "[" pre = true → lacks "(" pre = true →
    Py.nonempty label = true →
    lacks "]" label = true → lacks newline label = true →
    lacks "(" label = true →
    Py.nonempty url = true →
    lacks ")" url = true → lacks newline url = true →
    lacks "(" post = true →
    _hide_urls (pre +:+ link_text label "" url post)
    = pre +:+ String "[" (label +:+ String "]" post).
Proof.
  intros pre label url post Hpre Hpre' Hl Hlc Hln Hl' Hu Huc Hun Hpost.
  unfold _hide_urls.
  rewrite (findall_links_before pre _ Hpre),
    (findall_links_found label "" url post Hl Hlc Hln eq_refl Hu Huc Hun),
    (findall_links_none post (or_intror Hpost) 0).
  cbn [foldl snd String.append].
  assert (Htext : pre +:+ link_text label "" url post
                  = (pre +:+ String "[" (label +:+ String "]" ""))
                    +:+ (String "(" (url +:+ String ")" "") +:+ post)).
  { unfold link_text. rewrite !append_cons_assoc.
    change ("" +:+ ?x) with x.
    change (String "(" ?y +:+ post) with (String "(" (y +:+ post)).
    rewrite !append_cons_assoc. reflexivity. }
  rewrite Htext. change ("" +:+ ?x) with x. rewrite without_lacking.
  - rewrite without_found by reflexivity.
    rewrite (without_untouched "(" _ post Hpost), !append_cons_assoc.
    reflexivity.
  - rewrite lacks_append, Hpre'. cbn [andb].
    apply lacks_cons. split; [reflexivity|].
    rewrite lacks_append, Hl'. reflexivity.
Qed.

Lemma hide_urls_keeps_the_label_witness :
  _hide_urls "blah [connect to google](https://www.google.com/) blah"
  = "blah [connect to google] blah".
Proof.
  apply (hide_urls_keeps_the_label "blah " "connect to google"
           "https://www.google.com/" " blah"); reflexivity.
Defined.

(** Every occurrence of the URL group goes, not only the link's. *)
Example hide_urls_elsewhere :
  _hide_urls "call [me](x) or (x)" = "call [me] or ".
Proof. reflexivity. Qed.

(** ** Settings *)

Example int_of_text_table :
  int_of_text <$> [" 12 "; "+7"; "-0"; "1_000"; "007"; ""; "_1"; "1_";
                   "1__0"; "- 5"; "ten"; "1.5"]
  = [Some 12; Some 7; Some 0; Some 1000; Some 7; None; None; None;
     None; None; None; None].
Proof. vm_compute. reflexivity. Qed.

Lemma all_chars_lstrip (p q : ascii → bool) (s : string) :
  Py.all_chars p s = true → Py.all_chars p (lstrip q s) = true.
Proof.
  induction s as [|a s IH]; simpl; [reflexivity|].
  intros H. apply andb_true_iff in H as [Ha Hs].
  destruct (q a); [apply IH; exact Hs|].
  simpl. rewrite Ha, Hs. reflexivity.
Qed.

Lemma all_chars_rstrip (p q : ascii → bool) (s : string) :
  Py.all_chars p s = true → Py.all_chars p (rstrip q s) = true.
Proof.
  induction s as [|a s IH]; simpl; [reflexivity|].
  intros H. apply andb_true_iff in H as [Ha Hs].
  specialize (IH Hs).
  destruct (rstrip q s) as [|b r].
  - destruct (q a); [reflexivity|]. simpl. rewrite Ha. reflexivity.
  - simpl in *. rewrite Ha, IH. reflexivity.
Qed.

(** [int] reads no number in white space. *)
Lemma int_of_text_blank (s : string) :
  blank s = true → int_of_text s = None.
Proof.
  intros H. unfold int_of_text, blank in *.
  apply (all_chars_lstrip _ int_space) in H.
  apply (all_chars_rstrip _ int_space) in H.
  destruct (rstrip int_space (lstrip int_space s)) as [|a r];
    [reflexivity|].
  simpl in H. apply andb_true_iff in H as [Ha _].
  each_char a; try discriminate Ha; reflexivity.
Qed.

(** X19.  [_setmaxtally] and [_settallypenalty] store the absolute value
    of the integer typed and report the change; [_setmaxtally] does so
    when that absolute value differs from the setting, and
    [_settallypenalty] when the integer itself does, and otherwise they
    return the settings they were given.  Each leaves its own setting
    not negative and changes no other setting.  A line of white space
    changes nothing, and text that is no integer raises [ValueError]
    with the settings untouched. *)
Theorem setters_keep_settings_sound :
  ∀ typed inputs cfg,
    (∀ n, int_of_text typed = Some n →
       _setmaxtally (typed :: inputs) cfg
       = (if bool_decide (Z.abs n = maxtally cfg) then Ok (cfg, false)
          else Ok (Settings (Z.abs n) (tallypenalty cfg) (abort_default cfg),
                   true))
       ∧ _settallypenalty (typed :: inputs) cfg
         = (if bool_decide (n = tallypenalty cfg) then Ok (cfg, false)
            else Ok (Settings (maxtally cfg) (Z.abs n) (abort_default cfg),
                     true)))
    ∧ (∀ cfg' written,
         0 ≤ maxtally cfg →
         _setmaxtally (typed :: inputs) cfg = Ok (cfg', written) →
         0 ≤ maxtally cfg'
         ∧ tallypenalty cfg' = tallypenalty cfg
         ∧ abort_default cfg' = abort_default cfg
         ∧ (written = false → cfg' = cfg)
         ∧ (written = true →
            ∃ n, int_of_text typed = Some n ∧ maxtally cfg' = Z.abs n))
    ∧ (∀ cfg' written,
         0 ≤ tallypenalty cfg →
         _settallypenalty (typed :: inputs) cfg = Ok (cfg', written) →
         0 ≤ tallypenalty cfg'
         ∧ maxtally cfg' = maxtally cfg
         ∧ abort_default cfg' = abort_default cfg
         ∧ (written = false → cfg' = cfg)
         ∧ (written = true →
            ∃ n, int_of_text typed = Some n ∧ tallypenalty cfg' = Z.abs n))
    ∧ (blank typed = true →
       _setmaxtally (typed :: inputs) cfg = Ok (cfg, false)
       ∧ _settallypenalty (typed :: inputs) cfg = Ok (cfg, false))
    ∧ (blank typed = false → int_of_text typed = None →
       _setmaxtally (typed :: inputs) cfg = Raise ValueError
       ∧ _settallypenalty (typed :: inputs) cfg = Raise ValueError).
Proof.
  intros typed inputs cfg. unfold _setmaxtally, _settallypenalty.
  split; [|split; [|split; [|split]]].
  - intros n Hn.
    destruct (blank typed) eqn:Hb.
    { rewrite (int_of_text_blank typed Hb) in Hn. discriminate. }
    simpl. rewrite Hn. split; repeat case_bool_decide; try reflexivity;
      contradiction.
  - intros cfg' written Hm.
    destruct (blank typed); simpl.
    { intros [= <- <-]. repeat split; auto. discriminate. }
    destruct (int_of_text typed) as [n|]; [|discriminate].
    case_bool_decide; intros [= <- <-]; simpl.
    + repeat split; try lia; try discriminate. eauto.
    + repeat split; auto. discriminate.
  - intros cfg' written Hp.
    destruct (blank typed); simpl.
    { intros [= <- <-]. repeat split; auto. discriminate. }
    destruct (int_of_text typed) as [n|]; [|discriminate].
    case_bool_decide; intros [= <- <-]; simpl.
    + repeat split; try lia; try discriminate. eauto.
    + repeat split; auto. discriminate.
  - intros ->. split; reflexivity.
  - intros -> ->. split; reflexivity.
Qed.

Lemma setters_keep_settings_sound_witness :
  (_setmaxtally [" -12 "] ten = Ok (Settings 12 10 (AbortText "False"), true)
   ∧ _settallypenalty [" -12 "] ten
     = Ok (Settings 10 12 (AbortText "False"), true))
  ∧ (0 ≤ 12 ∧ tallypenalty ten = 10)
  ∧ _settallypenalty ["  "] ten = Ok (ten, false)
  ∧ _settallypenalty ["3.5"] ten = Raise ValueError.
Proof.
  destruct (setters_keep_settings_sound " -12 " [] ten) as (Hset & Hmax & _).
  destruct (Hmax (Settings 12 10 (AbortText "False")) true
              ltac:(simpl; lia) eq_refl) as (H0 & Hp & _).
  destruct (setters_keep_settings_sound "  " [] ten)
    as (_ & _ & _ & Hblank & _).
  destruct (setters_keep_settings_sound "3.5" [] ten)
    as (_ & _ & _ & _ & Hbad).
  split; [exact (Hset (-12) eq_refl)|].
  split; [split; [exact H0 | exact Hp]|].
  split; [apply Hblank; reflexivity | apply Hbad; reflexivity].
Defined.

(** X20.  With a [maxtally] and a [tallypenalty] that are not negative,
    the answer "n" leaves the card a tally within [0, maxtally] and
    marks no card; with [tallypenalty] 0 that tally is [maxtally]
    itself. *)
Theorem missed_card_tally_within_range :
  ∀ cfg k ans s s',
    0 ≤ maxtally cfg → 0 ≤ tallypenalty cfg →
    Py.first_lower_is "n" ans = true →
    respond cfg k ans s = Ok (Next s') →
    s_unwanted s' = s_unwanted s
    ∧ ∃ c t, s_cards s' !! k = Some c ∧ c_tally c = Py.Int t
             ∧ 0 ≤ t ≤ maxtally cfg
             ∧ (tallypenalty cfg = 0 → t = maxtally cfg).
Proof.
  intros cfg k ans s s' Hm Hp Hn Hresp.
  rewrite (respond_n cfg k ans s Hn) in Hresp.
  apply not_known_Next in Hresp as (c & Hc & ->). simpl.
  split; [reflexivity|].
  eexists _, _. split.
  - apply list_lookup_insert_eq. eapply lookup_lt_Some. exact Hc.
  - simpl. split; [reflexivity|]. split; lia.
Qed.

Lemma missed_card_tally_within_range_witness :
  ∃ s', respond (Settings 10 0 (AbortBool false)) 0 "no"
          (start ten [Card "cat" "d" "01/02/24" (Py.Int 4) (Py.Str "8") []])
        = Ok (Next s')
        ∧ s_unwanted s' = []
        ∧ (c_tally <$> s_cards s' !! 0%nat) = Some (Py.Int 10).
Proof.
  eexists. split; [reflexivity|].
  destruct (missed_card_tally_within_range (Settings 10 0 (AbortBool false))
              0 "no"
              (start ten [Card "cat" "d" "01/02/24" (Py.Int 4) (Py.Str "8") []])
              _ ltac:(simpl; lia) ltac:(simpl; lia) eq_refl eq_refl)
    as (Hu & c & t & Hc & Ht & _ & Hfull).
  split; [exact Hu|]. rewrite Hc. simpl. rewrite Ht, (Hfull eq_refl).
  reflexivity.
Defined.
